(** * Google-Keep-Clone backend: reminders, notes and request middleware

    A shallow embedding of the JavaScript sources

      - [src/models/Reminder.js]   the reminder schema, its pre-save hook, its
                                   instance methods and [findDueForNotification];
      - [src/models/User.js]       the note schema's flag-toggling methods;
      - [src/unnamed/part_000]     the Express middleware ([authenticateToken],
                                   [validateResourceOwnership],
                                   [createUserRateLimit]);

    followed by the properties of the specification that concern them.

    Conventions.  A JavaScript [Date] is its time value: an integral number
    of milliseconds since the epoch, or NaN ([None]).  The [Date] methods the
    sources call are written out after ECMA-262 (section "Date Objects"),
    over the time zone of the host, which is a parameter
    ([LocalTZA]).  Mongoose documents are records; what a Date path holds
    is a valid date, [null] or nothing, since Mongoose refuses an Invalid
    Date and keeps a cast error instead.  A method that mutates [this] is
    a function from the document to the mutated document, and a reading
    of the wall clock ([new Date()], [Date.now()]) is an argument of the
    function that performs it, as is the verdict of the schema's
    validators in a save.  The table of the rate limiter (a JavaScript
    [Map] keyed by user id) is a [gmap]; an [async] middleware is an
    interaction tree over the calls it awaits, so that "answers without
    calling" is "is a leaf". *)

From stdpp Require Import gmap strings list sorting.
From ITree Require Import ITree ITreeFacts Events.State Events.StateFacts.
From Stdlib Require Import ZArith Lia Floats Ascii.

Local Open Scope Z_scope.

(* ===================================================================== *)
(** * Part I.  Definitions                                                *)
(* ===================================================================== *)

(** ** ECMAScript dates and Numbers (ECMA-262)

    A time value is an integral Number of milliseconds.  All quantities
    of the date arithmetic stay far below 2^53 in absolute value whenever
    the final [TimeClip] accepts them, so that arithmetic is done in [Z],
    where it agrees with the double arithmetic of the engine.  A Number
    that the sources read from a document and hand to a [Date] setter is
    a double, and the arithmetic on it is that of [PrimFloat]. *)
Module ESDate.

(** An integral Number, [None] being NaN. *)
Definition Number := option Z.

(** The time value of a Date object, [None] being NaN ("Invalid Date"). *)
Definition Date := option Z.

(** The double nearest to an integer; it is that integer up to 2^53. *)
Definition Z2double (z : Z) : float :=
  SF2Prim (binary_normalize prec emax z 0 false).

(** An integral Number as the double it is. *)
Definition toDouble (n : Number) : float :=
  match n with
  | Some z => Z2double z
  | None => nan
  end.

(** The integer part of a finite double (ToIntegerOrInfinity of ECMA-262
    on the finite Numbers); [None] for NaN and the infinities, which the
    date operations answer with NaN. *)
Definition integerPart (x : float) : option Z :=
  match Prim2SF x with
  | S754_zero _ => Some 0
  | S754_finite s m e =>
      let a := if 0 <=? e then Z.pos m * 2 ^ e else Z.pos m `div` 2 ^ (- e) in
      Some (if s then - a else a)
  | S754_infinity _ => None
  | S754_nan => None
  end.

Definition msPerDay : Z := 86400000.

Definition Day (t : Z) : Z := t `div` msPerDay.

Definition TimeWithinDay (t : Z) : Z := t `mod` msPerDay.

Definition DaysInYear (y : Z) : Z :=
  if negb (y `mod` 4 =? 0) then 365
  else if negb (y `mod` 100 =? 0) then 366
  else if negb (y `mod` 400 =? 0) then 365
  else 366.

Definition DayFromYear (y : Z) : Z :=
  365 * (y - 1970) + (y - 1969) `div` 4 - (y - 1901) `div` 100
  + (y - 1601) `div` 400.

Definition TimeFromYear (y : Z) : Z := msPerDay * DayFromYear y.

(** ECMA-262 specifies [YearFromTime t] as the largest integer [y] with
    [TimeFromYear y <= t].  It is computed here from the mean length of a
    Gregorian year (365.2425 days), corrected by at most one year;
    [YearFromTime_spec] and [YearFromTime_unique] below show that this is
    the year of the specification. *)
Definition YearFromTime (t : Z) : Z :=
  let d := Day t in
  let y := 1970 + (d * 10000) `div` 3652425 in
  if d <? DayFromYear y then y - 1
  else if DayFromYear (y + 1) <=? d then y + 1
  else y.

Definition InLeapYear (t : Z) : Z :=
  if DaysInYear (YearFromTime t) =? 365 then 0 else 1.

Definition DayWithinYear (t : Z) : Z := Day t - DayFromYear (YearFromTime t).

Definition MonthFromTime (t : Z) : Z :=
  let d := DayWithinYear t in
  let leap := InLeapYear t in
  if d <? 31 then 0
  else if d <? 59 + leap then 1
  else if d <? 90 + leap then 2
  else if d <? 120 + leap then 3
  else if d <? 151 + leap then 4
  else if d <? 181 + leap then 5
  else if d <? 212 + leap then 6
  else if d <? 243 + leap then 7
  else if d <? 273 + leap then 8
  else if d <? 304 + leap then 9
  else if d <? 334 + leap then 10
  else 11.

Definition DateFromTime (t : Z) : Z :=
  let d := DayWithinYear t in
  let leap := InLeapYear t in
  match MonthFromTime t with
  | 0 => d + 1
  | 1 => d - 30
  | 2 => d - 58 - leap
  | 3 => d - 89 - leap
  | 4 => d - 119 - leap
  | 5 => d - 150 - leap
  | 6 => d - 180 - leap
  | 7 => d - 211 - leap
  | 8 => d - 242 - leap
  | 9 => d - 272 - leap
  | 10 => d - 303 - leap
  | _ => d - 333 - leap
  end.

(** Number of days of year [y] that precede the first day of month [mn]
    (0 = January). *)
Definition DaysBeforeMonth (y mn : Z) : Z :=
  let leap := if DaysInYear y =? 365 then 0 else 1 in
  match mn with
  | 0 => 0
  | 1 => 31
  | 2 => 59 + leap
  | 3 => 90 + leap
  | 4 => 120 + leap
  | 5 => 151 + leap
  | 6 => 181 + leap
  | 7 => 212 + leap
  | 8 => 243 + leap
  | 9 => 273 + leap
  | 10 => 304 + leap
  | _ => 334 + leap
  end.

(** [MakeDay year month date] on integers: the day number of the first
    day of month [month mod 12] of year [year + floor (month / 12)], plus
    [date - 1].  ECMA-262 asks for "a finite time value t such that
    YearFromTime(t) is ym, MonthFromTime(t) is mn and DateFromTime(t) is
    1"; [MakeDay_first_fields] shows that the day computed here is that
    one.  A year too far away for any time value is left to [TimeClip],
    which every caller below applies to the result. *)
Definition MakeDay (year month date : Z) : Z :=
  let ym := year + month `div` 12 in
  let mn := month `mod` 12 in
  DayFromYear ym + DaysBeforeMonth ym mn + date - 1.

Definition MakeDate (day time : Z) : Z := day * msPerDay + time.

Definition TimeClip (time : Z) : Date :=
  if 8640000000000000 <? Z.abs time then None else Some time.

(** [new Date(value)] for a Date [value]. *)
Definition newDate_copy (value : Date) : Date :=
  match value with
  | Some tv => TimeClip tv
  | None => None
  end.

Section LocalZone.

(** [LocalTZA(t, isUTC)] of ECMA-262: the offset of the host's local
    time zone from UTC, in milliseconds, in effect at the time value [t],
    which is a UTC time value when [isUTC] is [true] and a local time
    value otherwise (for a local time that a transition skips or repeats
    the host answers as ECMA-262 prescribes).  The zone of a host is what
    it is: every definition below takes it as given.  A zone without
    transitions is a constant function, UTC the function that is 0. *)
Variable LocalTZA : Z -> bool -> Z.

Definition LocalTime (t : Z) : Z := t + LocalTZA t true.

Definition UTC (t : Z) : Z := t - LocalTZA t false.

Definition getDate (d : Date) : Number :=
  match d with
  | Some t => Some (DateFromTime (LocalTime t))
  | None => None
  end.

Definition getMonth (d : Date) : Number :=
  match d with
  | Some t => Some (MonthFromTime (LocalTime t))
  | None => None
  end.

Definition getFullYear (d : Date) : Number :=
  match d with
  | Some t => Some (YearFromTime (LocalTime t))
  | None => None
  end.

(** [d.setDate(date)]: the new time value of [d].  A [date] that is not
    finite makes [MakeDay] answer NaN; a finite one is truncated. *)
Definition setDate (d : Date) (date : float) : Date :=
  match d with
  | None => None
  | Some t =>
      match integerPart date with
      | None => None
      | Some dt =>
          let t := LocalTime t in
          let newDate :=
            MakeDate (MakeDay (YearFromTime t) (MonthFromTime t) dt)
                     (TimeWithinDay t) in
          TimeClip (UTC newDate)
      end
  end.

(** [d.setMonth(month)], without the optional [date] argument. *)
Definition setMonth (d : Date) (month : float) : Date :=
  match d with
  | None => None
  | Some t =>
      match integerPart month with
      | None => None
      | Some m =>
          let t := LocalTime t in
          let dt := DateFromTime t in
          let newDate :=
            MakeDate (MakeDay (YearFromTime t) m dt) (TimeWithinDay t) in
          TimeClip (UTC newDate)
      end
  end.

(** [d.setFullYear(year)], without the optional arguments.  An invalid
    date is treated as time +0. *)
Definition setFullYear (d : Date) (year : float) : Date :=
  match integerPart year with
  | None => None
  | Some y =>
      let t := match d with
               | None => 0
               | Some t => LocalTime t
               end in
      let m := MonthFromTime t in
      let dt := DateFromTime t in
      let newDate := MakeDate (MakeDay y m dt) (TimeWithinDay t) in
      TimeClip (UTC newDate)
  end.

End LocalZone.

(** [a > b] on two Dates: both are converted to their time values, and a
    comparison with NaN is false. *)
Definition date_gt (a b : Date) : bool :=
  match a, b with
  | Some x, Some y => y <? x
  | _, _ => false
  end.

End ESDate.

(** ** The reminder document ([src/models/Reminder.js]) *)
Module ReminderModel.
Import ESDate.

(** What a document holds at a Date path.  Mongoose casts whatever is
    assigned to the path: it stores a valid Date, [null], or nothing
    ([undefined]); an Invalid Date it refuses (see [invalidate]). *)
Inductive DateValue : Type :=
| Undefined
| Null
| Stored (t : Z).

(** One entry of the [occurrences] history.  [completedAt] defaults to
    [null] and [wasSkipped] to [false]; [notes] has no default. *)
Module Occurrence.
Record t : Type := mk {
  scheduledFor : DateValue;
  completedAt : option Date;
  wasSkipped : bool;
  notes : option string
}.
End Occurrence.

(** The [recurrencePattern] sub-document.  [type] is the stored string
    (the schema enumerates 'daily', 'weekly', 'monthly', 'yearly' and
    'custom').  [interval] is the Number that the arithmetic of
    [calculateNextTrigger] reads at the path: a double, whole or not (the
    schema asks for [min: 1] and nothing else), with [null] read as +0
    and a missing value as NaN, as [+] and [*] convert them.  [endDate]
    and [occurrenceCount] are [null] ([None]) by default;
    [occurrenceCount] is only compared with the length of the history,
    and is held as a whole number (a count that is not whole compares
    as the next whole number does). *)
Module RecurrencePattern.
Record t : Type := mk {
  type : string;
  interval : float;
  daysOfWeek : list Z;
  dayOfMonth : option Z;
  endDate : option Date;
  occurrenceCount : option Z
}.
End RecurrencePattern.

(** The [location] sub-document; its Numbers are doubles. *)
Module Location.
Record t : Type := mk {
  name : option string;
  address : option string;
  latitude : option float;
  longitude : option float;
  radius : float
}.
End Location.

(** The document.  Object ids are held as their hexadecimal strings.
    [castErrors] is not a path: it lists the paths on which the document
    holds a pending cast error, which Mongoose keeps from a refused
    assignment until the path is assigned successfully, and which makes
    validation fail.  The [createdAt]/[updatedAt] stamps that Mongoose
    maintains on its own are left out. *)
Record Reminder : Type := mkReminder {
  user : string;
  firebaseUid : string;
  note : string;
  title : string;
  description : string;
  reminderDateTime : DateValue;
  timezone : string;
  isRecurring : bool;
  recurrencePattern : RecurrencePattern.t;
  isCompleted : bool;
  completedAt : option Date;
  isActive : bool;
  isSnoozed : bool;
  snoozeUntil : option Date;
  notificationSent : bool;
  notificationMethods : list string;
  priority : string;
  category : string;
  tags : list string;
  location : Location.t;
  occurrences : list Occurrence.t;
  lastTriggered : option Date;
  nextTrigger : DateValue;
  castErrors : list string
}.

(** The pending errors once [path] has been assigned successfully. *)
Definition without (path : string) (paths : list string) : list string :=
  List.filter (fun p => negb (String.eqb p path)) paths.

(** Assignment to one path of the document ([this.path = v]) of a value
    that the path accepts: the value is stored, and a cast error pending
    on the path is cleared. *)
Definition set_reminderDateTime (v : DateValue) (r : Reminder) : Reminder :=
  {| user := user r; firebaseUid := firebaseUid r; note := note r;
     title := title r; description := description r; reminderDateTime := v;
     timezone := timezone r; isRecurring := isRecurring r;
     recurrencePattern := recurrencePattern r; isCompleted := isCompleted r;
     completedAt := completedAt r; isActive := isActive r;
     isSnoozed := isSnoozed r; snoozeUntil := snoozeUntil r;
     notificationSent := notificationSent r;
     notificationMethods := notificationMethods r; priority := priority r;
     category := category r; tags := tags r; location := location r;
     occurrences := occurrences r; lastTriggered := lastTriggered r;
     nextTrigger := nextTrigger r;
     castErrors := without "reminderDateTime" (castErrors r) |}.

Definition set_isCompleted (v : bool) (r : Reminder) : Reminder :=
  {| user := user r; firebaseUid := firebaseUid r; note := note r;
     title := title r; description := description r;
     reminderDateTime := reminderDateTime r; timezone := timezone r;
     isRecurring := isRecurring r; recurrencePattern := recurrencePattern r;
     isCompleted := v; completedAt := completedAt r; isActive := isActive r;
     isSnoozed := isSnoozed r; snoozeUntil := snoozeUntil r;
     notificationSent := notificationSent r;
     notificationMethods := notificationMethods r; priority := priority r;
     category := category r; tags := tags r; location := location r;
     occurrences := occurrences r; lastTriggered := lastTriggered r;
     nextTrigger := nextTrigger r;
     castErrors := without "isCompleted" (castErrors r) |}.

Definition set_completedAt (v : option Date) (r : Reminder) : Reminder :=
  {| user := user r; firebaseUid := firebaseUid r; note := note r;
     title := title r; description := description r;
     reminderDateTime := reminderDateTime r; timezone := timezone r;
     isRecurring := isRecurring r; recurrencePattern := recurrencePattern r;
     isCompleted := isCompleted r; completedAt := v; isActive := isActive r;
     isSnoozed := isSnoozed r; snoozeUntil := snoozeUntil r;
     notificationSent := notificationSent r;
     notificationMethods := notificationMethods r; priority := priority r;
     category := category r; tags := tags r; location := location r;
     occurrences := occurrences r; lastTriggered := lastTriggered r;
     nextTrigger := nextTrigger r;
     castErrors := without "completedAt" (castErrors r) |}.

Definition set_isActive (v : bool) (r : Reminder) : Reminder :=
  {| user := user r; firebaseUid := firebaseUid r; note := note r;
     title := title r; description := description r;
     reminderDateTime := reminderDateTime r; timezone := timezone r;
     isRecurring := isRecurring r; recurrencePattern := recurrencePattern r;
     isCompleted := isCompleted r; completedAt := completedAt r;
     isActive := v; isSnoozed := isSnoozed r; snoozeUntil := snoozeUntil r;
     notificationSent := notificationSent r;
     notificationMethods := notificationMethods r; priority := priority r;
     category := category r; tags := tags r; location := location r;
     occurrences := occurrences r; lastTriggered := lastTriggered r;
     nextTrigger := nextTrigger r;
     castErrors := without "isActive" (castErrors r) |}.

Definition set_isSnoozed (v : bool) (r : Reminder) : Reminder :=
  {| user := user r; firebaseUid := firebaseUid r; note := note r;
     title := title r; description := description r;
     reminderDateTime := reminderDateTime r; timezone := timezone r;
     isRecurring := isRecurring r; recurrencePattern := recurrencePattern r;
     isCompleted := isCompleted r; completedAt := completedAt r;
     isActive := isActive r; isSnoozed := v; snoozeUntil := snoozeUntil r;
     notificationSent := notificationSent r;
     notificationMethods := notificationMethods r; priority := priority r;
     category := category r; tags := tags r; location := location r;
     occurrences := occurrences r; lastTriggered := lastTriggered r;
     nextTrigger := nextTrigger r;
     castErrors := without "isSnoozed" (castErrors r) |}.

Definition set_snoozeUntil (v : option Date) (r : Reminder) : Reminder :=
  {| user := user r; firebaseUid := firebaseUid r; note := note r;
     title := title r; description := description r;
     reminderDateTime := reminderDateTime r; timezone := timezone r;
     isRecurring := isRecurring r; recurrencePattern := recurrencePattern r;
     isCompleted := isCompleted r; completedAt := completedAt r;
     isActive := isActive r; isSnoozed := isSnoozed r; snoozeUntil := v;
     notificationSent := notificationSent r;
     notificationMethods := notificationMethods r; priority := priority r;
     category := category r; tags := tags r; location := location r;
     occurrences := occurrences r; lastTriggered := lastTriggered r;
     nextTrigger := nextTrigger r;
     castErrors := without "snoozeUntil" (castErrors r) |}.

Definition set_notificationSent (v : bool) (r : Reminder) : Reminder :=
  {| user := user r; firebaseUid := firebaseUid r; note := note r;
     title := title r; description := description r;
     reminderDateTime := reminderDateTime r; timezone := timezone r;
     isRecurring := isRecurring r; recurrencePattern := recurrencePattern r;
     isCompleted := isCompleted r; completedAt := completedAt r;
     isActive := isActive r; isSnoozed := isSnoozed r;
     snoozeUntil := snoozeUntil r; notificationSent := v;
     notificationMethods := notificationMethods r; priority := priority r;
     category := category r; tags := tags r; location := location r;
     occurrences := occurrences r; lastTriggered := lastTriggered r;
     nextTrigger := nextTrigger r;
     castErrors := without "notificationSent" (castErrors r) |}.

Definition set_nextTrigger (v : DateValue) (r : Reminder) : Reminder :=
  {| user := user r; firebaseUid := firebaseUid r; note := note r;
     title := title r; description := description r;
     reminderDateTime := reminderDateTime r; timezone := timezone r;
     isRecurring := isRecurring r; recurrencePattern := recurrencePattern r;
     isCompleted := isCompleted r; completedAt := completedAt r;
     isActive := isActive r; isSnoozed := isSnoozed r;
     snoozeUntil := snoozeUntil r; notificationSent := notificationSent r;
     notificationMethods := notificationMethods r; priority := priority r;
     category := category r; tags := tags r; location := location r;
     occurrences := occurrences r; lastTriggered := lastTriggered r;
     nextTrigger := v; castErrors := without "nextTrigger" (castErrors r) |}.

(** The [occurrences] array after [this.occurrences.push(...)]. *)
Definition set_occurrences (v : list Occurrence.t) (r : Reminder) : Reminder :=
  {| user := user r; firebaseUid := firebaseUid r; note := note r;
     title := title r; description := description r;
     reminderDateTime := reminderDateTime r; timezone := timezone r;
     isRecurring := isRecurring r; recurrencePattern := recurrencePattern r;
     isCompleted := isCompleted r; completedAt := completedAt r;
     isActive := isActive r; isSnoozed := isSnoozed r;
     snoozeUntil := snoozeUntil r; notificationSent := notificationSent r;
     notificationMethods := notificationMethods r; priority := priority r;
     category := category r; tags := tags r; location := location r;
     occurrences := v; lastTriggered := lastTriggered r;
     nextTrigger := nextTrigger r; castErrors := castErrors r |}.

(** An assignment that the path refuses: the paths keep their values and
    the document a cast error on [path]. *)
Definition invalidate (path : string) (r : Reminder) : Reminder :=
  {| user := user r; firebaseUid := firebaseUid r; note := note r;
     title := title r; description := description r;
     reminderDateTime := reminderDateTime r; timezone := timezone r;
     isRecurring := isRecurring r; recurrencePattern := recurrencePattern r;
     isCompleted := isCompleted r; completedAt := completedAt r;
     isActive := isActive r; isSnoozed := isSnoozed r;
     snoozeUntil := snoozeUntil r; notificationSent := notificationSent r;
     notificationMethods := notificationMethods r; priority := priority r;
     category := category r; tags := tags r; location := location r;
     occurrences := occurrences r; lastTriggered := lastTriggered r;
     nextTrigger := nextTrigger r;
     castErrors := path :: without path (castErrors r) |}.

(** The document [r] with another [nextTrigger] and other pending
    errors, every path but [nextTrigger] as it is. *)
Definition with_nextTrigger (v : DateValue) (errors : list string)
    (r : Reminder) : Reminder :=
  {| user := user r; firebaseUid := firebaseUid r; note := note r;
     title := title r; description := description r;
     reminderDateTime := reminderDateTime r; timezone := timezone r;
     isRecurring := isRecurring r; recurrencePattern := recurrencePattern r;
     isCompleted := isCompleted r; completedAt := completedAt r;
     isActive := isActive r; isSnoozed := isSnoozed r;
     snoozeUntil := snoozeUntil r; notificationSent := notificationSent r;
     notificationMethods := notificationMethods r; priority := priority r;
     category := category r; tags := tags r; location := location r;
     occurrences := occurrences r; lastTriggered := lastTriggered r;
     nextTrigger := v; castErrors := errors |}.

(** JavaScript truthiness of a Number-or-null path and of a Date-or-null
    path (a Date object is truthy even when invalid). *)
Definition truthy_number (n : option Z) : bool :=
  match n with
  | Some c => negb (c =? 0)
  | None => false
  end.

Definition truthy_date (d : option Date) : bool :=
  match d with
  | Some _ => true
  | None => false
  end.

(** [new Date() > d] for a Date-or-null path [d], the clock reading
    [now]; only evaluated where [d] is truthy. *)
Definition now_after (now : Z) (d : option Date) : bool :=
  match d with
  | Some d' => date_gt (Some now) d'
  | None => false
  end.

(** [new Date(value)] for what a Date path holds: [undefined] gives an
    Invalid Date, [null] the epoch, a Date a copy of it. *)
Definition newDate (value : DateValue) : Date :=
  match value with
  | Undefined => None
  | Null => Some 0
  | Stored tv => TimeClip tv
  end.

(** [this.nextTrigger = current] for a Date object [current]: a valid
    Date is stored, an Invalid Date is refused. *)
Definition assign_nextTrigger (current : Date) (r : Reminder) : Reminder :=
  match current with
  | Some tv => set_nextTrigger (Stored tv) r
  | None => invalidate "nextTrigger" r
  end.

Section Methods.

Variable LocalTZA : Z -> bool -> Z.

(** [reminderSchema.methods.calculateNextTrigger] *)
Definition calculateNextTrigger (r : Reminder) : Reminder :=
  if negb (isRecurring r) then set_nextTrigger (reminderDateTime r) r
  else
    let current := newDate (reminderDateTime r) in
    let pattern := recurrencePattern r in
    let ty := RecurrencePattern.type pattern in
    let current :=
      if String.eqb ty "daily" then
        setDate LocalTZA current
          (toDouble (getDate LocalTZA current)
           + RecurrencePattern.interval pattern)%float
      else if String.eqb ty "weekly" then
        setDate LocalTZA current
          (toDouble (getDate LocalTZA current)
           + 7 * RecurrencePattern.interval pattern)%float
      else if String.eqb ty "monthly" then
        setMonth LocalTZA current
          (toDouble (getMonth LocalTZA current)
           + RecurrencePattern.interval pattern)%float
      else if String.eqb ty "yearly" then
        setFullYear LocalTZA current
          (toDouble (getFullYear LocalTZA current)
           + RecurrencePattern.interval pattern)%float
      else
        setDate LocalTZA current
          (toDouble (getDate LocalTZA current) + 1)%float in
    assign_nextTrigger current r.

(** [reminderSchema.methods.scheduleNextOccurrence]; [now] is the
    reading of [new Date()] in the end-date test.  The assignment
    [this.reminderDateTime = this.nextTrigger] hands over what the path
    [nextTrigger] holds; no method changes a stored Date in place, so
    the two paths can be held as two values. *)
Definition scheduleNextOccurrence (now : Z) (r : Reminder) : Reminder :=
  if negb (isRecurring r) then r
  else if truthy_date (RecurrencePattern.endDate (recurrencePattern r))
          && now_after now (RecurrencePattern.endDate (recurrencePattern r))
  then set_isActive false r
  else if truthy_number
            (RecurrencePattern.occurrenceCount (recurrencePattern r))
          && match RecurrencePattern.occurrenceCount (recurrencePattern r)
             with
             | Some c => c <=? Z.of_nat (length (occurrences r))
             | None => false
             end
  then set_isActive false r
  else
    let r := calculateNextTrigger r in
    let r := set_reminderDateTime (nextTrigger r) r in
    let r := set_isCompleted false r in
    let r := set_completedAt None r in
    set_notificationSent false r.

(** [reminderSchema.pre('save', ...)]; [now] is the reading of
    [new Date()] in the snooze test. *)
Definition preSave (now : Z) (r : Reminder) : Reminder :=
  let r :=
    if isRecurring r && isActive r && negb (isCompleted r)
    then calculateNextTrigger r
    else if negb (isRecurring r)
    then set_nextTrigger (reminderDateTime r) r
    else r in
  if isSnoozed r && truthy_date (snoozeUntil r)
     && now_after now (snoozeUntil r)
  then set_snoozeUntil None (set_isSnoozed false r)
  else r.

(** A save that passes validation: the document as it is handed to the
    database, that is after the pre-save hook. *)
Definition save (now : Z) (r : Reminder) : Reminder := preSave now r.

(** What [this.save()] settles to, with the document as it then is in
    memory. *)
Inductive SaveResult : Type :=
| Saved (r : Reminder)
| Rejected (r : Reminder).

Definition document (s : SaveResult) : Reminder :=
  match s with
  | Saved r => r
  | Rejected r => r
  end.

(** [this.save()].  Validation runs first: it fails when a cast error is
    pending or when the validators of the schema (required, enum, min,
    maxlength) refuse the document, which is for [accepted] to say; the
    promise is then rejected and the pre-save hook does not run.
    Otherwise the hook runs, at clock reading [now], and the document is
    written. *)
Definition trySave (accepted : bool) (now : Z) (r : Reminder) : SaveResult :=
  match castErrors r with
  | [] => if accepted then Saved (save now r) else Rejected r
  | _ :: _ => Rejected r
  end.

(** [reminderSchema.methods.markCompleted].  The three clock readings
    are, in program order, the one stored in [completedAt], the one of
    [scheduleNextOccurrence] and the one of the pre-save hook. *)
Definition markCompleted (accepted : bool) (nowC nowS nowP : Z)
    (r : Reminder) : SaveResult :=
  let r := set_isCompleted true r in
  let r := set_completedAt (Some (Some nowC)) r in
  let r :=
    if isRecurring r then
      let r :=
        set_occurrences
          (occurrences r ++
           [Occurrence.mk (reminderDateTime r) (completedAt r) false None])
          r in
      scheduleNextOccurrence nowS r
    else r in
  trySave accepted nowP r.

(** [reminderSchema.methods.dismiss] *)
Definition dismiss (accepted : bool) (nowS nowP : Z) (r : Reminder)
  : SaveResult :=
  let r :=
    if isRecurring r then
      let r :=
        set_occurrences
          (occurrences r ++
           [Occurrence.mk (reminderDateTime r) None true None])
          r in
      scheduleNextOccurrence nowS r
    else set_isActive false r in
  trySave accepted nowP r.

End Methods.

(** The query operator [{ $lte: now }] on a date path: it matches stored
    dates only. *)
Definition date_lte (d : DateValue) (now : Z) : bool :=
  match d with
  | Stored t => t <=? now
  | Null => false
  | Undefined => false
  end.

(** [{ $lte: now }] on a Date-or-null path held as a Date object. *)
Definition date_object_lte (d : Date) (now : Z) : bool :=
  match d with
  | Some t => t <=? now
  | None => false
  end.

(** The filter of [reminderSchema.statics.findDueForNotification]:

    { isActive: true, isCompleted: false, notificationSent: false,
      reminderDateTime: { $lte: now },
      $or: [ { isSnoozed: false }, { snoozeUntil: { $lte: now } } ] }

    A null [snoozeUntil] does not match [$lte]. *)
Definition dueForNotification (now : Z) (r : Reminder) : bool :=
  Bool.eqb (isActive r) true
  && Bool.eqb (isCompleted r) false
  && Bool.eqb (notificationSent r) false
  && date_lte (reminderDateTime r) now
  && (Bool.eqb (isSnoozed r) false
      || match snoozeUntil r with
         | Some d => date_object_lte d now
         | None => false
         end).

(** [findDueForNotification] over the stored collection, [now] being the
    reading of [new Date()]. *)
Definition findDueForNotification (now : Z) (collection : list Reminder)
  : list Reminder :=
  List.filter (dueForNotification now) collection.

End ReminderModel.

(** ** Calendar vocabulary of the specification

    The specification speaks of a date "advanced by" days, calendar months
    and calendar years.  These definitions give those words a meaning of
    their own, written from the civil calendar and the clock of the host
    and not from the [Date] methods; Part II compares them with what the
    code computes. *)
Module CalendarSpec.
Import ESDate ReminderModel.

(** The largest magnitude of a time value (100,000,000 days). *)
Definition maxTime : Z := 8640000000000000.

(** The path holds the date with time value [t]. *)
Definition validDate (d : DateValue) (t : Z) : Prop :=
  d = Stored t /\ Z.abs t <= maxTime.

(** [new Date(value)] of what the path holds is the date with time
    value [t]: the path holds that date, or it holds [null], which reads
    as the epoch. *)
Definition readAs (d : DateValue) (t : Z) : Prop :=
  validDate d t \/ (d = Null /\ t = 0).

(** A calendar date with a time of day: year, month (0 = January),
    day of the month (from 1) and milliseconds since midnight. *)
Record CalendarDate : Type := mkCalendarDate {
  year : Z;
  month : Z;
  date : Z;
  timeOfDay : Z
}.

Definition DaysInMonth (y m : Z) : Z :=
  match m with
  | 1 => DaysInYear y - 337
  | 3 | 5 | 8 | 10 => 30
  | _ => 31
  end.

(** A calendar date that exists. *)
Definition wellFormed (c : CalendarDate) : Prop :=
  0 <= month c < 12 /\ 1 <= date c <= DaysInMonth (year c) (month c)
  /\ 0 <= timeOfDay c < msPerDay.

(** The calendar date that a clock shows at the local time value [lt]. *)
Definition fields (lt : Z) : CalendarDate :=
  {| year := YearFromTime lt;
     month := MonthFromTime lt;
     date := DateFromTime lt;
     timeOfDay := TimeWithinDay lt |}.

(** The local time value at which a clock shows the calendar date [c]
    ([instant_fields] and [fields_instant] in Part II): the days before
    the year, before the month and before the day, then the time of
    day. *)
Definition instant (c : CalendarDate) : Z :=
  (DayFromYear (year c) + DaysBeforeMonth (year c) (month c) + date c - 1)
  * msPerDay + timeOfDay c.

(** A day of the month past the end of its month shifts into the month
    that follows ("January 31 plus one month" is "February 31", that is
    March 2 or 3). *)
Definition rollOver (c : CalendarDate) : CalendarDate :=
  if date c <=? DaysInMonth (year c) (month c) then c
  else if month c <? 11 then
    {| year := year c; month := month c + 1;
       date := date c - DaysInMonth (year c) (month c);
       timeOfDay := timeOfDay c |}
  else
    {| year := year c + 1; month := 0;
       date := date c - DaysInMonth (year c) (month c);
       timeOfDay := timeOfDay c |}.

(** [n] calendar months later: the month count [12 * year + month] grows
    by [n], the day of the month and the time of day are kept, and a day
    that the target month does not have shifts. *)
Definition plusMonths (n : Z) (c : CalendarDate) : CalendarDate :=
  rollOver
    {| year := (12 * year c + month c + n) `div` 12;
       month := (12 * year c + month c + n) `mod` 12;
       date := date c;
       timeOfDay := timeOfDay c |}.

(** [n] calendar years later, likewise (February 29 shifts to March 1
    in a common year). *)
Definition plusYears (n : Z) (c : CalendarDate) : CalendarDate :=
  rollOver
    {| year := year c + n; month := month c; date := date c;
       timeOfDay := timeOfDay c |}.

Section Zone.

Variable LocalTZA : Z -> bool -> Z.

(** The calendar date shown by the clock of the host at time value [t]. *)
Definition localFields (t : Z) : CalendarDate :=
  fields (LocalTime LocalTZA t).

(** The date at which the clock of the host reads the local time value
    [lt]; there is none (an Invalid Date) outside the range of time
    values. *)
Definition atLocalTime (lt : Z) : Date := TimeClip (UTC LocalTZA lt).

(** The date [t] advanced by [n] days on the clock of the host: the
    clock reads the same time of day, [n] days on. *)
Definition laterByDays (n t : Z) : Date :=
  atLocalTime (LocalTime LocalTZA t + n * msPerDay).

(** The date [t] advanced by [n] calendar months, and by [n] calendar
    years, on the clock of the host. *)
Definition laterByMonths (n t : Z) : Date :=
  atLocalTime (instant (plusMonths n (localFields t))).

Definition laterByYears (n t : Z) : Date :=
  atLocalTime (instant (plusYears n (localFields t))).

(** The zone has the same offset at the date [t] and [n] days on, on the
    clock of the host: no transition in between, or transitions that
    cancel. *)
Definition sameOffsetAfterDays (n t : Z) : Prop :=
  LocalTZA (LocalTime LocalTZA t + n * msPerDay) false = LocalTZA t true.

End Zone.

(** Adding the double [x] to the whole number [base] and taking the
    integer part, as the [Date] setters do with their argument, moves
    [base] by [n]. *)
Definition movesBy (base : Z) (x : float) (n : Z) : Prop :=
  integerPart (Z2double base + x)%float = Some (base + n).

(** The same sum is not finite. *)
Definition movesNowhere (base : Z) (x : float) : Prop :=
  integerPart (Z2double base + x)%float = None.

End CalendarSpec.

(** ** Vocabulary of the specification for reminders *)
Module ReminderSpec.
Import ESDate ReminderModel.

(** "The pattern's endDate is set and has passed" at clock reading [now]. *)
Definition endDatePassed (now : Z) (r : Reminder) : Prop :=
  exists e : Z,
    RecurrencePattern.endDate (recurrencePattern r) = Some (Some e)
    /\ e < now.

(** "occurrenceCount is set and the occurrence history has reached it". *)
Definition occurrenceCountReached (r : Reminder) : Prop :=
  exists c : Z,
    RecurrencePattern.occurrenceCount (recurrencePattern r) = Some c
    /\ c <> 0 /\ c <= Z.of_nat (length (occurrences r)).

(** The recorded occurrence will not be the last one: no end date has
    passed at [now], and a set occurrence count leaves room for more than
    one further entry of the history. *)
Definition recurrenceContinues (now : Z) (r : Reminder) : Prop :=
  ~ endDatePassed now r
  /\ forall c : Z,
       RecurrencePattern.occurrenceCount (recurrencePattern r) = Some c ->
       c = 0 \/ Z.of_nat (length (occurrences r)) + 1 < c.

(** The reminders that the specification says [findDueForNotification]
    returns: "active, incomplete reminders whose reminderDateTime <= now
    AND (not snoozed OR snooze has expired)". *)
Definition dueAsSpecified (now : Z) (r : Reminder) : Prop :=
  isActive r = true
  /\ isCompleted r = false
  /\ (exists t : Z, reminderDateTime r = Stored t /\ t <= now)
  /\ (isSnoozed r = false
      \/ exists u : Z, snoozeUntil r = Some (Some u) /\ u <= now).

(** [r'] is [r] after the Date object [d] was assigned to the path
    [nextTrigger] as Mongoose assigns to a Date path: a date is stored
    and a cast error that was pending on the path is cleared; an Invalid
    Date is refused, so the path keeps what it held and the document
    holds a cast error on it.  No other path differs. *)
Definition nextTriggerAssigned (d : Date) (r r' : Reminder) : Prop :=
  match d with
  | Some u =>
      r' = with_nextTrigger (Stored u)
             (without "nextTrigger" (castErrors r)) r
  | None =>
      r' = with_nextTrigger (nextTrigger r)
             ("nextTrigger" :: without "nextTrigger" (castErrors r)) r
  end.

(** The occurrence record of a completion at [nowC] of the occurrence
    scheduled for [d]: [{scheduledFor: d, completedAt: nowC}], the other
    paths at their defaults. *)
Definition completedOccurrence (d : DateValue) (nowC : Z) : Occurrence.t :=
  Occurrence.mk d (Some (Some nowC)) false None.

(** A recurring reminder as [markCompleted] hands it to
    [scheduleNextOccurrence]: completed at [nowC], the completion
    recorded in the history. *)
Definition completedWith (nowC : Z) (r : Reminder) : Reminder :=
  set_occurrences
    (occurrences r ++ [completedOccurrence (reminderDateTime r) nowC])
    (set_completedAt (Some (Some nowC)) (set_isCompleted true r)).

End ReminderSpec.

(** ** The note document (the note schema in [src/models/User.js]) *)
Module NoteModel.
Import ESDate.

Module ListItem.
Record t : Type := mk {
  id : string;
  text : string;
  completed : bool;
  order : Z
}.
End ListItem.

(** The document.  [title] and [content] may be absent ([None]), which
    the pre-save hook reads as the empty string.  The [attachments] and
    [sharedWith] arrays, which no method below reads or writes, and the
    stamps that Mongoose maintains are left out. *)
Record Note : Type := mkNote {
  user : string;
  firebaseUid : string;
  title : option string;
  content : option string;
  color : string;
  type : string;
  listItems : list ListItem.t;
  labels : list string;
  category : string;
  isPinned : bool;
  isArchived : bool;
  isDeleted : bool;
  isFavorite : bool;
  reminder : option string;
  lastModified : Date;
  deletedAt : option Date;
  searchableText : option string
}.

(** Assignment to one path of the document. *)
Definition set_labels (v : list string) (n : Note) : Note :=
  {| user := user n; firebaseUid := firebaseUid n; title := title n;
     content := content n; color := color n; type := type n;
     listItems := listItems n; labels := v; category := category n;
     isPinned := isPinned n; isArchived := isArchived n;
     isDeleted := isDeleted n; isFavorite := isFavorite n;
     reminder := reminder n; lastModified := lastModified n;
     deletedAt := deletedAt n; searchableText := searchableText n |}.

Definition set_isPinned (v : bool) (n : Note) : Note :=
  {| user := user n; firebaseUid := firebaseUid n; title := title n;
     content := content n; color := color n; type := type n;
     listItems := listItems n; labels := labels n; category := category n;
     isPinned := v; isArchived := isArchived n; isDeleted := isDeleted n;
     isFavorite := isFavorite n; reminder := reminder n;
     lastModified := lastModified n; deletedAt := deletedAt n;
     searchableText := searchableText n |}.

Definition set_isArchived (v : bool) (n : Note) : Note :=
  {| user := user n; firebaseUid := firebaseUid n; title := title n;
     content := content n; color := color n; type := type n;
     listItems := listItems n; labels := labels n; category := category n;
     isPinned := isPinned n; isArchived := v; isDeleted := isDeleted n;
     isFavorite := isFavorite n; reminder := reminder n;
     lastModified := lastModified n; deletedAt := deletedAt n;
     searchableText := searchableText n |}.

Definition set_isDeleted (v : bool) (n : Note) : Note :=
  {| user := user n; firebaseUid := firebaseUid n; title := title n;
     content := content n; color := color n; type := type n;
     listItems := listItems n; labels := labels n; category := category n;
     isPinned := isPinned n; isArchived := isArchived n; isDeleted := v;
     isFavorite := isFavorite n; reminder := reminder n;
     lastModified := lastModified n; deletedAt := deletedAt n;
     searchableText := searchableText n |}.

Definition set_isFavorite (v : bool) (n : Note) : Note :=
  {| user := user n; firebaseUid := firebaseUid n; title := title n;
     content := content n; color := color n; type := type n;
     listItems := listItems n; labels := labels n; category := category n;
     isPinned := isPinned n; isArchived := isArchived n;
     isDeleted := isDeleted n; isFavorite := v; reminder := reminder n;
     lastModified := lastModified n; deletedAt := deletedAt n;
     searchableText := searchableText n |}.

Definition set_lastModified (v : Date) (n : Note) : Note :=
  {| user := user n; firebaseUid := firebaseUid n; title := title n;
     content := content n; color := color n; type := type n;
     listItems := listItems n; labels := labels n; category := category n;
     isPinned := isPinned n; isArchived := isArchived n;
     isDeleted := isDeleted n; isFavorite := isFavorite n;
     reminder := reminder n; lastModified := v; deletedAt := deletedAt n;
     searchableText := searchableText n |}.

Definition set_deletedAt (v : option Date) (n : Note) : Note :=
  {| user := user n; firebaseUid := firebaseUid n; title := title n;
     content := content n; color := color n; type := type n;
     listItems := listItems n; labels := labels n; category := category n;
     isPinned := isPinned n; isArchived := isArchived n;
     isDeleted := isDeleted n; isFavorite := isFavorite n;
     reminder := reminder n; lastModified := lastModified n;
     deletedAt := v; searchableText := searchableText n |}.

Definition set_searchableText (v : option string) (n : Note) : Note :=
  {| user := user n; firebaseUid := firebaseUid n; title := title n;
     content := content n; color := color n; type := type n;
     listItems := listItems n; labels := labels n; category := category n;
     isPinned := isPinned n; isArchived := isArchived n;
     isDeleted := isDeleted n; isFavorite := isFavorite n;
     reminder := reminder n; lastModified := lastModified n;
     deletedAt := deletedAt n; searchableText := v |}.

(** [xs.join(' ')] *)
Fixpoint join_space (xs : list string) : string :=
  match xs with
  | [] => ""
  | [x] => x
  | x :: rest => x +:+ " " +:+ join_space rest
  end.

(** [labels.includes(label)] *)
Definition includes_label (label : string) (ls : list string) : bool :=
  existsb (String.eqb label) ls.

Section Methods.

(** [String.prototype.toLowerCase] of the engine. *)
Variable toLowerCase : string -> string.

(** [String.prototype.trim] of the engine, which the setter of the
    [labels] path ([trim: true]) applies to what is pushed. *)
Variable trim : string -> string.

(** [noteSchema.pre('save', ...)]; [now] is the reading of [new Date()]. *)
Definition preSave (now : Z) (n : Note) : Note :=
  let n :=
    set_searchableText
      (Some (toLowerCase
               (join_space
                  [ default "" (title n);
                    default "" (content n);
                    join_space (labels n);
                    join_space (List.map ListItem.text (listItems n)) ])))
      n in
  set_lastModified (Some now) n.

(** [this.save()]: the document after the pre-save hook; validation and
    the write itself are taken to succeed. *)
Definition save (now : Z) (n : Note) : Note := preSave now n.

(** [noteSchema.methods.togglePin] *)
Definition togglePin (now : Z) (n : Note) : Note :=
  let n := set_isPinned (negb (isPinned n)) n in
  save now n.

(** [noteSchema.methods.toggleArchive] *)
Definition toggleArchive (now : Z) (n : Note) : Note :=
  let n := set_isArchived (negb (isArchived n)) n in
  let n := if isArchived n then set_isPinned false n else n in
  save now n.

(** [noteSchema.methods.toggleFavorite] *)
Definition toggleFavorite (now : Z) (n : Note) : Note :=
  let n := set_isFavorite (negb (isFavorite n)) n in
  save now n.

(** [noteSchema.methods.softDelete]; [nowD] is the reading stored in
    [deletedAt]. *)
Definition softDelete (nowD now : Z) (n : Note) : Note :=
  let n := set_isDeleted true n in
  let n := set_deletedAt (Some (Some nowD)) n in
  let n := set_isPinned false n in
  save now n.

(** [noteSchema.methods.restore] *)
Definition restore (now : Z) (n : Note) : Note :=
  let n := set_isDeleted false n in
  let n := set_deletedAt None n in
  save now n.

(** [noteSchema.methods.addLabel].  The test reads the label as given;
    what [push] stores is the label trimmed. *)
Definition addLabel (label : string) (now : Z) (n : Note) : Note :=
  if negb (includes_label label (labels n))
  then save now (set_labels (labels n ++ [trim label]) n)
  else n.

(** [noteSchema.methods.removeLabel] *)
Definition removeLabel (label : string) (now : Z) (n : Note) : Note :=
  let n :=
    set_labels
      (List.filter (fun l => negb (String.eqb l label)) (labels n)) n in
  save now n.

(** The public operations on a note, each with the clock readings it
    performs, and their execution in sequence. *)
Inductive NoteOp : Type :=
| TogglePin (now : Z)
| ToggleArchive (now : Z)
| ToggleFavorite (now : Z)
| SoftDelete (nowD now : Z)
| Restore (now : Z)
| AddLabel (label : string) (now : Z)
| RemoveLabel (label : string) (now : Z)
| Save (now : Z).

Definition run_op (n : Note) (op : NoteOp) : Note :=
  match op with
  | TogglePin now => togglePin now n
  | ToggleArchive now => toggleArchive now n
  | ToggleFavorite now => toggleFavorite now n
  | SoftDelete nowD now => softDelete nowD now n
  | Restore now => restore now n
  | AddLabel label now => addLabel label now n
  | RemoveLabel label now => removeLabel label now n
  | Save now => save now n
  end.

Definition run_ops (ops : list NoteOp) (n : Note) : Note :=
  fold_left run_op ops n.

End Methods.

(** A note as the schema defaults make it for the given owner. *)
Definition newNote (owner uid : string) (created : Z) : Note :=
  {| user := owner; firebaseUid := uid; title := Some ""; content := Some "";
     color := "#ffffff"; type := "note"; listItems := []; labels := [];
     category := "personal"; isPinned := false; isArchived := false;
     isDeleted := false; isFavorite := false; reminder := None;
     lastModified := Some created; deletedAt := None;
     searchableText := None |}.

(** The invariant of the specification: "archived notes cannot be
    pinned; deleted notes cannot be pinned". *)
Definition pinExclusion (n : Note) : Prop :=
  isPinned n = true -> isArchived n = false /\ isDeleted n = false.

End NoteModel.

(** ** The request middleware ([src/unnamed/part_000]) *)
Module Middleware.

(** *** Strings *)

(** [s.split(sep)] for a one-character separator: the pieces between the
    occurrences of [sep], at least one piece. *)
Fixpoint split (sep : Ascii.ascii) (s : string) : list string :=
  match s with
  | EmptyString => [EmptyString]
  | String c rest =>
      if Ascii.eqb c sep then EmptyString :: split sep rest
      else
        match split sep rest with
        | piece :: pieces => String c piece :: pieces
        | [] => [String c EmptyString]
        end
  end.

(** [s.includes(sub)] *)
Fixpoint includes (sub s : string) : bool :=
  String.prefix sub s
  || match s with
     | EmptyString => false
     | String _ rest => includes sub rest
     end.

(** Truthiness of a string-or-undefined value. *)
Definition truthy_string (s : option string) : bool :=
  match s with
  | Some EmptyString => false
  | Some _ => true
  | None => false
  end.

(** *** Documents and requests *)

(** The claims of a verified Firebase ID token. *)
Record DecodedToken : Type := mkDecodedToken {
  uid : string;
  email : option string;
  name : option string;
  picture : option string;
  email_verified : option bool
}.

(** The part of a user document that the middleware reads.  Object ids
    are held as their hexadecimal strings, so [_id.toString()] is the
    field itself. *)
Record User : Type := mkUser {
  _id : string;
  firebaseUid : string;
  userEmail : string;
  displayName : string;
  photoURL : option string;
  emailVerified : bool;
  isActive : bool;
  role : option string
}.

(** The argument of [User.createFromFirebase]. *)
Record FirebaseProfile : Type := mkFirebaseProfile {
  profile_uid : string;
  profile_email : option string;
  profile_displayName : string;
  profile_photoURL : option string;
  profile_emailVerified : bool
}.

(** A document of the model handed to [validateResourceOwnership]: its
    owner by internal id ([user]) and by Firebase uid. *)
Module Resource.
Record t : Type := mk {
  id : string;
  user : string;
  firebaseUid : string
}.
End Resource.

Record Headers : Type := mkHeaders {
  authorization : option string
}.

Record Request : Type := mkRequest {
  headers : Headers;
  params : gmap string string;
  user : option User;
  firebaseUser : option DecodedToken;
  resource : option Resource.t
}.

Definition set_auth (u : User) (d : DecodedToken) (req : Request) : Request :=
  {| headers := headers req; params := params req; user := Some u;
     firebaseUser := Some d; resource := resource req |}.

Definition set_resource (r : Resource.t) (req : Request) : Request :=
  {| headers := headers req; params := params req; user := user req;
     firebaseUser := firebaseUser req; resource := Some r |}.

(** The JSON body of an error response.  A key the handler does not write
    is [None]; [retryAfter] is a Number, NaN included. *)
Record Body : Type := mkBody {
  success : bool;
  message : string;
  code : option string;
  retryAfter : option ESDate.Number
}.

(** What a middleware does with a request: it answers
    ([res.status(s).json(body)]) or hands the request on ([next()]). *)
Inductive Outcome : Type :=
| Responded (status : Z) (body : Body)
| Next (req : Request).

(** *** Calls that may throw

    An awaited call completes normally with a value or throws an [Error]
    with a message. *)
Inductive Completion (A : Type) : Type :=
| Normal (a : A)
| Threw (errorMessage : string).
Arguments Normal {A} a.
Arguments Threw {A} errorMessage.

(** The collaborators that [authenticateToken] imports: the identity
    verifier ([verifyIdToken] of [config/firebase]) and the user
    directory (the statics and methods of the [User] model). *)
Variant authE : Type -> Type :=
| VerifyIdToken (token : string) : authE (Completion DecodedToken)
| FindByFirebaseUid (uid : string) : authE (Completion (option User))
| CreateFromFirebase (p : FirebaseProfile) : authE (Completion User)
| UpdateLastLogin (u : User) : authE (Completion unit).

Section TryBlock.
Context {E : Type -> Type}.

(** Sequencing inside a [try] block: a throw skips the rest. *)
Definition try_bind {A B : Type} (m : itree E (Completion A))
    (k : A -> itree E (Completion B)) : itree E (Completion B) :=
  ITree.bind m (fun c =>
    match c with
    | Normal a => k a
    | Threw msg => Ret (Threw msg)
    end).

(** [try { body } catch (error) { handler }] *)
Definition try_catch {A : Type} (body : itree E (Completion A))
    (handler : string -> itree E A) : itree E A :=
  ITree.bind body (fun c =>
    match c with
    | Normal a => Ret a
    | Threw msg => handler msg
    end).
End TryBlock.

Notation "x <~ m ;; k" := (try_bind m (fun x => k))
  (at level 62, m at next level, right associativity, only parsing).

(** The message of the TypeError that the engine raises on reading a
    property of [undefined]. *)
Definition typeErrorMessage (property : string) : string :=
  "Cannot read properties of undefined (reading '" +:+ property +:+ "')".

(** [authHeader && authHeader.split(' ')[1]], read for its truthiness and,
    when truthy, its value. *)
Definition bearerToken (authHeader : option string) : option string :=
  match authHeader with
  | None => None
  | Some EmptyString => None
  | Some h =>
      match split " "%char h !! 1%nat with
      | Some EmptyString => None
      | Some token => Some token
      | None => None
      end
  end.

(** [authenticateToken].  The [console] output of the middleware is left
    out. *)
Definition authenticateToken (req : Request) : itree authE Outcome :=
  try_catch
    (match bearerToken (authorization (headers req)) with
     | None =>
         Ret (Normal (Responded 401
                {| success := false; message := "Access token required";
                   code := None; retryAfter := None |}))
     | Some token =>
         decodedToken <~ ITree.trigger (VerifyIdToken token) ;;
         found <~ ITree.trigger (FindByFirebaseUid (uid decodedToken)) ;;
         usr <~
           match found with
           | None =>
               shown <~
                 (if truthy_string (name decodedToken)
                  then Ret (Normal (default "" (name decodedToken)))
                  else
                    match email decodedToken with
                    | Some e => Ret (Normal (default "" (split "@"%char e !! 0%nat)))
                    | None => Ret (Threw (typeErrorMessage "split"))
                    end) ;;
               ITree.trigger
                 (CreateFromFirebase
                    {| profile_uid := uid decodedToken;
                       profile_email := email decodedToken;
                       profile_displayName := shown;
                       profile_photoURL :=
                         if truthy_string (picture decodedToken)
                         then picture decodedToken else None;
                       profile_emailVerified :=
                         default false (email_verified decodedToken) |})
           | Some u =>
               _ <~ ITree.trigger (UpdateLastLogin u) ;;
               Ret (Normal u)
           end ;;
         Ret (Normal (Next (set_auth usr decodedToken req)))
     end)
    (fun errorMessage =>
       if includes "expired" errorMessage then
         Ret (Responded 401
                {| success := false; message := "Token has expired";
                   code := Some "TOKEN_EXPIRED"; retryAfter := None |})
       else if includes "Invalid token" errorMessage
               || includes "invalid" errorMessage then
         Ret (Responded 401
                {| success := false;
                   message := "Invalid authentication token";
                   code := Some "INVALID_TOKEN"; retryAfter := None |})
       else
         Ret (Responded 401
                {| success := false; message := "Authentication failed";
                   code := Some "AUTH_FAILED"; retryAfter := None |})).

(** The model handed to [validateResourceOwnership]: its [findById],
    a call with effects in [E] that may throw.  The argument is
    [req.params[resourceParam]], undefined ([None]) when the route has no
    such parameter. *)
Record ResourceModel (E : Type -> Type) : Type := mkResourceModel {
  findById : option string -> itree E (Completion (option Resource.t))
}.
Arguments findById {E} _ _.

(** [validateResourceOwnership(resourceModel, resourceParam)] *)
Definition validateResourceOwnership {E : Type -> Type}
    (resourceModel : ResourceModel E) (resourceParam : string)
    (req : Request) : itree E Outcome :=
  try_catch
    (let resourceId := params req !! resourceParam in
     found <~ findById resourceModel resourceId ;;
     match found with
     | None =>
         Ret (Normal (Responded 404
                {| success := false; message := "Resource not found";
                   code := None; retryAfter := None |}))
     | Some res =>
         (* resource.user.toString() !== req.user._id.toString() *)
         differentUser <~
           match user req with
           | Some u =>
               Ret (Normal (negb (String.eqb (Resource.user res) (_id u))))
           | None => Ret (Threw (typeErrorMessage "_id"))
           end ;;
         (* && resource.firebaseUid !== req.firebaseUser.uid *)
         notOwner <~
           (if differentUser then
              match firebaseUser req with
              | Some d =>
                  Ret (Normal
                         (negb (String.eqb (Resource.firebaseUid res) (uid d))))
              | None => Ret (Threw (typeErrorMessage "uid"))
              end
            else Ret (Normal false)) ;;
         if notOwner then
           Ret (Normal (Responded 403
                  {| success := false;
                     message := "Access denied: You do not own this resource";
                     code := None; retryAfter := None |}))
         else Ret (Normal (Next (set_resource res req)))
     end)
    (fun _ =>
       Ret (Responded 500
              {| success := false; message := "Internal server error";
                 code := None; retryAfter := None |})).

(** The bodies of three answers, named for the statements of Part II. *)
Definition tokenRequiredBody : Body :=
  {| success := false; message := "Access token required"; code := None;
     retryAfter := None |}.

Definition notFoundBody : Body :=
  {| success := false; message := "Resource not found"; code := None;
     retryAfter := None |}.

Definition accessDeniedBody : Body :=
  {| success := false;
     message := "Access denied: You do not own this resource";
     code := None; retryAfter := None |}.

(** An Authorization header that carries no token, as far as
    [authenticateToken] looks: the header is absent, or the second of its
    space-separated pieces is missing or empty.  The first piece (the
    scheme, "Bearer") is not inspected. *)
Definition carriesNoToken (authHeader : option string) : Prop :=
  match authHeader with
  | None => True
  | Some h =>
      split " "%char h !! 1%nat = None
      \/ split " "%char h !! 1%nat = Some EmptyString
  end.

(** [Math.ceil(x / 1000)] for an integer [x]. *)
Definition ceil_div_1000 (x : Z) : Z := - ((- x) `div` 1000).

Section RateLimit.

(** The text of the template literal
    [`Too many requests. Maximum ${max} requests per ${windowMs / 1000} seconds.`]
    as the engine renders it for the given [max] and [windowMs]. *)
Variable tooManyRequestsText : Z -> Z -> string.

(** The middleware returned by [createUserRateLimit(windowMs, max,
    message)], as a transition on the table [userRequests] that the
    closure owns; [now] is the reading of [Date.now()]. *)
Definition createUserRateLimit (windowMs max : Z) (message : option string)
    (now : Z) (req : Request) (userRequests : gmap string (list Z))
  : Outcome * gmap string (list Z) :=
  match user req with
  | None => (Next req, userRequests)
  | Some u =>
      let userId := _id u in
      let windowStart := now - windowMs in
      let userRequestTimes := default [] (userRequests !! userId) in
      let recentRequests :=
        List.filter (fun time => windowStart <? time) userRequestTimes in
      if max <=? Z.of_nat (length recentRequests) then
        (Responded 429
           {| success := false;
              message :=
                if truthy_string message then default "" message
                else tooManyRequestsText max windowMs;
              code := None;
              retryAfter :=
                Some (match recentRequests !! 0%nat with
                      | Some oldest =>
                          Some (ceil_div_1000 (oldest + windowMs - now))
                      | None => None
                      end) |},
         userRequests)
      else
        (Next req, <[userId := recentRequests ++ [now]]> userRequests)
  end.

End RateLimit.

End Middleware.

(** ** The rest of the reminder model ([src/models/Reminder.js])

    The virtuals, the remaining instance methods and the remaining
    statics. *)
Module ReminderMore.
Import ESDate ReminderModel.

(** Assignment to the paths [priority] and [tags]. *)
Definition set_priority (v : string) (r : Reminder) : Reminder :=
  {| user := user r; firebaseUid := firebaseUid r; note := note r;
     title := title r; description := description r;
     reminderDateTime := reminderDateTime r; timezone := timezone r;
     isRecurring := isRecurring r; recurrencePattern := recurrencePattern r;
     isCompleted := isCompleted r; completedAt := completedAt r;
     isActive := isActive r; isSnoozed := isSnoozed r;
     snoozeUntil := snoozeUntil r; notificationSent := notificationSent r;
     notificationMethods := notificationMethods r; priority := v;
     category := category r; tags := tags r; location := location r;
     occurrences := occurrences r; lastTriggered := lastTriggered r;
     nextTrigger := nextTrigger r;
     castErrors := without "priority" (castErrors r) |}.

Definition set_tags (v : list string) (r : Reminder) : Reminder :=
  {| user := user r; firebaseUid := firebaseUid r; note := note r;
     title := title r; description := description r;
     reminderDateTime := reminderDateTime r; timezone := timezone r;
     isRecurring := isRecurring r; recurrencePattern := recurrencePattern r;
     isCompleted := isCompleted r; completedAt := completedAt r;
     isActive := isActive r; isSnoozed := isSnoozed r;
     snoozeUntil := snoozeUntil r; notificationSent := notificationSent r;
     notificationMethods := notificationMethods r; priority := priority r;
     category := category r; tags := v; location := location r;
     occurrences := occurrences r; lastTriggered := lastTriggered r;
     nextTrigger := nextTrigger r;
     castErrors := without "tags" (castErrors r) |}.

(** The [tags] array after [this.tags.push(...)]. *)
Definition push_tags (v : list string) (r : Reminder) : Reminder :=
  {| user := user r; firebaseUid := firebaseUid r; note := note r;
     title := title r; description := description r;
     reminderDateTime := reminderDateTime r; timezone := timezone r;
     isRecurring := isRecurring r; recurrencePattern := recurrencePattern r;
     isCompleted := isCompleted r; completedAt := completedAt r;
     isActive := isActive r; isSnoozed := isSnoozed r;
     snoozeUntil := snoozeUntil r; notificationSent := notificationSent r;
     notificationMethods := notificationMethods r; priority := priority r;
     category := category r; tags := v; location := location r;
     occurrences := occurrences r; lastTriggered := lastTriggered r;
     nextTrigger := nextTrigger r; castErrors := castErrors r |}.

(** [new Date() > v] for what a Date path holds, [now] being the reading
    of [new Date()]: [null] converts to 0 and [undefined] to NaN. *)
Definition now_after_path (now : Z) (v : DateValue) : bool :=
  match v with
  | Undefined => false
  | Null => 0 <? now
  | Stored t => t <? now
  end.

(** The virtual [isOverdue], [now] being the reading of [new Date()]. *)
Definition isOverdue (now : Z) (r : Reminder) : bool :=
  if isCompleted r || negb (isActive r) then false
  else now_after_path now (reminderDateTime r).

(** The virtual [timeUntilReminder]: [null] ([None]) for a completed or
    inactive reminder, otherwise the Number
    [new Date(this.reminderDateTime).getTime() - now.getTime()], NaN for an
    invalid date. *)
Definition timeUntilReminder (now : Z) (r : Reminder) : option Number :=
  if isCompleted r || negb (isActive r) then None
  else
    Some (match newDate (reminderDateTime r) with
          | Some reminderTime => Some (reminderTime - now)
          | None => None
          end).

(** [tags.includes(tag)] *)
Definition includes_tag (tag : string) (ts : list string) : bool :=
  existsb (String.eqb tag) ts.

(** The priority levels that [updatePriority] accepts. *)
Definition priorityLevels : list string := ["low"; "medium"; "high"; "urgent"].

(** What a method returns: the promise of [this.save()], or [this]
    itself, or nothing because it throws an [Error]; with the document
    as the call leaves it in memory. *)
Inductive Returned : Type :=
| Settled (s : SaveResult)
| This (r : Reminder)
| Thrown (r : Reminder) (errorMessage : string).

Definition returnedDocument (x : Returned) : Reminder :=
  match x with
  | Settled s => document s
  | This r => r
  | Thrown r _ => r
  end.

Section Methods.

Variable LocalTZA : Z -> bool -> Z.

(** [String.prototype.trim] of the engine, which the setter of the
    [tags] path applies to what is pushed. *)
Variable trim : string -> string.

(** [reminderSchema.methods.snooze]; [snoozeMinutes] is [None] when the
    argument is omitted (the default 10 applies), [now] is the reading of
    [Date.now()] and [nowP] the reading of the pre-save hook.  An
    Invalid Date is refused by the path. *)
Definition snooze (snoozeMinutes : option Z) (accepted : bool) (now nowP : Z)
    (r : Reminder) : SaveResult :=
  let snoozeMinutes := default 10 snoozeMinutes in
  let r := set_isSnoozed true r in
  let r :=
    match TimeClip (now + snoozeMinutes * 60 * 1000) with
    | Some tv => set_snoozeUntil (Some (Some tv)) r
    | None => invalidate "snoozeUntil" r
    end in
  trySave LocalTZA accepted nowP r.

(** [reminderSchema.methods.updatePriority] *)
Definition updatePriority (newPriority : string) (accepted : bool) (nowP : Z)
    (r : Reminder) : Returned :=
  if existsb (String.eqb newPriority) priorityLevels
  then Settled (trySave LocalTZA accepted nowP (set_priority newPriority r))
  else Thrown r "Invalid priority level".

(** [reminderSchema.methods.addTag]: a tag already present returns the
    document as it is, without saving. *)
Definition addTag (tag : string) (accepted : bool) (nowP : Z) (r : Reminder)
  : Returned :=
  if negb (includes_tag tag (tags r))
  then Settled (trySave LocalTZA accepted nowP
                  (push_tags (tags r ++ [trim tag]) r))
  else This r.

(** [reminderSchema.methods.removeTag] *)
Definition removeTag (tag : string) (accepted : bool) (nowP : Z)
    (r : Reminder) : SaveResult :=
  let r :=
    set_tags (List.filter (fun t => negb (String.eqb t tag)) (tags r)) r in
  trySave LocalTZA accepted nowP r.

End Methods.

(** *** The statics

    A query runs over the stored collection.  [sort({ reminderDateTime: 1 })]
    orders the selected documents by ascending [reminderDateTime], a missing
    or null date first; the order among equal dates is that of the merge
    sort. *)
Definition dateValue_le (a b : DateValue) : Prop :=
  match a, b with
  | Stored x, Stored y => x <= y
  | Stored _, _ => False
  | _, _ => True
  end.

#[export] Instance dateValue_le_dec : RelDecision dateValue_le.
Proof.
  intros [| |x] [| |y]; cbn;
    first [apply Z_le_dec | right; tauto | left; exact I].
Defined.

(** The same order on stamps held as Date objects, a missing one
    first. *)
Definition date_le (a b : Date) : Prop :=
  match a, b with
  | None, _ => True
  | Some _, None => False
  | Some x, Some y => x <= y
  end.

#[export] Instance date_le_dec : RelDecision date_le.
Proof.
  intros [x|] [y|]; cbn; [apply Z_le_dec | right; tauto | left; exact I
                          | left; exact I].
Defined.

Definition byReminderDateTime (r1 r2 : Reminder) : Prop :=
  dateValue_le (reminderDateTime r1) (reminderDateTime r2).

#[export] Instance byReminderDateTime_dec : RelDecision byReminderDateTime.
Proof. intros r1 r2. unfold byReminderDateTime. apply dateValue_le_dec. Defined.

Definition sortByReminderDateTime (rs : list Reminder) : list Reminder :=
  merge_sort byReminderDateTime rs.

(** The query operators [{ $lt: now }] and [{ $gte: now }] on a date
    path. *)
Definition date_lt (d : DateValue) (now : Z) : bool :=
  match d with
  | Stored t => t <? now
  | Null => false
  | Undefined => false
  end.

Definition date_gte (d : DateValue) (now : Z) : bool :=
  match d with
  | Stored t => now <=? t
  | Null => false
  | Undefined => false
  end.

(** The [options] of [findByUser]; an option that is not given is
    [None]. *)
Record FindOptions : Type := mkFindOptions {
  activeOnly : option bool;
  completedOnly : option bool;
  incompleteOnly : option bool
}.

Definition is_true (o : option bool) : bool :=
  match o with
  | Some true => true
  | _ => false
  end.

Definition is_false (o : option bool) : bool :=
  match o with
  | Some false => true
  | _ => false
  end.

(** [reminderSchema.statics.findByUser] *)
Definition findByUser (userId : string) (options : FindOptions)
    (collection : list Reminder) : list Reminder :=
  sortByReminderDateTime
    (List.filter
       (fun r =>
          String.eqb (user r) userId
          && (if negb (is_false (activeOnly options))
              then Bool.eqb (isActive r) true else true)
          && (if is_true (completedOnly options)
              then Bool.eqb (isCompleted r) true
              else if is_true (incompleteOnly options)
              then Bool.eqb (isCompleted r) false
              else true))
       collection).

(** [reminderSchema.statics.findOverdue], [now] being the reading of
    [new Date()]. *)
Definition findOverdue (userId : string) (now : Z)
    (collection : list Reminder) : list Reminder :=
  sortByReminderDateTime
    (List.filter
       (fun r =>
          String.eqb (user r) userId
          && Bool.eqb (isActive r) true
          && Bool.eqb (isCompleted r) false
          && date_lt (reminderDateTime r) now)
       collection).

(** [reminderSchema.statics.findUpcoming]; [hours] is [None] when the
    argument is omitted (the default 24 applies).  A bound [future] that
    is not a valid date matches nothing. *)
Definition findUpcoming (userId : string) (hours : option Z) (now : Z)
    (collection : list Reminder) : list Reminder :=
  let hours := default 24 hours in
  let future := TimeClip (now + hours * 60 * 60 * 1000) in
  sortByReminderDateTime
    (List.filter
       (fun r =>
          String.eqb (user r) userId
          && Bool.eqb (isActive r) true
          && Bool.eqb (isCompleted r) false
          && date_gte (reminderDateTime r) now
          && match future with
             | Some f => date_lte (reminderDateTime r) f
             | None => false
             end)
       collection).

(** [reminderSchema.statics.findByPriority] *)
Definition findByPriority (userId priority : string)
    (collection : list Reminder) : list Reminder :=
  sortByReminderDateTime
    (List.filter
       (fun r =>
          String.eqb (user r) userId
          && String.eqb (ReminderModel.priority r) priority
          && Bool.eqb (isActive r) true
          && Bool.eqb (isCompleted r) false)
       collection).

(** [reminderSchema.statics.findByCategory] *)
Definition findByCategory (userId category : string)
    (collection : list Reminder) : list Reminder :=
  sortByReminderDateTime
    (List.filter
       (fun r =>
          String.eqb (user r) userId
          && String.eqb (ReminderModel.category r) category
          && Bool.eqb (isActive r) true)
       collection).

End ReminderMore.

(** ** The rest of the note model (the note schema in [src/models/User.js])

    The pre-find hook and the statics that select by owner, category and
    label.  [searchNotes] (a text-index search) and the virtuals are left
    out. *)
Module NoteMore.
Import ESDate NoteModel.

(** A condition on the path [isDeleted]: [isDeleted: b] or
    [isDeleted: { $ne: b }]. *)
Inductive DeletedCondition : Type :=
| DeletedIs (b : bool)
| DeletedIsNot (b : bool).

(** The filter object of a query, as far as these statics build it; a key
    that is not set is [None]. *)
Record NoteQuery : Type := mkNoteQuery {
  q_user : string;
  q_category : option string;
  q_labels : option string;
  q_isArchived : option bool;
  q_isDeleted : option DeletedCondition
}.

(** [noteSchema.pre(/^find/, ...)]: unless the filter has its own
    [isDeleted] key, [{ isDeleted: { $ne: true } }] is added. *)
Definition preFind (q : NoteQuery) : NoteQuery :=
  match q_isDeleted q with
  | Some _ => q
  | None =>
      {| q_user := q_user q; q_category := q_category q;
         q_labels := q_labels q; q_isArchived := q_isArchived q;
         q_isDeleted := Some (DeletedIsNot true) |}
  end.

(** Whether a stored note matches a filter; [labels: l] matches a note
    whose [labels] array contains [l]. *)
Definition matches (q : NoteQuery) (n : Note) : bool :=
  String.eqb (user n) (q_user q)
  && match q_category q with
     | Some c => String.eqb (category n) c
     | None => true
     end
  && match q_labels q with
     | Some l => existsb (String.eqb l) (labels n)
     | None => true
     end
  && match q_isArchived q with
     | Some b => Bool.eqb (isArchived n) b
     | None => true
     end
  && match q_isDeleted q with
     | Some (DeletedIs b) => Bool.eqb (isDeleted n) b
     | Some (DeletedIsNot b) => negb (Bool.eqb (isDeleted n) b)
     | None => true
     end.

(** The [options] of [findByUser]; an option that is not given is
    [None]. *)
Record FindOptions : Type := mkFindOptions {
  includeArchived : option bool;
  includeDeleted : option bool
}.

Definition is_true (o : option bool) : bool :=
  match o with
  | Some true => true
  | _ => false
  end.

Section Statics.

(** The [updatedAt] stamp that Mongoose keeps on every note. *)
Variable updatedAt : Note -> Date.

(** The order of [sort({ isPinned: -1, updatedAt: -1 })]: pinned notes
    first, then later [updatedAt] first (a missing stamp last); the order
    among equal keys is that of the merge sort. *)
Definition pinnedThenRecent (n1 n2 : Note) : Prop :=
  (isPinned n1 = true /\ isPinned n2 = false)
  \/ (isPinned n1 = isPinned n2
      /\ ReminderMore.date_le (updatedAt n2) (updatedAt n1)).

#[export] Instance pinnedThenRecent_dec : RelDecision pinnedThenRecent.
Proof.
  intros n1 n2. unfold pinnedThenRecent.
  pose proof ReminderMore.date_le_dec as Hdec. apply _.
Defined.

(** [this.find(query).sort({ isPinned: -1, updatedAt: -1 })] on the note
    model: the pre-find hook, the selection, the sort. *)
Definition find_sorted (q : NoteQuery) (collection : list Note)
  : list Note :=
  merge_sort pinnedThenRecent (List.filter (matches (preFind q)) collection).

(** [noteSchema.statics.findByUser] *)
Definition findByUser (userId : string) (options : FindOptions)
    (collection : list Note) : list Note :=
  find_sorted
    {| q_user := userId; q_category := None; q_labels := None;
       q_isArchived :=
         if negb (is_true (includeArchived options)) then Some false
         else None;
       q_isDeleted :=
         if negb (is_true (includeDeleted options))
         then Some (DeletedIs false) else None |}
    collection.

(** [noteSchema.statics.findByCategory] *)
Definition findByCategory (userId category : string)
    (collection : list Note) : list Note :=
  find_sorted
    {| q_user := userId; q_category := Some category; q_labels := None;
       q_isArchived := Some false; q_isDeleted := Some (DeletedIs false) |}
    collection.

(** [noteSchema.statics.findByLabel] *)
Definition findByLabel (userId label : string)
    (collection : list Note) : list Note :=
  find_sorted
    {| q_user := userId; q_category := None; q_labels := Some label;
       q_isArchived := Some false; q_isDeleted := Some (DeletedIs false) |}
    collection.

End Statics.

(** The paths of a note that [softDelete], [restore] and [toggleArchive]
    may change without the note becoming another note to its user: the
    status flags aside, its owner, texts, colour, type, items, labels,
    category and reminder. *)
Definition sameContent (n1 n2 : Note) : Prop :=
  user n1 = user n2 /\ firebaseUid n1 = firebaseUid n2
  /\ title n1 = title n2 /\ content n1 = content n2
  /\ color n1 = color n2 /\ type n1 = type n2
  /\ listItems n1 = listItems n2 /\ labels n1 = labels n2
  /\ category n1 = category n2 /\ reminder n1 = reminder n2.

End NoteMore.

(** ** The rest of the middleware ([src/unnamed/part_000]) and the
    verifier it imports ([verifyIdToken] in [src/unnamed/part_002]) *)
Module MiddlewareMore.
Import Middleware.

(** The call of the Firebase Admin SDK that [verifyIdToken] wraps. *)
Variant firebaseE : Type -> Type :=
| AdminVerifyIdToken (idToken : string) : firebaseE (Completion DecodedToken).

(** [verifyIdToken] of [config/firebase]: whatever the SDK throws is
    replaced by [new Error('Invalid token')]. *)
Definition verifyIdToken (idToken : string)
  : itree firebaseE (Completion DecodedToken) :=
  ITree.bind (ITree.trigger (AdminVerifyIdToken idToken)) (fun c =>
    match c with
    | Normal decodedToken => Ret (Normal decodedToken)
    | Threw _ => Ret (Threw "Invalid token")
    end).

(** [optionalAuth].  [req.user] and [req.firebaseUser] are assigned before
    [updateLastLogin] is awaited, so a throw of that call reaches the
    [catch] with the request already carrying them. *)
Definition optionalAuth (req : Request) : itree authE Outcome :=
  try_catch
    (match bearerToken (authorization (headers req)) with
     | Some token =>
         decodedToken <~ ITree.trigger (VerifyIdToken token) ;;
         found <~ ITree.trigger (FindByFirebaseUid (uid decodedToken)) ;;
         match found with
         | Some u =>
             if isActive u then
               ITree.bind (ITree.trigger (UpdateLastLogin u)) (fun c =>
                 match c with
                 | Normal _ => Ret (Normal (Next (set_auth u decodedToken req)))
                 | Threw _ => Ret (Normal (Next (set_auth u decodedToken req)))
                 end)
             else Ret (Normal (Next req))
         | None => Ret (Normal (Next req))
         end
     | None => Ret (Normal (Next req))
     end)
    (fun _ => Ret (Next req)).

(** [checkUserStatus]: it awaits nothing; reading [isActive] of a missing
    [req.user] throws inside its [try]. *)
Definition checkUserStatus (req : Request) : Outcome :=
  match user req with
  | Some u =>
      if negb (isActive u) then
        Responded 403
          {| success := false; message := "Account is deactivated";
             code := Some "ACCOUNT_INACTIVE"; retryAfter := None |}
      else Next req
  | None =>
      Responded 500
        {| success := false; message := "Internal server error";
           code := None; retryAfter := None |}
  end.

(** [requireEmailVerification]: it has no [try], so reading
    [email_verified] of a missing [req.firebaseUser] throws out of the
    middleware. *)
Definition requireEmailVerification (req : Request) : Completion Outcome :=
  match firebaseUser req with
  | Some d =>
      if negb (default false (email_verified d)) then
        Normal (Responded 403
                  {| success := false;
                     message := "Email verification required";
                     code := Some "EMAIL_NOT_VERIFIED"; retryAfter := None |})
      else Normal (Next req)
  | None => Threw (typeErrorMessage "email_verified")
  end.

(** What [requireRole] does with a request; its 403 body carries the
    required roles and the current one. *)
Inductive RoleOutcome : Type :=
| RoleResponded (status : Z) (message : string)
    (required : option (list string)) (current : option string)
| RoleNext (req : Request).

(** [requireRole(roles)] *)
Definition requireRole (roles : list string) (req : Request) : RoleOutcome :=
  match user req with
  | None => RoleResponded 401 "Authentication required" None None
  | Some u =>
      let userRole := if truthy_string (role u) then default "" (role u)
                      else "user" in
      if negb (existsb (String.eqb userRole) roles)
      then RoleResponded 403 "Insufficient permissions" (Some roles)
             (Some userRole)
      else RoleNext req
  end.

(** [User.findByFirebaseUid] of [src/models/User.js] over the collection
    of user documents: [this.findOne({ firebaseUid, isActive: true })]. *)
Definition findByFirebaseUid (users : list User) (subject : string)
  : option User :=
  List.find (fun u => String.eqb (firebaseUid u) subject && isActive u) users.

(** The bodies of three more answers. *)
Definition accountInactiveBody : Body :=
  {| success := false; message := "Account is deactivated";
     code := Some "ACCOUNT_INACTIVE"; retryAfter := None |}.

Definition emailNotVerifiedBody : Body :=
  {| success := false; message := "Email verification required";
     code := Some "EMAIL_NOT_VERIFIED"; retryAfter := None |}.

Definition internalErrorBody : Body :=
  {| success := false; message := "Internal server error";
     code := None; retryAfter := None |}.

(** *** Running a middleware against its collaborators

    The answers of the collaborators for one request: of the Firebase
    Admin SDK, and of the three calls into the user directory. *)
Record World : Type := mkWorld {
  adminVerify : string -> Completion DecodedToken;
  directoryFind : string -> Completion (option User);
  directoryCreate : FirebaseProfile -> Completion User;
  directoryUpdate : User -> Completion unit
}.

(** The calls a run has made, in order. *)
Inductive Call : Type :=
| CalledVerify (token : string)
| CalledFind (uid : string)
| CalledCreate (p : FirebaseProfile)
| CalledUpdate (u : User).

Definition answerFirebase (w : World) : forall T, firebaseE T -> itree void1 T :=
  fun T e =>
    match e in firebaseE T return itree void1 T with
    | AdminVerifyIdToken idToken => Ret (adminVerify w idToken)
    end.

(** Each call is logged and answered; [VerifyIdToken] is answered by
    running [verifyIdToken] against the SDK. *)
Definition collaborate (w : World)
  : forall T, authE T -> Monads.stateT (list Call) (itree void1) T :=
  fun T e log =>
    match e in authE T return itree void1 (list Call * T) with
    | VerifyIdToken token =>
        ITree.bind (interp (answerFirebase w) (verifyIdToken token))
          (fun answer => Ret (log ++ [CalledVerify token], answer))
    | FindByFirebaseUid uid =>
        Ret (log ++ [CalledFind uid], directoryFind w uid)
    | CreateFromFirebase p =>
        Ret (log ++ [CalledCreate p], directoryCreate w p)
    | UpdateLastLogin u =>
        Ret (log ++ [CalledUpdate u], directoryUpdate w u)
    end.

(** A run from an empty log: the calls made and the result. *)
Definition run {A : Type} (w : World) (t : itree authE A)
  : itree void1 (list Call * A) :=
  interp_state (collaborate w) t [].

(** The answer of [verifyIdToken] in a world. *)
Definition verified (w : World) (token : string) : Completion DecodedToken :=
  match adminVerify w token with
  | Normal d => Normal d
  | Threw _ => Threw "Invalid token"
  end.

Definition invalidTokenBody : Body :=
  {| success := false; message := "Invalid authentication token";
     code := Some "INVALID_TOKEN"; retryAfter := None |}.

(** The name under which a first login is registered:
    [decodedToken.name || decodedToken.email.split('@')[0]]. *)
Definition shownName (d : DecodedToken) (e : string) : string :=
  if truthy_string (name d) then default "" (name d)
  else default "" (split "@"%char e !! 0%nat).

(** *** Serving a sequence of requests through one limiter *)

(** Whether the request carries the user with id [userId]. *)
Definition requestOf (userId : string) (req : Request) : bool :=
  match user req with
  | Some u => String.eqb (_id u) userId
  | None => false
  end.

(** Whether the clock reading [t] lies in the window of length [windowMs]
    that ends at [till]: [till - windowMs < t <= till]. *)
Definition inWindow (windowMs till t : Z) : bool :=
  (till - windowMs <? t) && (t <=? till).

Section Serving.

Variable tooManyRequestsText : Z -> Z -> string.
Variables windowMs max : Z.
Variable message : option string.

(** The requests the limiter let pass for [userId], by their clock
    readings, when it serves [requests] in order from [table]. *)
Fixpoint passedTimes (userId : string) (requests : list (Z * Request))
    (table : gmap string (list Z)) : list Z :=
  match requests with
  | [] => []
  | (now, req) :: rest =>
      let served :=
        createUserRateLimit tooManyRequestsText windowMs max message now req
          table in
      (match served.1, user req with
       | Next _, Some u => if String.eqb (_id u) userId then [now] else []
       | _, _ => []
       end)
      ++ passedTimes userId rest served.2
  end.

(** The table after serving [requests] in order from [table]. *)
Definition tableAfter (requests : list (Z * Request))
    (table : gmap string (list Z)) : gmap string (list Z) :=
  fold_left
    (fun tbl '(now, req) =>
       (createUserRateLimit tooManyRequestsText windowMs max message now req
          tbl).2)
    requests table.


(** The entry of a user agrees with the record of its passed requests on
    every reading later than [from]. *)
Definition entry_agrees (from : Z) (stored passed : list Z) : Prop :=
  forall c, from <= c ->
    List.filter (fun time => c <? time) stored
    = List.filter (fun time => c <? time) passed.

(** No window of [windowMs] milliseconds holds more than [max] of the
    readings. *)
Definition window_bounded (passed : list Z) : Prop :=
  forall till,
    Z.of_nat (length (List.filter (inWindow windowMs till) passed)) <= max.

End Serving.

End MiddlewareMore.

(** ** More calendar vocabulary *)
Module CalendarMore.
Import ESDate.

(** The day number of the first day of the month with month count
    [k = 12 * year + month]. *)
Definition monthStart (k : Z) : Z :=
  DayFromYear (k `div` 12) + DaysBeforeMonth (k `div` 12) (k `mod` 12).

End CalendarMore.

(** ** Sample documents and requests *)
Module Samples.
Import ESDate ReminderModel.

(** 2024-01-01T10:00:00Z and 2024-01-04T10:00:00Z. *)
Definition jan_1_2024_10h : Z := 1704103200000.
Definition jan_4_2024_10h : Z := 1704362400000.

Definition noLocation : Location.t :=
  Location.mk None None None None 100%float.

(** A host that keeps UTC. *)
Definition utc : Z -> bool -> Z := fun _ _ => 0.

(** A host on the clock of New York around the start of daylight saving
    time in 2024: five hours behind UTC before 2024-03-10T07:00Z (02:00 on
    the local clock), four hours behind from then on; the local hour
    that the transition skips is read with the offset before it. *)
Definition newYorkSpring2024 : Z -> bool -> Z :=
  fun t isUTC =>
    if isUTC
    then if t <? 1710054000000 then -18000000 else -14400000
    else if t <? 1710039600000 then -18000000 else -14400000.

(** 2024-03-09T15:00:00Z, 10:00 on the clock of New York. *)
Definition mar_9_2024_15h : Z := 1709996400000.

(** A fresh active reminder for 2024-01-01T10:00Z that recurs with the
    given pattern. *)
Definition recurringReminder (pattern : RecurrencePattern.t) : Reminder :=
  {| user := "64b000000000000000000001"; firebaseUid := "uid-A";
     note := "64b0000000000000000000a1"; title := "Water the plants";
     description := ""; reminderDateTime := Stored jan_1_2024_10h;
     timezone := "UTC"; isRecurring := true; recurrencePattern := pattern;
     isCompleted := false; completedAt := None; isActive := true;
     isSnoozed := false; snoozeUntil := None; notificationSent := false;
     notificationMethods := ["push"]; priority := "medium";
     category := "personal"; tags := []; location := noLocation;
     occurrences := []; lastTriggered := None; nextTrigger := Undefined;
     castErrors := [] |}.

Definition everyThreeDays : RecurrencePattern.t :=
  RecurrencePattern.mk "daily" 3 [] None None None.

Definition dailyTwice : RecurrencePattern.t :=
  RecurrencePattern.mk "daily" 1 [] None None (Some 2).


(** Every day and a half: an interval that the schema accepts. *)
Definition everyDayAndAHalf : RecurrencePattern.t :=
  RecurrencePattern.mk "daily" 1.5 [] None None None.

(** The skipped occurrence that [dismiss] records for the reminder of
    2024-01-01T10:00Z. *)
Definition skippedOnce : list Occurrence.t :=
  [Occurrence.mk (Stored jan_1_2024_10h) None true None].

(** A daily pattern that ended on 2024-01-01T10:00Z. *)
Definition dailyEnded : RecurrencePattern.t :=
  RecurrencePattern.mk "daily" 1 [] None (Some (Some jan_1_2024_10h)) None.

(** A one-off reminder for 2024-01-01T10:00Z. *)
Definition oneOffReminder : Reminder :=
  {| user := "64b000000000000000000001"; firebaseUid := "uid-A";
     note := "64b0000000000000000000a1"; title := "Call the bank";
     description := ""; reminderDateTime := Stored jan_1_2024_10h;
     timezone := "UTC"; isRecurring := false;
     recurrencePattern := RecurrencePattern.mk "daily" 1 [] None None None;
     isCompleted := false; completedAt := None; isActive := true;
     isSnoozed := false; snoozeUntil := None; notificationSent := false;
     notificationMethods := ["push"]; priority := "medium";
     category := "personal"; tags := []; location := noLocation;
     occurrences := []; lastTriggered := None; nextTrigger := Undefined;
     castErrors := [] |}.

(** The one-off reminder once its notification has gone out: still
    active, incomplete, due and not snoozed. *)
Definition notifiedReminder : Reminder :=
  set_notificationSent true oneOffReminder.

(** Two users, a resource owned by the first, and requests for it. *)
Definition userA : Middleware.User :=
  Middleware.mkUser "64b000000000000000000001" "uid-A" "a@example.com" "A"
    None true true None.

Definition userB : Middleware.User :=
  Middleware.mkUser "64b000000000000000000002" "uid-B" "b@example.com" "B"
    None true true None.

Definition tokenOf (uid email : string) : Middleware.DecodedToken :=
  Middleware.mkDecodedToken uid (Some email) None None (Some true).

Definition noteOfA : Middleware.Resource.t :=
  Middleware.Resource.mk "64b0000000000000000000a1"
    "64b000000000000000000001" "uid-A".

(** A resource model over a snapshot of the collection: [findById]
    answers from the snapshot and never throws. *)
Definition snapshotModel (db : gmap string Middleware.Resource.t)
  : Middleware.ResourceModel void1 :=
  Middleware.mkResourceModel void1
    (fun resourceId =>
       Ret (Middleware.Normal
              (match resourceId with
               | Some key => db !! key
               | None => None
               end))).

Definition notesOfA : gmap string Middleware.Resource.t :=
  {[ "64b0000000000000000000a1" := noteOfA ]}.

(** [GET /notes/:id] by an authenticated user. *)
Definition requestBy (u : Middleware.User) (d : Middleware.DecodedToken)
    (resourceId : string) : Middleware.Request :=
  Middleware.mkRequest (Middleware.mkHeaders (Some "Bearer some.id.token"))
    {[ "id" := resourceId ]} (Some u) (Some d) None.

(** The table of a limiter in which user A has three requests on record,
    at 100, 200 and 300 ms. *)
Definition busyTable : gmap string (list Z) :=
  {[ "64b000000000000000000001" := [100; 200; 300] ]}.

(** A rendering of the default rate-limit message. *)
Definition plainText (max windowMs : Z) : string := "Too many requests.".

(** A request without an Authorization header. *)
Definition anonymousRequest : Middleware.Request :=
  Middleware.mkRequest (Middleware.mkHeaders None) ∅ None None None.

End Samples.

(** ** More sample documents, collaborators and requests *)
Module MoreSamples.
Import Middleware MiddlewareMore.

(** The document of user A after the account was deactivated. *)
Definition deactivatedA : User :=
  mkUser "64b000000000000000000001" "uid-A" "a@example.com" "A" None true
    false None.

(** Collaborators: the SDK accepts the token "some.id.token" for the
    subject uid-A and rejects every other token as expired; the directory
    answers lookups from [users], creates active documents and updates
    without error. *)
Definition sampleWorld (users : list User) : World :=
  {| adminVerify := fun token =>
       if String.eqb token "some.id.token"
       then Normal (Samples.tokenOf "uid-A" "a@example.com")
       else Threw "Firebase ID token has expired";
     directoryFind := fun subject => Normal (findByFirebaseUid users subject);
     directoryCreate := fun p =>
       Normal (mkUser "64b000000000000000000003" (profile_uid p)
                 (default "" (profile_email p)) (profile_displayName p)
                 (profile_photoURL p) (profile_emailVerified p) true None);
     directoryUpdate := fun _ => Normal tt |}.

(** A request that carries the given bearer token and nothing else. *)
Definition requestWith (token : string) : Request :=
  mkRequest (mkHeaders (Some ("Bearer " +:+ token))) ∅ None None None.

Definition requestOfA : Request :=
  Samples.requestBy Samples.userA (Samples.tokenOf "uid-A" "a@example.com")
    "64b0000000000000000000a1".

Definition requestOfB : Request :=
  Samples.requestBy Samples.userB (Samples.tokenOf "uid-B" "b@example.com")
    "64b0000000000000000000a1".

(** Five requests of user A within half a second, one of user B in
    between. *)
Definition burst : list (Z * Request) :=
  [(0, requestOfA); (100, requestOfA); (150, requestOfB); (200, requestOfA);
   (300, requestOfA); (400, requestOfA)].

(** A fresh note of user A. *)
Definition freshNote : NoteModel.Note :=
  NoteModel.newNote "64b000000000000000000001" "uid-A" 0.

(** A lowering of letters that leaves every string as it is, for notes
    whose text has no capitals. *)
Definition keepCase (s : string) : string := s.

(** [String.prototype.trim] on strings of ASCII characters: the white
    space and the line terminators are removed at both ends. *)
Fixpoint trimStart (s : string) : string :=
  match s with
  | String c rest => if Ascii.is_space c then trimStart rest else s
  | EmptyString => EmptyString
  end.

Definition trim (s : string) : string :=
  String.rev (trimStart (String.rev (trimStart s))).

End MoreSamples.

(* ===================================================================== *)
(** * Part II.  Properties                                                *)
(* ===================================================================== *)

(** Case analysis on the first comparison of the goal. *)
Ltac case_ltb :=
  match goal with
  | |- context [?a <? ?b] => destruct (Z.ltb_spec a b)
  end.

(** Case analysis on a month number known to lie in 0..11. *)
Ltac split_month m :=
  let H := fresh in
  assert (H : m = 0 \/ m = 1 \/ m = 2 \/ m = 3 \/ m = 4 \/ m = 5 \/ m = 6
              \/ m = 7 \/ m = 8 \/ m = 9 \/ m = 10 \/ m = 11) by lia;
  destruct H as [->|[->|[->|[->|[->|[->|[->|[->|[->|[->|[->| ->]]]]]]]]]]].

(** ** The calendar of ECMA-262 *)
Section CalendarFacts.
Import ESDate.

Lemma msPerDay_pos : 0 < msPerDay.
Proof. reflexivity. Qed.

Lemma DaysInYear_cases y : DaysInYear y = 365 \/ DaysInYear y = 366.
Proof.
  unfold DaysInYear.
  repeat (destruct (_ =? _); cbn [negb]); auto.
Qed.

Lemma DayFromYear_succ y : DayFromYear (y + 1) = DayFromYear y + DaysInYear y.
Proof.
  unfold DayFromYear, DaysInYear.
  destruct (Z.eqb_spec (y `mod` 4) 0); cbn [negb];
    [ destruct (Z.eqb_spec (y `mod` 100) 0); cbn [negb];
      [ destruct (Z.eqb_spec (y `mod` 400) 0); cbn [negb] | ] | ];
    Z.div_mod_to_equations; lia.
Qed.

Lemma DayFromYear_lt y1 y2 : y1 < y2 -> DayFromYear y1 < DayFromYear y2.
Proof.
  intros Hlt. unfold DayFromYear. Z.div_mod_to_equations. lia.
Qed.

Lemma DayFromYear_le y1 y2 : y1 <= y2 -> DayFromYear y1 <= DayFromYear y2.
Proof.
  intros Hle. destruct (Z.eq_dec y1 y2) as [->|Hne]; [lia|].
  apply Z.lt_le_incl, DayFromYear_lt. lia.
Qed.

(** The year computed by [YearFromTime] contains the day of [t]. *)
Lemma YearFromTime_spec t :
  DayFromYear (YearFromTime t) <= Day t < DayFromYear (YearFromTime t + 1).
Proof.
  unfold YearFromTime. generalize (Day t). intros d. cbv zeta.
  set (y := 1970 + (d * 10000) `div` 3652425).
  assert (Hlo : DayFromYear (y - 1) <= d).
  { unfold DayFromYear, y. Z.div_mod_to_equations. lia. }
  assert (Hhi : d < DayFromYear (y + 1 + 1)).
  { unfold DayFromYear, y. Z.div_mod_to_equations. lia. }
  destruct (Z.ltb_spec d (DayFromYear y)).
  - replace (y - 1 + 1) with y by lia. lia.
  - destruct (Z.leb_spec (DayFromYear (y + 1)) d); lia.
Qed.

(** It is the only such year ... *)
Lemma YearFromTime_unique t y :
  DayFromYear y <= Day t < DayFromYear (y + 1) -> YearFromTime t = y.
Proof.
  intros [Hlo Hhi]. pose proof (YearFromTime_spec t) as [Hlo' Hhi'].
  destruct (Z.lt_trichotomy (YearFromTime t) y) as [Hlt|[Heq|Hgt]]; [|done|].
  - pose proof (DayFromYear_le (YearFromTime t + 1) y). lia.
  - pose proof (DayFromYear_le (y + 1) (YearFromTime t)). lia.
Qed.

(** ... and hence the year of ECMA-262: the largest [y] whose first
    instant is not after [t]. *)
Lemma YearFromTime_largest t :
  TimeFromYear (YearFromTime t) <= t /\
  forall y, TimeFromYear y <= t -> y <= YearFromTime t.
Proof.
  pose proof (YearFromTime_spec t) as [Hlo Hhi].
  unfold TimeFromYear, Day, msPerDay in *. split.
  - Z.div_mod_to_equations. lia.
  - intros y Hy.
    destruct (Z.le_gt_cases y (YearFromTime t)) as [|Hgt]; [done|exfalso].
    pose proof (DayFromYear_le (YearFromTime t + 1) y).
    Z.div_mod_to_equations. lia.
Qed.

Lemma DayWithinYear_range t :
  0 <= DayWithinYear t < DaysInYear (YearFromTime t).
Proof.
  pose proof (YearFromTime_spec t) as [Hlo Hhi].
  rewrite DayFromYear_succ in Hhi. unfold DayWithinYear. lia.
Qed.

Lemma InLeapYear_eq t :
  InLeapYear t = DaysInYear (YearFromTime t) - 365.
Proof.
  unfold InLeapYear.
  destruct (DaysInYear_cases (YearFromTime t)) as [-> | ->]; reflexivity.
Qed.

Lemma MonthFromTime_range t : 0 <= MonthFromTime t < 12.
Proof.
  unfold MonthFromTime. cbv zeta.
  repeat (destruct (_ <? _); [lia|]). lia.
Qed.

(** The day number of [t] from its calendar fields: the three accessors
    invert the day computation of [MakeDay]. *)
Lemma Day_fields t :
  Day t =
  DayFromYear (YearFromTime t)
  + DaysBeforeMonth (YearFromTime t) (MonthFromTime t)
  + DateFromTime t - 1.
Proof.
  unfold DateFromTime, DaysBeforeMonth, MonthFromTime. cbv zeta.
  change (if DaysInYear (YearFromTime t) =? 365 then 0 else 1)
    with (InLeapYear t).
  unfold DayWithinYear.
  repeat (destruct (_ <? _); [lia|]). lia.
Qed.

Lemma DateFromTime_range t : 1 <= DateFromTime t <= 31.
Proof.
  pose proof (DayWithinYear_range t) as Hd.
  unfold DateFromTime, MonthFromTime. cbv zeta.
  rewrite (InLeapYear_eq t).
  destruct (DaysInYear_cases (YearFromTime t)) as [Hy|Hy]; rewrite Hy in *;
    repeat (case_ltb; [lia|]); lia.
Qed.

Lemma time_decomp t : t = Day t * msPerDay + TimeWithinDay t.
Proof.
  unfold Day, TimeWithinDay, msPerDay. Z.div_mod_to_equations. lia.
Qed.

Lemma TimeWithinDay_range t : 0 <= TimeWithinDay t < msPerDay.
Proof. unfold TimeWithinDay. apply Z.mod_pos_bound. reflexivity. Qed.

Lemma Day_MakeDate day time :
  0 <= time < msPerDay -> Day (MakeDate day time) = day.
Proof.
  unfold Day, MakeDate, msPerDay. intros H. Z.div_mod_to_equations. lia.
Qed.

Lemma TimeWithinDay_MakeDate day time :
  0 <= time < msPerDay -> TimeWithinDay (MakeDate day time) = time.
Proof.
  unfold TimeWithinDay, MakeDate, msPerDay. intros H.
  Z.div_mod_to_equations. lia.
Qed.

End CalendarFacts.

(** ** The calendar vocabulary against the calendar of ECMA-262 *)
Section CalendarSpecFacts.
Import ESDate CalendarSpec.

Ltac split_leap y :=
  let H := fresh in
  destruct (DaysInYear_cases y) as [H|H]; rewrite ?H in *.

(** A local time value is determined by its calendar fields. *)
Lemma instant_fields lt : instant (fields lt) = lt.
Proof.
  unfold instant, fields; cbn [year month date timeOfDay].
  rewrite <- Day_fields. symmetry. apply time_decomp.
Qed.

Lemma fields_inj lt1 lt2 : fields lt1 = fields lt2 -> lt1 = lt2.
Proof.
  intros Heq.
  pose proof (instant_fields lt1) as H1.
  pose proof (instant_fields lt2) as H2.
  rewrite Heq, H2 in H1. lia.
Qed.

Lemma Day_instant c :
  0 <= timeOfDay c < msPerDay ->
  Day (instant c) =
  DayFromYear (year c) + DaysBeforeMonth (year c) (month c) + date c - 1.
Proof. intros H. unfold instant. by apply Day_MakeDate. Qed.

Lemma YearFromTime_instant c :
  wellFormed c -> YearFromTime (instant c) = year c.
Proof.
  intros (Hm & Hd & Ht). apply YearFromTime_unique.
  rewrite Day_instant, DayFromYear_succ by done.
  destruct c as [y m d tod]; cbn [year month date timeOfDay] in *.
  unfold DaysBeforeMonth, DaysInMonth in *.
  split_month m; split_leap y; cbn in *; lia.
Qed.

(** Every well-formed calendar date is shown at exactly one local time
    value. *)
Lemma fields_instant c : wellFormed c -> fields (instant c) = c.
Proof.
  intros Hwf. pose proof (YearFromTime_instant c Hwf) as Hy.
  destruct Hwf as (Hm & Hd & Ht).
  unfold fields.
  assert (Hmonth : MonthFromTime (instant c) = month c).
  { unfold MonthFromTime, DayWithinYear, InLeapYear.
    rewrite Hy, Day_instant by done.
    destruct c as [y m d tod]; cbn [year month date timeOfDay] in *.
    unfold DaysBeforeMonth, DaysInMonth in *.
    split_month m; split_leap y; cbn in *;
      repeat (case_ltb; [lia|]); lia. }
  assert (Hdate : DateFromTime (instant c) = date c).
  { unfold DateFromTime, DayWithinYear, InLeapYear.
    rewrite Hmonth, Hy, Day_instant by done.
    destruct c as [y m d tod]; cbn [year month date timeOfDay] in *.
    unfold DaysBeforeMonth.
    split_month m; split_leap y; cbn; lia. }
  rewrite Hy, Hmonth, Hdate.
  assert (Htime : TimeWithinDay (instant c) = timeOfDay c)
    by (by apply TimeWithinDay_MakeDate).
  rewrite Htime. by destruct c.
Qed.

Lemma fields_wellFormed lt : wellFormed (fields lt).
Proof.
  unfold wellFormed, fields; cbn [year month date timeOfDay].
  split; [apply MonthFromTime_range|].
  split; [|apply TimeWithinDay_range].
  pose proof (DayWithinYear_range lt) as Hd.
  unfold DaysInMonth, DateFromTime, MonthFromTime. cbv zeta.
  rewrite (InLeapYear_eq lt).
  split_leap (YearFromTime lt);
    repeat (case_ltb; [cbn; lia|]); cbn; lia.
Qed.

(** Shifting an overflowing day of the month does not move the instant,
    and yields a calendar date that exists. *)
Lemma instant_rollOver c :
  0 <= month c < 12 -> 1 <= date c <= 31 -> 0 <= timeOfDay c < msPerDay ->
  instant (rollOver c) = instant c /\ wellFormed (rollOver c).
Proof.
  intros Hm Hd Ht. unfold rollOver, wellFormed.
  destruct c as [y m d tod]; cbn [year month date timeOfDay] in *.
  destruct (Z.leb_spec d (DaysInMonth y m)) as [Hle|Hgt];
    [cbn [year month date timeOfDay]; split; [reflexivity | lia]|].
  destruct (Z.ltb_spec m 11) as [Hlt|Hge];
    unfold instant; cbn [year month date timeOfDay].
  - unfold DaysBeforeMonth, DaysInMonth in *.
    split_month m; split_leap y;
      repeat match goal with
             | |- context [?a + 1] =>
                 match a with
                 | 0 => idtac
                 | Z.pos _ => idtac
                 end;
                 let v := eval vm_compute in (a + 1) in
                 change (a + 1) with v
             end;
      cbn in *; lia.
  - assert (m = 11) as -> by lia. cbn in Hgt. lia.
Qed.

End CalendarSpecFacts.

(** ** Doubles that are whole numbers *)
Section NumberFacts.
Import ESDate CalendarSpec.

(** The sums that the recurrence of a reminder forms from a day of the
    month or a month number and a whole interval of up to 1000 are exact:
    checked one by one. *)
Lemma whole_sums_checked :
  forallb
    (fun base =>
       forallb
         (fun n =>
            match integerPart (Z2double base + Z2double n)%float with
            | Some k => k =? base + n
            | None => false
            end)
         (seqZ 0 1001))
    (seqZ 0 32) = true.
Proof. vm_compute. reflexivity. Qed.

Lemma whole_week_sums_checked :
  forallb
    (fun base =>
       forallb
         (fun n =>
            match integerPart (Z2double base + 7 * Z2double n)%float with
            | Some k => k =? base + 7 * n
            | None => false
            end)
         (seqZ 0 1001))
    (seqZ 0 32) = true.
Proof. vm_compute. reflexivity. Qed.

(** A whole interval of [n] moves a day of the month or a month number
    by [n] ... *)
Lemma movesBy_whole base n :
  0 <= base <= 31 -> 0 <= n <= 1000 -> movesBy base (Z2double n) n.
Proof.
  intros Hbase Hn. unfold movesBy.
  pose proof whole_sums_checked as Hall.
  rewrite forallb_forall in Hall.
  assert (Hin : In base (seqZ 0 32)).
  { apply list_elem_of_In, elem_of_seqZ. lia. }
  specialize (Hall base Hin). cbv beta in Hall.
  rewrite forallb_forall in Hall.
  assert (Hin' : In n (seqZ 0 1001)).
  { apply list_elem_of_In, elem_of_seqZ. lia. }
  specialize (Hall n Hin'). cbv beta in Hall.
  destruct (integerPart (Z2double base + Z2double n)%float) as [k|];
    [|discriminate].
  apply Z.eqb_eq in Hall. by subst.
Qed.

(** ... and seven times a whole interval of [n] moves it by [7 * n]. *)
Lemma movesBy_whole_weeks base n :
  0 <= base <= 31 -> 0 <= n <= 1000 ->
  movesBy base (7 * Z2double n)%float (7 * n).
Proof.
  intros Hbase Hn. unfold movesBy.
  pose proof whole_week_sums_checked as Hall.
  rewrite forallb_forall in Hall.
  assert (Hin : In base (seqZ 0 32)).
  { apply list_elem_of_In, elem_of_seqZ. lia. }
  specialize (Hall base Hin). cbv beta in Hall.
  rewrite forallb_forall in Hall.
  assert (Hin' : In n (seqZ 0 1001)).
  { apply list_elem_of_In, elem_of_seqZ. lia. }
  specialize (Hall n Hin'). cbv beta in Hall.
  destruct (integerPart (Z2double base + 7 * Z2double n)%float) as [k|];
    [|discriminate].
  apply Z.eqb_eq in Hall. by subst.
Qed.

(** Whole intervals move a year of the present era by themselves. *)
Lemma whole_year_sums_checked :
  forallb (fun base =>
             forallb (fun n =>
                        match integerPart (Z2double base + Z2double n)%float with
                        | Some z => z =? base + n
                        | None => false
                        end)
                     (seqZ 0 101))
          (seqZ 1900 301) = true.
Proof. vm_compute. reflexivity. Qed.

Lemma movesBy_whole_years base n :
  1900 <= base <= 2200 -> 0 <= n <= 100 -> movesBy base (Z2double n) n.
Proof.
  intros Hbase Hn. unfold movesBy.
  pose proof whole_year_sums_checked as Hall.
  rewrite forallb_forall in Hall.
  assert (Hin : In base (seqZ 1900 301)).
  { apply list_elem_of_In, elem_of_seqZ. lia. }
  specialize (Hall base Hin). cbv beta in Hall.
  rewrite forallb_forall in Hall.
  assert (Hin' : In n (seqZ 0 101)).
  { apply list_elem_of_In, elem_of_seqZ. lia. }
  specialize (Hall n Hin'). cbv beta in Hall.
  destruct (integerPart (Z2double base + Z2double n)%float) as [z|];
    [|discriminate].
  apply Z.eqb_eq in Hall. by subst.
Qed.

Lemma Z2double_1 : Z2double 1 = 1%float.
Proof. vm_compute. reflexivity. Qed.


(** Adding the Number 1 to a day of the month moves it by one. *)
Lemma movesBy_one base : 0 <= base <= 31 -> movesBy base 1%float 1.
Proof.
  intros Hbase. rewrite <- Z2double_1. apply movesBy_whole; lia.
Qed.


Lemma movesBy_unique base x n1 n2 :
  movesBy base x n1 -> movesBy base x n2 -> n1 = n2.
Proof. unfold movesBy. intros H1 H2. rewrite H1 in H2. injection H2. lia. Qed.

End NumberFacts.

(** ** The [Date] setters as the reminder methods use them *)
Section DateSetterFacts.
Import ESDate ReminderModel CalendarSpec.

Variable tza : Z -> bool -> Z.

Lemma TimeClip_Some x u :
  TimeClip x = Some u <-> x = u /\ Z.abs x <= maxTime.
Proof.
  unfold TimeClip, maxTime.
  destruct (Z.ltb_spec 8640000000000000 (Z.abs x)); split.
  - discriminate.
  - intros [_ ?]. lia.
  - intros [= ->]. split; [done | lia].
  - intros [-> _]. done.
Qed.

Lemma TimeClip_range x u : TimeClip x = Some u -> Z.abs u <= maxTime.
Proof. intros [<- ?]%TimeClip_Some. done. Qed.

Lemma newDate_valid d t : validDate d t -> newDate d = Some t.
Proof.
  intros [-> Ht]. cbn. by apply TimeClip_Some.
Qed.

Lemma newDate_readAs d t : readAs d t <-> newDate d = Some t.
Proof.
  split.
  - intros [Hv | [-> ->]]; [by apply newDate_valid | done].
  - destruct d as [| |tv]; cbn; [done | intros [= <-]; by right |].
    intros [<- Hle]%TimeClip_Some. left. by split.
Qed.


Lemma MonthFromTime_div_mod t :
  MonthFromTime t `div` 12 = 0 /\ MonthFromTime t `mod` 12 = MonthFromTime t.
Proof.
  pose proof (MonthFromTime_range t). split.
  - by apply Z.div_small.
  - by apply Z.mod_small.
Qed.

(** The day that [MakeDay] computes for the first of a month is the day
    of the time value that ECMA-262 asks for: its year is [ym], its month
    [mn] and its day of the month 1. *)
Lemma MakeDay_first_fields year month :
  let t := MakeDate (MakeDay year month 1) 0 in
  YearFromTime t = year + month `div` 12
  /\ MonthFromTime t = month `mod` 12
  /\ DateFromTime t = 1.
Proof.
  cbv zeta.
  set (c := {| CalendarSpec.year := year + month `div` 12;
               CalendarSpec.month := month `mod` 12;
               CalendarSpec.date := 1; timeOfDay := 0 |}).
  assert (Hwf : wellFormed c).
  { unfold wellFormed. cbn [CalendarSpec.year CalendarSpec.month
                            CalendarSpec.date timeOfDay c].
    pose proof (Z.mod_pos_bound month 12 ltac:(lia)) as Hm.
    split; [lia|]. split; [|done].
    unfold DaysInMonth.
    destruct (DaysInYear_cases (year + month `div` 12)) as [Hy|Hy];
      rewrite ?Hy; split_month (month `mod` 12); cbn; lia. }
  pose proof (fields_instant c Hwf) as Hf.
  assert (Hi : instant c = MakeDate (MakeDay year month 1) 0).
  { unfold instant, MakeDate, MakeDay, c.
    cbn [CalendarSpec.year CalendarSpec.month CalendarSpec.date timeOfDay].
    lia. }
  rewrite Hi in Hf. unfold fields in Hf.
  injection Hf as Hy Hm Hd _. done.
Qed.

(** [d.setDate(d.getDate() + x)] moves the reading of the local clock by
    the days that the sum moves the day of the month. *)
Lemma setDate_getDate t x n :
  movesBy (DateFromTime (LocalTime tza t)) x n ->
  setDate tza (Some t) (toDouble (getDate tza (Some t)) + x)%float
  = laterByDays tza n t.
Proof.
  unfold movesBy. intros Hx.
  cbn [setDate getDate toDouble]. rewrite Hx. cbv zeta.
  unfold laterByDays, atLocalTime. do 2 f_equal.
  unfold MakeDay. cbv zeta.
  destruct (MonthFromTime_div_mod (LocalTime tza t)) as [-> ->].
  rewrite Z.add_0_r.
  pose proof (Day_fields (LocalTime tza t)) as HD.
  pose proof (time_decomp (LocalTime tza t)) as HT.
  unfold MakeDate in *. lia.
Qed.

Lemma setDate_not_finite t x :
  movesNowhere (DateFromTime (LocalTime tza t)) x ->
  setDate tza (Some t) (toDouble (getDate tza (Some t)) + x)%float = None.
Proof.
  unfold movesNowhere. intros Hx.
  cbn [setDate getDate toDouble]. by rewrite Hx.
Qed.

(** Where the zone has the same offset at both ends, a day on the local
    clock is a day of 24 hours. *)
Lemma laterByDays_sameOffset n t :
  sameOffsetAfterDays tza n t ->
  laterByDays tza n t = TimeClip (t + n * msPerDay).
Proof.
  unfold sameOffsetAfterDays, laterByDays, atLocalTime, UTC. intros ->.
  f_equal. unfold LocalTime. lia.
Qed.

(** [d.setMonth(d.getMonth() + x)] *)
Lemma setMonth_getMonth t x n :
  movesBy (MonthFromTime (LocalTime tza t)) x n ->
  setMonth tza (Some t) (toDouble (getMonth tza (Some t)) + x)%float
  = laterByMonths tza n t.
Proof.
  unfold movesBy. intros Hx.
  cbn [setMonth getMonth toDouble]. rewrite Hx. cbv zeta.
  unfold laterByMonths, atLocalTime, plusMonths, localFields, fields.
  cbn [year month date timeOfDay].
  set (lt := LocalTime tza t).
  set (Y := YearFromTime lt). set (M := MonthFromTime lt).
  match goal with
  | |- context [rollOver ?c0] => set (c := c0)
  end.
  destruct (instant_rollOver c) as [-> _]; subst c;
    cbn [year month date timeOfDay];
    [ by apply Z.mod_pos_bound | apply DateFromTime_range
    | apply TimeWithinDay_range | ].
  do 2 f_equal.
  unfold MakeDay, MakeDate, instant. cbn [year month date timeOfDay]. cbv zeta.
  replace ((12 * Y + M + n) `div` 12) with (Y + (M + n) `div` 12)
    by (Z.div_mod_to_equations; lia).
  replace ((12 * Y + M + n) `mod` 12) with ((M + n) `mod` 12)
    by (Z.div_mod_to_equations; lia).
  reflexivity.
Qed.

Lemma setMonth_not_finite t x :
  movesNowhere (MonthFromTime (LocalTime tza t)) x ->
  setMonth tza (Some t) (toDouble (getMonth tza (Some t)) + x)%float = None.
Proof.
  unfold movesNowhere. intros Hx.
  cbn [setMonth getMonth toDouble]. by rewrite Hx.
Qed.

(** [d.setFullYear(d.getFullYear() + x)] *)
Lemma setFullYear_getFullYear t x n :
  movesBy (YearFromTime (LocalTime tza t)) x n ->
  setFullYear tza (Some t) (toDouble (getFullYear tza (Some t)) + x)%float
  = laterByYears tza n t.
Proof.
  unfold movesBy. intros Hx.
  unfold setFullYear, getFullYear, toDouble. rewrite Hx. cbv zeta.
  unfold laterByYears, atLocalTime, plusYears, localFields, fields.
  cbn [year month date timeOfDay].
  set (lt := LocalTime tza t).
  match goal with
  | |- context [rollOver ?c0] => set (c := c0)
  end.
  destruct (instant_rollOver c) as [-> _]; subst c;
    cbn [year month date timeOfDay];
    [ apply MonthFromTime_range | apply DateFromTime_range
    | apply TimeWithinDay_range | ].
  do 2 f_equal.
  unfold MakeDay, MakeDate, instant. cbn [year month date timeOfDay]. cbv zeta.
  destruct (MonthFromTime_div_mod lt) as [-> ->].
  rewrite Z.add_0_r. reflexivity.
Qed.

Lemma setFullYear_not_finite t x :
  movesNowhere (YearFromTime (LocalTime tza t)) x ->
  setFullYear tza (Some t) (toDouble (getFullYear tza (Some t)) + x)%float
  = None.
Proof.
  unfold movesNowhere. intros Hx.
  unfold setFullYear, getFullYear, toDouble. by rewrite Hx.
Qed.

(** The date at which the local clock shows a calendar date that exists
    shows that calendar date, wherever converting the local time to UTC
    and back gives the local time again (that is, except at a local time
    that a transition of the zone skips). *)
Lemma localFields_atLocalTime c u :
  wellFormed c ->
  atLocalTime tza (instant c) = Some u ->
  LocalTime tza u = instant c ->
  localFields tza u = c.
Proof.
  intros Hwf _ Hround. unfold localFields. rewrite Hround.
  by apply fields_instant.
Qed.

End DateSetterFacts.

(** ** Reminders *)
Section ReminderFacts.
Import ESDate CalendarSpec ReminderModel ReminderSpec.

Variable tza : Z -> bool -> Z.

(** [this.nextTrigger = current] does what the specification's
    vocabulary says of an assignment to the path. *)
Lemma assign_nextTrigger_assigned current r :
  nextTriggerAssigned current r (assign_nextTrigger current r).
Proof. by destruct current. Qed.

Lemma assign_nextTrigger_frame current r :
  let r' := assign_nextTrigger current r in
  r' = with_nextTrigger (nextTrigger r') (castErrors r') r.
Proof. by destruct current. Qed.

(** [calculateNextTrigger] writes [nextTrigger], or a cast error on it,
    and nothing else. *)
Lemma calculateNextTrigger_frame r :
  calculateNextTrigger tza r
  = with_nextTrigger (nextTrigger (calculateNextTrigger tza r))
      (castErrors (calculateNextTrigger tza r)) r.
Proof.
  unfold calculateNextTrigger.
  destruct (negb (isRecurring r)); [reflexivity|].
  cbv zeta. apply assign_nextTrigger_frame.
Qed.

Lemma calculateNextTrigger_not_recurring r :
  isRecurring r = false ->
  calculateNextTrigger tza r = set_nextTrigger (reminderDateTime r) r.
Proof. intros H. unfold calculateNextTrigger. by rewrite H. Qed.

(** What [calculateNextTrigger] assigns for a recurring reminder, by
    pattern type. *)
Lemma calculateNextTrigger_daily r t n :
  isRecurring r = true ->
  RecurrencePattern.type (recurrencePattern r) = "daily" ->
  readAs (reminderDateTime r) t ->
  movesBy (date (localFields tza t))
    (RecurrencePattern.interval (recurrencePattern r)) n ->
  calculateNextTrigger tza r = assign_nextTrigger (laterByDays tza n t) r.
Proof.
  intros Hrec Hty Hv Hx. unfold calculateNextTrigger. rewrite Hrec, Hty.
  cbn [negb String.eqb Ascii.eqb Bool.eqb]. cbv zeta.
  rewrite (proj1 (newDate_readAs _ _) Hv). by rewrite (setDate_getDate tza t _ n).
Qed.

Lemma calculateNextTrigger_weekly r t n :
  isRecurring r = true ->
  RecurrencePattern.type (recurrencePattern r) = "weekly" ->
  readAs (reminderDateTime r) t ->
  movesBy (date (localFields tza t))
    (7 * RecurrencePattern.interval (recurrencePattern r))%float n ->
  calculateNextTrigger tza r = assign_nextTrigger (laterByDays tza n t) r.
Proof.
  intros Hrec Hty Hv Hx. unfold calculateNextTrigger. rewrite Hrec, Hty.
  cbn [negb String.eqb Ascii.eqb Bool.eqb]. cbv zeta.
  rewrite (proj1 (newDate_readAs _ _) Hv). by rewrite (setDate_getDate tza t _ n).
Qed.

Lemma calculateNextTrigger_monthly r t n :
  isRecurring r = true ->
  RecurrencePattern.type (recurrencePattern r) = "monthly" ->
  readAs (reminderDateTime r) t ->
  movesBy (month (localFields tza t))
    (RecurrencePattern.interval (recurrencePattern r)) n ->
  calculateNextTrigger tza r = assign_nextTrigger (laterByMonths tza n t) r.
Proof.
  intros Hrec Hty Hv Hx. unfold calculateNextTrigger. rewrite Hrec, Hty.
  cbn [negb String.eqb Ascii.eqb Bool.eqb]. cbv zeta.
  rewrite (proj1 (newDate_readAs _ _) Hv). by rewrite (setMonth_getMonth tza t _ n).
Qed.

Lemma calculateNextTrigger_yearly r t n :
  isRecurring r = true ->
  RecurrencePattern.type (recurrencePattern r) = "yearly" ->
  readAs (reminderDateTime r) t ->
  movesBy (year (localFields tza t))
    (RecurrencePattern.interval (recurrencePattern r)) n ->
  calculateNextTrigger tza r = assign_nextTrigger (laterByYears tza n t) r.
Proof.
  intros Hrec Hty Hv Hx. unfold calculateNextTrigger. rewrite Hrec, Hty.
  cbn [negb String.eqb Ascii.eqb Bool.eqb]. cbv zeta.
  rewrite (proj1 (newDate_readAs _ _) Hv).
  by rewrite (setFullYear_getFullYear tza t _ n).
Qed.

Lemma calculateNextTrigger_other r t :
  isRecurring r = true ->
  RecurrencePattern.type (recurrencePattern r) <> "daily" ->
  RecurrencePattern.type (recurrencePattern r) <> "weekly" ->
  RecurrencePattern.type (recurrencePattern r) <> "monthly" ->
  RecurrencePattern.type (recurrencePattern r) <> "yearly" ->
  readAs (reminderDateTime r) t ->
  calculateNextTrigger tza r = assign_nextTrigger (laterByDays tza 1 t) r.
Proof.
  intros Hrec Hd Hw Hm Hy Hv. unfold calculateNextTrigger. rewrite Hrec.
  apply String.eqb_neq in Hd, Hw, Hm, Hy. rewrite Hd, Hw, Hm, Hy.
  cbn [negb]. cbv zeta. rewrite (proj1 (newDate_readAs _ _) Hv).
  rewrite (setDate_getDate tza t _ 1); [done|].
  apply movesBy_one. pose proof (DateFromTime_range (LocalTime tza t)). lia.
Qed.

(** A sum that is not finite (an interval that is NaN or infinite) makes
    the setter answer an Invalid Date, which the path refuses. *)
Lemma calculateNextTrigger_not_finite r t :
  isRecurring r = true ->
  readAs (reminderDateTime r) t ->
  let x := RecurrencePattern.interval (recurrencePattern r) in
  let ty := RecurrencePattern.type (recurrencePattern r) in
  (ty = "daily" /\ movesNowhere (date (localFields tza t)) x)
  \/ (ty = "weekly" /\ movesNowhere (date (localFields tza t)) (7 * x)%float)
  \/ (ty = "monthly" /\ movesNowhere (month (localFields tza t)) x)
  \/ (ty = "yearly" /\ movesNowhere (year (localFields tza t)) x) ->
  calculateNextTrigger tza r = assign_nextTrigger None r.
Proof.
  intros Hrec Hv x ty Hcases. subst x ty. unfold calculateNextTrigger.
  rewrite Hrec. cbn [negb]. cbv zeta. rewrite (proj1 (newDate_readAs _ _) Hv).
  destruct Hcases as [[Hty Hx]|[[Hty Hx]|[[Hty Hx]|[Hty Hx]]]];
    rewrite Hty; cbn [String.eqb Ascii.eqb Bool.eqb].
  - by rewrite setDate_not_finite.
  - by rewrite setDate_not_finite.
  - by rewrite setMonth_not_finite.
  - by rewrite setFullYear_not_finite.
Qed.

(** C1, as amended.  For a recurring reminder whose [reminderDateTime]
    reads as a date (a stored date, or [null], which reads as the
    epoch), [calculateNextTrigger] assigns to [nextTrigger] that date
    advanced on the clock of the host: for the type 'daily' by the days
    by which adding [interval] moves the integer part of the day of the
    month, for 'weekly' likewise with [7 * interval], for 'monthly' by
    the calendar months by which adding [interval] moves the integer
    part of the month number, for 'yearly' likewise for the year (in
    both, the day of the month is kept and shifts only when the target
    month lacks it), and by exactly one day for every other type,
    'custom' included.  A whole interval [n] up to 1000 moves the day
    and the month by [n] (and [7 * n]), and up to 100 a year from 1900
    to 2200 by [n].  A day on the clock of the host is a day of 24 hours
    where the offset of the zone is the same at both ends.  The
    assignment is that of a Mongoose Date path: a date within the range
    of time values is stored; where there is none (the advanced date is
    out of range, or the sum is not finite) the path keeps what it held
    and the document a cast error.  No other path changes. *)
Theorem calculateNextTrigger_advances (r : Reminder) (t : Z) :
  isRecurring r = true ->
  readAs (reminderDateTime r) t ->
  let pattern := recurrencePattern r in
  let x := RecurrencePattern.interval pattern in
  let here := localFields tza t in
  let r' := calculateNextTrigger tza r in
  (RecurrencePattern.type pattern = "daily" ->
   (forall n, movesBy (date here) x n ->
      nextTriggerAssigned (laterByDays tza n t) r r')
   /\ (movesNowhere (date here) x -> nextTriggerAssigned None r r'))
  /\ (RecurrencePattern.type pattern = "weekly" ->
      (forall n, movesBy (date here) (7 * x)%float n ->
         nextTriggerAssigned (laterByDays tza n t) r r')
      /\ (movesNowhere (date here) (7 * x)%float ->
          nextTriggerAssigned None r r'))
  /\ (RecurrencePattern.type pattern = "monthly" ->
      (forall n, movesBy (month here) x n ->
         nextTriggerAssigned (laterByMonths tza n t) r r')
      /\ (movesNowhere (month here) x -> nextTriggerAssigned None r r'))
  /\ (RecurrencePattern.type pattern = "yearly" ->
      (forall n, movesBy (year here) x n ->
         nextTriggerAssigned (laterByYears tza n t) r r')
      /\ (movesNowhere (year here) x -> nextTriggerAssigned None r r'))
  /\ (RecurrencePattern.type pattern <> "daily" ->
      RecurrencePattern.type pattern <> "weekly" ->
      RecurrencePattern.type pattern <> "monthly" ->
      RecurrencePattern.type pattern <> "yearly" ->
      nextTriggerAssigned (laterByDays tza 1 t) r r')
  /\ (forall n, 0 <= n <= 1000 ->
        movesBy (date here) (Z2double n) n
        /\ movesBy (date here) (7 * Z2double n)%float (7 * n)
        /\ movesBy (month here) (Z2double n) n)
  /\ (forall n, 0 <= n <= 100 -> 1900 <= year here <= 2200 ->
        movesBy (year here) (Z2double n) n)
  /\ (forall n, sameOffsetAfterDays tza n t ->
        laterByDays tza n t = TimeClip (t + n * msPerDay)).
Proof.
  intros Hrec Hv pattern x here r'. subst pattern x here r'.
  split.
  { intros Hty. split.
    - intros n Hn. rewrite (calculateNextTrigger_daily r t n) by done.
      apply assign_nextTrigger_assigned.
    - intros Hn. rewrite (calculateNextTrigger_not_finite r t); auto.
      apply assign_nextTrigger_assigned. }
  split.
  { intros Hty. split.
    - intros n Hn. rewrite (calculateNextTrigger_weekly r t n) by done.
      apply assign_nextTrigger_assigned.
    - intros Hn. rewrite (calculateNextTrigger_not_finite r t); auto.
      apply assign_nextTrigger_assigned. }
  split.
  { intros Hty. split.
    - intros n Hn. rewrite (calculateNextTrigger_monthly r t n) by done.
      apply assign_nextTrigger_assigned.
    - intros Hn. rewrite (calculateNextTrigger_not_finite r t); auto 6.
      apply assign_nextTrigger_assigned. }
  split.
  { intros Hty. split.
    - intros n Hn. rewrite (calculateNextTrigger_yearly r t n) by done.
      apply assign_nextTrigger_assigned.
    - intros Hn. rewrite (calculateNextTrigger_not_finite r t); auto 6.
      apply assign_nextTrigger_assigned. }
  split.
  { intros Hd Hw Hm Hy. rewrite (calculateNextTrigger_other r t) by done.
    apply assign_nextTrigger_assigned. }
  split.
  { intros n Hn.
    pose proof (DateFromTime_range (LocalTime tza t)) as Hd.
    pose proof (MonthFromTime_range (LocalTime tza t)) as Hm.
    cbn [localFields fields date month].
    split; [apply movesBy_whole; lia|].
    split; [apply movesBy_whole_weeks; lia | apply movesBy_whole; lia]. }
  split.
  { intros n Hn Hy. by apply movesBy_whole_years. }
  intros n. apply laterByDays_sameOffset.
Qed.

(** *** Saving *)

(** The pre-save hook rewrites [nextTrigger] (or leaves a cast error on
    it) and may clear the snooze; it touches nothing else. *)
Lemma preSave_shape now r :
  exists v e,
    preSave tza now r = with_nextTrigger v e r
    \/ preSave tza now r
       = set_snoozeUntil None (set_isSnoozed false (with_nextTrigger v e r)).
Proof.
  unfold preSave.
  set (r1 := if isRecurring r && isActive r && negb (isCompleted r)
             then calculateNextTrigger tza r
             else if negb (isRecurring r)
             then set_nextTrigger (reminderDateTime r) r else r).
  assert (Hr1 : r1 = with_nextTrigger (nextTrigger r1) (castErrors r1) r).
  { subst r1. destruct (isRecurring r && isActive r && negb (isCompleted r)).
    - apply calculateNextTrigger_frame.
    - destruct (negb (isRecurring r)); [reflexivity | by destruct r]. }
  exists (nextTrigger r1), (castErrors r1). rewrite <- Hr1.
  destruct (isSnoozed r1 && truthy_date (snoozeUntil r1)
            && now_after now (snoozeUntil r1)); auto.
Qed.

Ltac preSave_field now r :=
  destruct (preSave_shape now r) as (? & ? & [-> | ->]); reflexivity.

Lemma preSave_isActive now r : isActive (preSave tza now r) = isActive r.
Proof. preSave_field now r. Qed.

Lemma preSave_isCompleted now r :
  isCompleted (preSave tza now r) = isCompleted r.
Proof. preSave_field now r. Qed.

Lemma preSave_completedAt now r :
  completedAt (preSave tza now r) = completedAt r.
Proof. preSave_field now r. Qed.

Lemma preSave_reminderDateTime now r :
  reminderDateTime (preSave tza now r) = reminderDateTime r.
Proof. preSave_field now r. Qed.

Lemma preSave_occurrences now r :
  occurrences (preSave tza now r) = occurrences r.
Proof. preSave_field now r. Qed.

Lemma preSave_notificationSent now r :
  notificationSent (preSave tza now r) = notificationSent r.
Proof. preSave_field now r. Qed.

Lemma preSave_isRecurring now r :
  isRecurring (preSave tza now r) = isRecurring r.
Proof. preSave_field now r. Qed.

Lemma preSave_recurrencePattern now r :
  recurrencePattern (preSave tza now r) = recurrencePattern r.
Proof. preSave_field now r. Qed.

Lemma preSave_nextTrigger_inactive now r :
  isRecurring r = true -> isActive r = false ->
  nextTrigger (preSave tza now r) = nextTrigger r.
Proof.
  intros Hrec Hact. unfold preSave. rewrite Hrec, Hact. cbn.
  by destruct (isSnoozed r && truthy_date (snoozeUntil r)
               && now_after now (snoozeUntil r)).
Qed.

(** C3.  After any save of a reminder with [isRecurring = false], that
    is once the pre-save hook has run, [nextTrigger] equals
    [reminderDateTime] (and the hook has left [reminderDateTime] and
    [isRecurring] as they were). *)
Theorem save_nonrecurring_nextTrigger (now : Z) (r : Reminder) :
  isRecurring r = false ->
  let r' := save tza now r in
  nextTrigger r' = reminderDateTime r'
  /\ reminderDateTime r' = reminderDateTime r
  /\ isRecurring r' = false.
Proof.
  intros Hrec r'. subst r'. unfold save.
  rewrite preSave_reminderDateTime, preSave_isRecurring.
  split; [|done].
  unfold preSave. rewrite Hrec. cbn.
  by destruct (isSnoozed r && truthy_date (snoozeUntil r)
               && now_after now (snoozeUntil r)).
Qed.

(** [this.save()] leaves in memory the document as it was handed over
    or as the pre-save hook made it. *)
Lemma trySave_document accepted now r :
  document (trySave tza accepted now r) = r
  \/ document (trySave tza accepted now r) = preSave tza now r.
Proof.
  unfold trySave, save.
  destruct (castErrors r); [destruct accepted|]; cbn; auto.
Qed.

Lemma trySave_field {A : Type} (f : Reminder -> A) accepted now r :
  f (preSave tza now r) = f r ->
  f (document (trySave tza accepted now r)) = f r.
Proof.
  intros Hf. by destruct (trySave_document accepted now r) as [-> | ->].
Qed.

(** *** Scheduling the next occurrence *)

Lemma endDatePassed_test now r :
  ReminderSpec.endDatePassed now r <->
  truthy_date (RecurrencePattern.endDate (recurrencePattern r))
  && now_after now (RecurrencePattern.endDate (recurrencePattern r)) = true.
Proof.
  unfold ReminderSpec.endDatePassed.
  destruct (RecurrencePattern.endDate (recurrencePattern r)) as [[e|]|]; cbn.
  - rewrite Z.ltb_lt. split; [by intros (? & [= <-] & ?) | eauto].
  - split; [by intros (? & [=] & _) | done].
  - split; [by intros (? & [=] & _) | done].
Qed.

Lemma occurrenceCountReached_test r :
  ReminderSpec.occurrenceCountReached r <->
  truthy_number (RecurrencePattern.occurrenceCount (recurrencePattern r))
  && match RecurrencePattern.occurrenceCount (recurrencePattern r) with
     | Some c => c <=? Z.of_nat (length (occurrences r))
     | None => false
     end = true.
Proof.
  unfold ReminderSpec.occurrenceCountReached.
  destruct (RecurrencePattern.occurrenceCount (recurrencePattern r)) as [c|];
    cbn.
  - rewrite andb_true_iff, negb_true_iff, Z.eqb_neq, Z.leb_le.
    split; [by intros (? & [= <-] & ?) | eauto].
  - split; [by intros (? & [=] & _) | done].
Qed.

(** Once an end condition holds, [scheduleNextOccurrence] only clears
    the active flag. *)
Lemma scheduleNextOccurrence_stops now r :
  isRecurring r = true ->
  ReminderSpec.endDatePassed now r \/ ReminderSpec.occurrenceCountReached r ->
  scheduleNextOccurrence tza now r = set_isActive false r.
Proof.
  intros Hrec Hend. unfold scheduleNextOccurrence. rewrite Hrec. cbn [negb].
  destruct Hend as [He%endDatePassed_test | Hc%occurrenceCountReached_test].
  - by rewrite He.
  - rewrite Hc.
    by destruct (truthy_date _ && now_after now _).
Qed.

(** Otherwise it moves [reminderDateTime] to the next trigger and makes
    the reminder pending again. *)
Lemma scheduleNextOccurrence_continues now r :
  isRecurring r = true ->
  ~ ReminderSpec.endDatePassed now r ->
  ~ ReminderSpec.occurrenceCountReached r ->
  scheduleNextOccurrence tza now r
  = let r1 := calculateNextTrigger tza r in
    set_notificationSent false
      (set_completedAt None
         (set_isCompleted false
            (set_reminderDateTime (nextTrigger r1) r1))).
Proof.
  intros Hrec He Hc. unfold scheduleNextOccurrence. rewrite Hrec. cbn [negb].
  rewrite endDatePassed_test in He. rewrite occurrenceCountReached_test in Hc.
  apply not_true_is_false in He, Hc. by rewrite He, Hc.
Qed.

Lemma markCompleted_recurring accepted nowC nowS nowP r :
  isRecurring r = true ->
  markCompleted tza accepted nowC nowS nowP r
  = trySave tza accepted nowP
      (scheduleNextOccurrence tza nowS (completedWith nowC r)).
Proof. intros Hrec. unfold markCompleted. cbn. by rewrite Hrec. Qed.

(** The date that [calculateNextTrigger] computes is read off three
    paths only; so is whether it is stored. *)
Lemma calculateNextTrigger_reads r1 r2 :
  isRecurring r1 = isRecurring r2 ->
  reminderDateTime r1 = reminderDateTime r2 ->
  recurrencePattern r1 = recurrencePattern r2 ->
  nextTrigger r1 = nextTrigger r2 ->
  nextTrigger (calculateNextTrigger tza r1)
  = nextTrigger (calculateNextTrigger tza r2).
Proof.
  intros H1 H2 H3 H4. unfold calculateNextTrigger. rewrite H1, H2, H3.
  destruct (negb (isRecurring r2)); [by cbn|]. cbv zeta.
  match goal with
  | |- nextTrigger (assign_nextTrigger ?c _) = _ => destruct c
  end; by cbn.
Qed.

(** A completion that meets an end condition: the reminder is
    deactivated, stays completed, and keeps its dates. *)
Lemma markCompleted_last accepted nowC nowS nowP r :
  isRecurring r = true ->
  endDatePassed nowS r \/ occurrenceCountReached (completedWith nowC r) ->
  let r' := document (markCompleted tza accepted nowC nowS nowP r) in
  isActive r' = false
  /\ isCompleted r' = true
  /\ reminderDateTime r' = reminderDateTime r
  /\ nextTrigger r' = nextTrigger r
  /\ isRecurring r' = true
  /\ recurrencePattern r' = recurrencePattern r
  /\ occurrences r'
     = occurrences r ++ [completedOccurrence (reminderDateTime r) nowC].
Proof.
  intros Hrec Hend r'. subst r'.
  rewrite markCompleted_recurring by done.
  rewrite scheduleNextOccurrence_stops; [|done|].
  2: { destruct Hend as [He|Hc]; [left|by right].
       destruct He as (e & He & Hlt). by exists e. }
  rewrite (trySave_field isActive), (trySave_field isCompleted),
    (trySave_field reminderDateTime), (trySave_field nextTrigger),
    (trySave_field isRecurring), (trySave_field recurrencePattern),
    (trySave_field occurrences);
    [ by repeat split
    | apply preSave_occurrences | apply preSave_recurrencePattern
    | apply preSave_isRecurring
    | by apply preSave_nextTrigger_inactive
    | apply preSave_reminderDateTime | apply preSave_isCompleted
    | apply preSave_isActive ].
Qed.

(** A completion that meets no end condition: the history grows by the
    completed occurrence, [reminderDateTime] moves to what
    [calculateNextTrigger] leaves in [nextTrigger], and the reminder is
    pending again. *)
Lemma markCompleted_next accepted nowC nowS nowP r :
  isRecurring r = true ->
  recurrenceContinues nowS r ->
  let r' := document (markCompleted tza accepted nowC nowS nowP r) in
  isActive r' = isActive r
  /\ isCompleted r' = false
  /\ completedAt r' = None
  /\ notificationSent r' = false
  /\ reminderDateTime r' = nextTrigger (calculateNextTrigger tza r)
  /\ isRecurring r' = true
  /\ recurrencePattern r' = recurrencePattern r
  /\ occurrences r'
     = occurrences r ++ [completedOccurrence (reminderDateTime r) nowC].
Proof.
  intros Hrec [Hend Hcount] r'. subst r'.
  rewrite markCompleted_recurring by done.
  rewrite scheduleNextOccurrence_continues; [|done| |].
  2: { intros (e & He & Hlt). apply Hend. by exists e. }
  2: { intros (c & Hc & Hne & Hle). cbn in Hc, Hle.
       rewrite length_app in Hle. cbn in Hle.
       destruct (Hcount c Hc); lia. }
  cbv zeta.
  rewrite (trySave_field isActive), (trySave_field isCompleted),
    (trySave_field completedAt), (trySave_field notificationSent),
    (trySave_field reminderDateTime), (trySave_field isRecurring),
    (trySave_field recurrencePattern), (trySave_field occurrences);
    [ | apply preSave_occurrences | apply preSave_recurrencePattern
      | apply preSave_isRecurring | apply preSave_reminderDateTime
      | apply preSave_notificationSent | apply preSave_completedAt
      | apply preSave_isCompleted | apply preSave_isActive ].
  cbn [isActive isCompleted completedAt notificationSent reminderDateTime
       isRecurring recurrencePattern occurrences
       set_notificationSent set_completedAt set_isCompleted
       set_reminderDateTime].
  rewrite (calculateNextTrigger_reads (completedWith nowC r) r) by done.
  rewrite (calculateNextTrigger_frame (completedWith nowC r)).
  by repeat split.
Qed.

Lemma scheduleNextOccurrence_keeps now r :
  isRecurring (scheduleNextOccurrence tza now r) = isRecurring r
  /\ recurrencePattern (scheduleNextOccurrence tza now r)
     = recurrencePattern r
  /\ occurrences (scheduleNextOccurrence tza now r) = occurrences r.
Proof.
  unfold scheduleNextOccurrence.
  destruct (negb (isRecurring r)); [done|].
  destruct (truthy_date _ && now_after now _); [done|].
  destruct (truthy_number _ && _); [done|].
  cbv zeta. rewrite calculateNextTrigger_frame. done.
Qed.

(** After a completion a recurring reminder is recurring with the same
    pattern, and its history is one record longer. *)
Lemma markCompleted_history accepted nowC nowS nowP r :
  isRecurring r = true ->
  let r' := document (markCompleted tza accepted nowC nowS nowP r) in
  isRecurring r' = true
  /\ recurrencePattern r' = recurrencePattern r
  /\ length (occurrences r') = S (length (occurrences r)).
Proof.
  intros Hrec r'. subst r'. rewrite markCompleted_recurring by done.
  destruct (scheduleNextOccurrence_keeps nowS (completedWith nowC r))
    as (H1 & H2 & H3).
  rewrite (trySave_field isRecurring), (trySave_field recurrencePattern),
    (trySave_field occurrences), H1, H2, H3;
    [ | apply preSave_occurrences | apply preSave_recurrencePattern
      | apply preSave_isRecurring ].
  cbn. rewrite length_app. cbn. split; [done|]. split; [done | lia].
Qed.

(** With [occurrenceCount = 2], the first completion of a recurring
    reminder leaves it active exactly when it was active, had no
    history, and its end date had not passed. *)
Lemma markCompleted_first_of_two accepted nowC nowS nowP r :
  isRecurring r = true ->
  RecurrencePattern.occurrenceCount (recurrencePattern r) = Some 2 ->
  isActive (document (markCompleted tza accepted nowC nowS nowP r)) = true
  <-> isActive r = true /\ occurrences r = [] /\ ~ endDatePassed nowS r.
Proof.
  intros Hrec Hcount.
  destruct (decide (truthy_date
                      (RecurrencePattern.endDate (recurrencePattern r))
                    && now_after nowS
                         (RecurrencePattern.endDate (recurrencePattern r))
                    = true)) as [He | He].
  - apply endDatePassed_test in He.
    destruct (markCompleted_last accepted nowC nowS nowP r Hrec
                (or_introl He)) as (Ha & _).
    rewrite Ha. split; [done | tauto].
  - rewrite <- endDatePassed_test in He.
    destruct (occurrences r) as [|o os] eqn:Hocc.
    + assert (Hcont : recurrenceContinues nowS r).
      { split; [done|]. intros c Hc. rewrite Hcount in Hc.
        injection Hc as <-. rewrite Hocc. cbn. lia. }
      destruct (markCompleted_next accepted nowC nowS nowP r Hrec Hcont)
        as (Ha & _).
      rewrite Ha. tauto.
    + assert (Hlast : occurrenceCountReached (completedWith nowC r)).
      { exists 2. cbn. rewrite Hocc. cbn. rewrite length_app. cbn.
        split; [done|]. split; [done | lia]. }
      destruct (markCompleted_last accepted nowC nowS nowP r Hrec
                  (or_intror Hlast)) as (Ha & _).
      rewrite Ha. split; [done | by intros (_ & [=] & _)].
Qed.

(** C2, as amended.  For every recurring reminder with
    [occurrenceCount = 2], whatever its history and whether or not each
    save is accepted: after the second [markCompleted] call the reminder
    is inactive, and a third call schedules nothing further (it leaves
    the reminder inactive and [reminderDateTime] and [nextTrigger] as
    the second call left them).  The reminder is still active after the
    first call exactly when it was active before it, its history was
    empty and the end date of its pattern had not passed at that call;
    so it is with an empty history, and not otherwise, that the second
    completion is the one that deactivates.  And whenever the end date
    of the pattern is set and has passed, [scheduleNextOccurrence] on a
    recurring reminder clears the active flag and changes nothing
    else. *)
Theorem occurrenceCount_and_endDate_terminate :
  (forall (r : Reminder) (a1 a2 a3 : bool)
          (c1 s1 p1 c2 s2 p2 c3 s3 p3 : Z),
      isRecurring r = true ->
      RecurrencePattern.occurrenceCount (recurrencePattern r) = Some 2 ->
      let r1 := document (markCompleted tza a1 c1 s1 p1 r) in
      let r2 := document (markCompleted tza a2 c2 s2 p2 r1) in
      let r3 := document (markCompleted tza a3 c3 s3 p3 r2) in
      (isActive r1 = true
       <-> isActive r = true /\ occurrences r = [] /\ ~ endDatePassed s1 r)
      /\ isActive r2 = false
      /\ isActive r3 = false
      /\ reminderDateTime r3 = reminderDateTime r2
      /\ nextTrigger r3 = nextTrigger r2)
  /\ (forall (now : Z) (r : Reminder),
        isRecurring r = true ->
        endDatePassed now r ->
        scheduleNextOccurrence tza now r = set_isActive false r).
Proof.
  split.
  - intros r a1 a2 a3 c1 s1 p1 c2 s2 p2 c3 s3 p3 Hrec Hcount r1 r2 r3.
    split; [by apply markCompleted_first_of_two|].
    destruct (markCompleted_history a1 c1 s1 p1 r Hrec)
      as (Hrec1 & Hpat1 & Hlen1).
    fold r1 in Hrec1, Hpat1, Hlen1.
    assert (Hlast2 : occurrenceCountReached (completedWith c2 r1)).
    { exists 2. cbn. rewrite Hpat1, length_app, Hlen1. cbn.
      split; [done|]. split; [done | lia]. }
    destruct (markCompleted_last a2 c2 s2 p2 r1 Hrec1 (or_intror Hlast2))
      as (Ha2 & _ & _ & _ & Hrec2 & Hpat2 & Hocc2).
    fold r2 in Ha2, Hrec2, Hpat2, Hocc2.
    assert (Hlast3 : occurrenceCountReached (completedWith c3 r2)).
    { exists 2. cbn. rewrite Hpat2, Hpat1, Hocc2, !length_app. cbn.
      split; [done|]. split; [done | lia]. }
    destruct (markCompleted_last a3 c3 s3 p3 r2 Hrec2 (or_intror Hlast3))
      as (Ha3 & _ & Hdt3 & Hnt3 & _).
    fold r3 in Ha3, Hdt3, Hnt3.
    by repeat split.
  - intros now r Hrec Hend. apply scheduleNextOccurrence_stops; auto.
Qed.

(** When no cast error is pending and the validators accept the
    document, [this.save()] resolves. *)
Lemma trySave_resolves now r :
  castErrors r = [] -> trySave tza true now r = Saved (save tza now r).
Proof. intros H. unfold trySave. by rewrite H. Qed.


End ReminderFacts.

(** ** The notification query *)
Section QueryFacts.
Import ESDate ReminderModel ReminderSpec.

Lemma date_lte_iff d now :
  date_lte d now = true <-> exists t : Z, d = Stored t /\ t <= now.
Proof.
  destruct d as [| |t]; cbn.
  - split; [done | by intros (? & [=] & _)].
  - split; [done | by intros (? & [=] & _)].
  - rewrite Z.leb_le. split; [eauto | by intros (? & [= <-] & ?)].
Qed.

Lemma date_object_lte_iff d now :
  date_object_lte d now = true <-> exists t : Z, d = Some t /\ t <= now.
Proof.
  destruct d as [t|]; cbn.
  - rewrite Z.leb_le. split; [eauto | by intros (? & [= <-] & ?)].
  - split; [done | by intros (? & [=] & _)].
Qed.

Lemma snooze_expired_iff (s : option Date) now :
  match s with
  | Some d => date_object_lte d now
  | None => false
  end = true
  <-> exists u : Z, s = Some (Some u) /\ u <= now.
Proof.
  destruct s as [d|].
  - rewrite date_object_lte_iff. split.
    + intros (u & -> & Hu). eauto.
    + intros (u & [= ->] & Hu). eauto.
  - split; [done | by intros (? & [=] & _)].
Qed.

(** The filter of the query is the condition of the specification
    together with [notificationSent: false]. *)
Lemma dueForNotification_iff now r :
  dueForNotification now r = true <->
  dueAsSpecified now r /\ notificationSent r = false.
Proof.
  unfold dueForNotification, dueAsSpecified.
  rewrite !andb_true_iff, orb_true_iff, !Bool.eqb_true_iff.
  rewrite date_lte_iff, snooze_expired_iff. tauto.
Qed.

(** C5, as amended.  [findDueForNotification] returns exactly the stored
    reminders that are active, incomplete, due ([reminderDateTime <= now]),
    not snoozed or with an expired snooze, and whose notification has not
    been sent yet. *)
Theorem findDueForNotification_exact (now : Z) (collection : list Reminder)
    (r : Reminder) :
  In r (findDueForNotification now collection) <->
  In r collection /\ dueAsSpecified now r /\ notificationSent r = false.
Proof.
  unfold findDueForNotification.
  rewrite filter_In, dueForNotification_iff. reflexivity.
Qed.

(** C5 as stated fails: a stored reminder that is active, incomplete,
    due and not snoozed is not returned once its notification has been
    sent. *)
Lemma findDueForNotification_skips_notified :
  In Samples.notifiedReminder [Samples.notifiedReminder]
  /\ dueAsSpecified Samples.jan_4_2024_10h Samples.notifiedReminder
  /\ ~ In Samples.notifiedReminder
       (findDueForNotification Samples.jan_4_2024_10h
          [Samples.notifiedReminder]).
Proof.
  split; [by left|]. split.
  - repeat split; [|by left].
    exists Samples.jan_1_2024_10h. split; [reflexivity|].
    unfold Samples.jan_1_2024_10h, Samples.jan_4_2024_10h. lia.
  - cbn. tauto.
Qed.

End QueryFacts.

(** ** Notes: the pinned flag *)
Section NoteFacts.
Import NoteModel.

Variable toLowerCase : string -> string.
Variable trim : string -> string.

Lemma save_flags now n :
  isPinned (save toLowerCase now n) = isPinned n
  /\ isArchived (save toLowerCase now n) = isArchived n
  /\ isDeleted (save toLowerCase now n) = isDeleted n.
Proof. done. Qed.

(** Archiving clears the pinned flag. *)
Lemma toggleArchive_unpins now n :
  isArchived n = false ->
  isArchived (toggleArchive toLowerCase now n) = true
  /\ isPinned (toggleArchive toLowerCase now n) = false.
Proof. intros H. unfold toggleArchive. cbn. by rewrite H. Qed.

(** Soft-deleting clears the pinned flag. *)
Lemma softDelete_unpins nowD now n :
  isDeleted (softDelete toLowerCase nowD now n) = true
  /\ isPinned (softDelete toLowerCase nowD now n) = false.
Proof. done. Qed.

(** Every operation but [togglePin] keeps pinned notes out of the
    archive and out of the bin. *)
Lemma run_op_pinExclusion n op :
  (forall now, op <> TogglePin now) ->
  pinExclusion n -> pinExclusion (run_op toLowerCase trim n op).
Proof.
  unfold pinExclusion. intros Hop Hinv.
  destruct op as [now|now|now|nowD now|now|label now|label now|now];
    cbn [run_op].
  - by destruct (Hop now).
  - unfold toggleArchive. cbn.
    destruct (isArchived n) eqn:Ha; cbn; [|done].
    intros Hp. destruct (Hinv Hp). congruence.
  - exact Hinv.
  - cbn. discriminate.
  - cbn. intros Hp. by destruct (Hinv Hp).
  - unfold addLabel.
    by destruct (negb (includes_label label (labels n))).
  - exact Hinv.
  - exact Hinv.
Qed.

(** [togglePin] pins whatever is not pinned, archived and deleted notes
    included. *)
Lemma togglePin_pins now n :
  isPinned n = false ->
  isPinned (togglePin toLowerCase now n) = true
  /\ isArchived (togglePin toLowerCase now n) = isArchived n
  /\ isDeleted (togglePin toLowerCase now n) = isDeleted n.
Proof. intros H. unfold togglePin. cbn. by rewrite H. Qed.

(** C9 fails on the code.  From a note with the schema's defaults,
    archiving and then toggling the pin yields a note that is pinned and
    archived; soft-deleting and then toggling the pin yields a note that
    is pinned and deleted. *)
Theorem togglePin_ignores_archive_and_bin (t0 t1 t2 t3 : Z) :
  let fresh := newNote "64b000000000000000000001" "uid-A" t0 in
  let archivedPinned :=
    run_ops toLowerCase trim [ToggleArchive t1; TogglePin t2] fresh in
  let deletedPinned :=
    run_ops toLowerCase trim [SoftDelete t1 t2; TogglePin t3] fresh in
  (isPinned fresh = false /\ isArchived fresh = false
   /\ isDeleted fresh = false)
  /\ (isPinned archivedPinned = true /\ isArchived archivedPinned = true)
  /\ (isPinned deletedPinned = true /\ isDeleted deletedPinned = true).
Proof. cbn. done. Qed.

End NoteFacts.

(** ** The middleware *)
Section MiddlewareFacts.
Import Middleware.

Context {E : Type -> Type}.

Lemma try_bind_normal {A B} (a : A) (k : A -> itree E (Completion B)) :
  try_bind (Ret (Normal a)) k ≅ k a.
Proof. unfold try_bind. by rewrite bind_ret_l. Qed.

Lemma try_bind_threw {A B} msg (k : A -> itree E (Completion B)) :
  try_bind (Ret (Threw msg)) k ≅ Ret (Threw msg).
Proof. unfold try_bind. by rewrite bind_ret_l. Qed.

Lemma try_catch_normal {A} (a : A) (handler : string -> itree E A) :
  try_catch (Ret (Normal a)) handler ≅ Ret a.
Proof. unfold try_catch. by rewrite bind_ret_l. Qed.

Lemma try_catch_threw {A} msg (handler : string -> itree E A) :
  try_catch (Ret (Threw msg)) handler ≅ handler msg.
Proof. unfold try_catch. by rewrite bind_ret_l. Qed.

#[local] Instance try_bind_proper {A B} :
  Proper (eq_itree eq ==> eq ==> eq_itree eq) (@try_bind E A B).
Proof.
  intros m1 m2 Hm k1 k2 <-. unfold try_bind. by rewrite Hm.
Qed.

#[local] Instance try_catch_proper {A} :
  Proper (eq_itree eq ==> eq ==> eq_itree eq) (@try_catch E A).
Proof.
  intros m1 m2 Hm k1 k2 <-. unfold try_catch. by rewrite Hm.
Qed.

(** Two answers of the same straight-line run are the same answer. *)
Lemma Ret_unique {A} (t : itree E A) (a b : A) :
  t ≅ Ret a -> t ≅ Ret b -> a = b.
Proof.
  intros Ha Hb. rewrite Ha in Hb. by apply eqit_inv_Ret in Hb.
Qed.

(** *** [validateResourceOwnership] *)

Variable resourceModel : ResourceModel E.
Variable resourceParam : string.

Lemma ownership_not_found req :
  findById resourceModel (params req !! resourceParam) ≅ Ret (Normal None) ->
  validateResourceOwnership resourceModel resourceParam req
  ≅ Ret (Responded 404 notFoundBody).
Proof.
  intros Hfind. unfold validateResourceOwnership. cbv zeta.
  rewrite Hfind, try_bind_normal, try_catch_normal. reflexivity.
Qed.

Lemma ownership_denied req u d res :
  user req = Some u -> firebaseUser req = Some d ->
  findById resourceModel (params req !! resourceParam)
  ≅ Ret (Normal (Some res)) ->
  Resource.user res <> _id u ->
  Resource.firebaseUid res <> uid d ->
  validateResourceOwnership resourceModel resourceParam req
  ≅ Ret (Responded 403 accessDeniedBody).
Proof.
  intros Hu Hd Hfind Hne1 Hne2. unfold validateResourceOwnership. cbv zeta.
  rewrite Hfind, try_bind_normal, Hu, try_bind_normal.
  apply String.eqb_neq in Hne1, Hne2. rewrite Hne1. cbn [negb].
  rewrite Hd, try_bind_normal, Hne2. cbn [negb].
  by rewrite try_catch_normal.
Qed.

Lemma ownership_granted req u d res :
  user req = Some u -> firebaseUser req = Some d ->
  findById resourceModel (params req !! resourceParam)
  ≅ Ret (Normal (Some res)) ->
  Resource.user res = _id u \/ Resource.firebaseUid res = uid d ->
  validateResourceOwnership resourceModel resourceParam req
  ≅ Ret (Next (set_resource res req)).
Proof.
  intros Hu Hd Hfind Hown. unfold validateResourceOwnership. cbv zeta.
  rewrite Hfind, try_bind_normal, Hu, try_bind_normal.
  destruct (String.eqb_spec (Resource.user res) (_id u)) as [Heq|Hne];
    cbn [negb].
  - by rewrite try_bind_normal, try_catch_normal.
  - destruct Hown as [|Heq]; [done|].
    apply String.eqb_eq in Heq.
    rewrite Hd, try_bind_normal, Heq. cbn [negb].
    by rewrite try_catch_normal.
Qed.

(** C6, as amended.  For a request of an authenticated user (internal id
    [_id u], subject id [uid d]) through the ownership gate: when the
    lookup finds no resource the gate answers 404; when the resource
    exists and neither its owner reference equals the internal id nor its
    Firebase uid equals the subject id, the gate answers 403 with the
    message "Access denied: You do not own this resource" and no [code];
    when at least one of the two matches, the gate attaches the resource
    to the request and calls [next]. *)
Theorem validateResourceOwnership_gate (req : Request) (u : User)
    (d : DecodedToken) :
  user req = Some u ->
  firebaseUser req = Some d ->
  let lookup := findById resourceModel (params req !! resourceParam) in
  let gate := validateResourceOwnership resourceModel resourceParam req in
  (lookup ≅ Ret (Normal None) ->
   gate ≅ Ret (Responded 404 notFoundBody))
  /\ (forall res,
        lookup ≅ Ret (Normal (Some res)) ->
        Resource.user res <> _id u ->
        Resource.firebaseUid res <> uid d ->
        gate ≅ Ret (Responded 403 accessDeniedBody)
        /\ code accessDeniedBody = None)
  /\ (forall res,
        lookup ≅ Ret (Normal (Some res)) ->
        Resource.user res = _id u \/ Resource.firebaseUid res = uid d ->
        gate ≅ Ret (Next (set_resource res req))).
Proof.
  intros Hu Hd lookup gate. subst lookup gate.
  split; [apply ownership_not_found|].
  split.
  - intros res Hfind Hne1 Hne2. split; [|reflexivity].
    by apply (ownership_denied req u d res).
  - intros res Hfind Hown. by apply (ownership_granted req u d res).
Qed.

(** *** [authenticateToken] *)

Lemma carriesNoToken_bearerToken authHeader :
  carriesNoToken authHeader <-> bearerToken authHeader = None.
Proof.
  unfold carriesNoToken, bearerToken.
  destruct authHeader as [[|c h]|]; [by split; auto | | done].
  destruct (split " " (String c h) !! 1%nat) as [[|c' token]|];
    split; intros H; try done; try (by auto); by destruct H.
Qed.

End MiddlewareFacts.

Section AuthenticationFacts.
Import Middleware.

Lemma authenticateToken_no_token req :
  bearerToken (authorization (headers req)) = None ->
  authenticateToken req ≅ Ret (Responded 401 tokenRequiredBody).
Proof.
  intros Hno. unfold authenticateToken. rewrite Hno.
  apply try_catch_normal.
Qed.

(** C8, as amended.  For a request whose Authorization header carries no
    token (it is absent, or its second space-separated piece is missing
    or empty), [authenticateToken] answers 401 with the message "Access
    token required" and no [code], and does so without any call to the
    identity verifier or to the user directory: the run is the bare
    answer. *)
Theorem authenticateToken_without_token (req : Request) :
  carriesNoToken (authorization (headers req)) ->
  authenticateToken req ≅ Ret (Responded 401 tokenRequiredBody)
  /\ code tokenRequiredBody = None.
Proof.
  intros Hno%carriesNoToken_bearerToken. split; [|reflexivity].
  by apply authenticateToken_no_token.
Qed.

(** The scheme of the header is not looked at: the second piece of any
    header is taken for the token and handed to the verifier. *)
Lemma bearerToken_any_scheme :
  bearerToken (Some "Basic dXNlcjpwdw==") = Some "dXNlcjpwdw==".
Proof. reflexivity. Qed.

End AuthenticationFacts.

(** ** The per-user rate limiter *)
Section RateLimitFacts.
Import Middleware.

Variable tooManyRequestsText : Z -> Z -> string.

Abbreviation limiter := (createUserRateLimit tooManyRequestsText).

(** The timestamps of [userId] that are still inside the window at
    [now]. *)
Abbreviation recent windowMs now table userId :=
  (List.filter (fun time => now - windowMs <? time)
     (default [] (table !! userId))).

Lemma limiter_anonymous windowMs max message now req
    (table : gmap string (list Z)) :
  user req = None ->
  limiter windowMs max message now req table = (Next req, table).
Proof. intros H. unfold createUserRateLimit. by rewrite H. Qed.

Lemma limiter_accepts windowMs max message now req u
    (table : gmap string (list Z)) :
  user req = Some u ->
  Z.of_nat (length (recent windowMs now table (_id u))) < max ->
  limiter windowMs max message now req table
  = (Next req,
     <[_id u := recent windowMs now table (_id u) ++ [now]]> table).
Proof.
  intros Hu Hlen. unfold createUserRateLimit. rewrite Hu. cbv zeta.
  by destruct (Z.leb_spec max
                 (Z.of_nat (length (recent windowMs now table (_id u)))));
    [lia|].
Qed.

Lemma limiter_rejects windowMs max message now req u
    (table : gmap string (list Z)) :
  user req = Some u ->
  max <= Z.of_nat (length (recent windowMs now table (_id u))) ->
  exists body,
    limiter windowMs max message now req table = (Responded 429 body, table)
    /\ retryAfter body
       = Some (match recent windowMs now table (_id u) !! 0%nat with
               | Some oldest => Some (ceil_div_1000 (oldest + windowMs - now))
               | None => None
               end).
Proof.
  intros Hu Hlen. unfold createUserRateLimit. rewrite Hu. cbv zeta.
  destruct (Z.leb_spec max
              (Z.of_nat (length (recent windowMs now table (_id u)))));
    [|lia].
  eexists. split; reflexivity.
Qed.

(** [ceil_div_1000 x] is the least integer [k] with [x <= 1000 * k]. *)
Lemma ceil_div_1000_spec x :
  1000 * (ceil_div_1000 x - 1) < x <= 1000 * ceil_div_1000 x.
Proof. unfold ceil_div_1000. Z.div_mod_to_equations. lia. Qed.

Lemma recent_insert windowMs now (table : gmap string (list Z)) userId l :
  recent windowMs now (<[userId := l]> table) userId
  = List.filter (fun time => now - windowMs <? time) l.
Proof. by rewrite lookup_insert_eq. Qed.

Lemma filter_all_outside (f : Z -> bool) (P : Z -> Prop) l :
  (forall t, P t -> f t = false) -> Forall P l -> List.filter f l = [].
Proof.
  intros Hf Hl. induction Hl as [|t l Ht _ IH]; [done|].
  cbn. by rewrite (Hf t Ht).
Qed.

(** C10.  When the limiter rejects a request with status 429, its table
    is left exactly as it was: the rejected request is not recorded, and
    every later request is treated as if the rejected one had not been
    made. *)
Theorem limiter_reject_keeps_table (windowMs max : Z)
    (message : option string) (now : Z) (req : Request)
    (table : gmap string (list Z)) (body : Body) :
  (limiter windowMs max message now req table).1 = Responded 429 body ->
  (limiter windowMs max message now req table).2 = table
  /\ forall now' req',
       limiter windowMs max message now' req'
         (limiter windowMs max message now req table).2
       = limiter windowMs max message now' req' table.
Proof.
  intros Hrej.
  assert (Hsame : (limiter windowMs max message now req table).2 = table).
  { revert Hrej. unfold createUserRateLimit.
    destruct (user req) as [u|]; [|discriminate]. cbv zeta.
    by destruct (max <=? _). }
  split; [done|]. intros now' req'. by rewrite Hsame.
Qed.

(** C7.  With [max = 3] and [windowMs = 1000], for a user with no
    request on record inside the window: three requests at
    [t1 <= t2 <= t3] pass, a fourth at [t4 < t1 + 1000] is answered 429
    with [retryAfter] the number of seconds, rounded up and not negative,
    until the oldest recorded request [t1] leaves the window, and a
    request at [t5 >= t1 + 1000] passes again.  And a limiter of any
    configuration lets every unauthenticated request pass without
    touching its table. *)
Theorem limiter_three_per_second :
  (forall (message : option string) (req : Request) (u : User)
          (table : gmap string (list Z)) (t1 t2 t3 t4 t5 : Z),
      user req = Some u ->
      Forall (fun t => t <= t1 - 1000) (default [] (table !! _id u)) ->
      t1 <= t2 -> t2 <= t3 -> t3 <= t4 -> t4 < t1 + 1000 ->
      t1 + 1000 <= t5 ->
      let s1 := limiter 1000 3 message t1 req table in
      let s2 := limiter 1000 3 message t2 req s1.2 in
      let s3 := limiter 1000 3 message t3 req s2.2 in
      let s4 := limiter 1000 3 message t4 req s3.2 in
      let s5 := limiter 1000 3 message t5 req s4.2 in
      s1.1 = Next req /\ s2.1 = Next req /\ s3.1 = Next req
      /\ (exists body k,
            s4.1 = Responded 429 body
            /\ retryAfter body = Some (Some k)
            /\ 0 <= k
            /\ 1000 * (k - 1) < t1 + 1000 - t4 <= 1000 * k)
      /\ s5.1 = Next req)
  /\ (forall (windowMs max : Z) (message : option string) (now : Z)
             (req : Request) (table : gmap string (list Z)),
        user req = None ->
        limiter windowMs max message now req table = (Next req, table)).
Proof.
  split; [|by intros; apply limiter_anonymous].
  intros message req u table t1 t2 t3 t4 t5 Hu Hold H12 H23 H34 H41 H15
    s1 s2 s3 s4 s5.
  assert (Hr1 : recent 1000 t1 table (_id u) = []).
  { apply (filter_all_outside _ _ _ (fun t Ht => proj2 (Z.ltb_ge _ _) Ht)
             Hold). }
  assert (Hs1 : s1 = (Next req, <[_id u := [t1]]> table)).
  { subst s1. rewrite (limiter_accepts _ _ _ _ _ u) by (rewrite ?Hr1; done).
    by rewrite Hr1. }
  assert (Hin : forall a b, t1 <= a -> a <= b -> b <= t4 ->
                            (b - 1000 <? a) = true)
    by (intros; apply Z.ltb_lt; lia).
  assert (Hs2 : s2 = (Next req, <[_id u := [t1; t2]]> table)).
  { subst s2. rewrite Hs1. cbn [snd].
    rewrite (limiter_accepts _ _ _ _ _ u); [ | done | ];
      rewrite recent_insert; cbn [List.filter]; rewrite ?Hin by lia;
      [by rewrite insert_insert_eq | done]. }
  assert (Hs3 : s3 = (Next req, <[_id u := [t1; t2; t3]]> table)).
  { subst s3. rewrite Hs2. cbn [snd].
    rewrite (limiter_accepts _ _ _ _ _ u); [ | done | ];
      rewrite recent_insert; cbn [List.filter]; rewrite ?Hin by lia;
      [by rewrite insert_insert_eq | done]. }
  assert (Hs4 : exists body,
             s4 = (Responded 429 body, <[_id u := [t1; t2; t3]]> table)
             /\ retryAfter body
                = Some (Some (ceil_div_1000 (t1 + 1000 - t4)))).
  { subst s4. rewrite Hs3. cbn [snd].
    destruct (limiter_rejects 1000 3 message t4 req u
                (<[_id u := [t1; t2; t3]]> table) Hu) as (body & Hb & Hra).
    - rewrite recent_insert. cbn [List.filter]. by rewrite !Hin by lia.
    - exists body. split; [done|]. rewrite Hra, recent_insert.
      cbn [List.filter]. by rewrite !Hin by lia. }
  destruct Hs4 as (body & Hs4 & Hra).
  rewrite Hs1, Hs2, Hs3, Hs4. cbn [fst].
  split; [done|]. split; [done|]. split; [done|]. split.
  - exists body, (ceil_div_1000 (t1 + 1000 - t4)).
    pose proof (ceil_div_1000_spec (t1 + 1000 - t4)).
    split; [done|]. split; [done|]. lia.
  - subst s5. rewrite Hs4. cbn [snd].
    rewrite (limiter_accepts _ _ _ _ _ u); [done | done |].
    rewrite recent_insert. cbn [List.filter].
    destruct (Z.ltb_spec (t5 - 1000) t1); [lia|].
    repeat case_ltb; cbn [length]; lia.
Qed.

End RateLimitFacts.

(** ** The properties at sample inputs *)

(** C1 as stated fails: the schema allows the interval 1.5, and the
    daily reminder of 2024-01-01T10:00Z with that interval gets the next
    trigger 2024-01-02T10:00Z, one day later, where a day and a half
    later is 2024-01-02T22:00Z. *)
Lemma calculateNextTrigger_truncates_interval :
  let r := Samples.recurringReminder Samples.everyDayAndAHalf in
  ReminderModel.isRecurring r = true
  /\ ReminderModel.RecurrencePattern.type (ReminderModel.recurrencePattern r)
     = "daily"
  /\ ReminderModel.RecurrencePattern.interval
       (ReminderModel.recurrencePattern r) = 1.5%float
  /\ ReminderModel.reminderDateTime r
     = ReminderModel.Stored Samples.jan_1_2024_10h
  /\ ReminderModel.nextTrigger
       (ReminderModel.calculateNextTrigger Samples.utc r)
     = ReminderModel.Stored (Samples.jan_1_2024_10h + 86400000)
  /\ ReminderModel.nextTrigger
       (ReminderModel.calculateNextTrigger Samples.utc r)
     <> ReminderModel.Stored (Samples.jan_1_2024_10h + 129600000).
Proof. vm_compute. repeat split; discriminate. Qed.

(** C1, as amended, at the reminder of 2024-01-01T10:00Z that recurs
    every three days, in UTC. *)
Lemma calculateNextTrigger_advances_sample :
  ReminderModel.isRecurring
    (Samples.recurringReminder Samples.everyThreeDays) = true
  /\ CalendarSpec.readAs
       (ReminderModel.reminderDateTime
          (Samples.recurringReminder Samples.everyThreeDays))
       Samples.jan_1_2024_10h
  /\ ReminderModel.calculateNextTrigger Samples.utc
       (Samples.recurringReminder Samples.everyThreeDays)
     = ReminderModel.with_nextTrigger
         (ReminderModel.Stored Samples.jan_4_2024_10h) []
         (Samples.recurringReminder Samples.everyThreeDays).
Proof.
  assert (Hv : CalendarSpec.readAs
                 (ReminderModel.reminderDateTime
                    (Samples.recurringReminder Samples.everyThreeDays))
                 Samples.jan_1_2024_10h).
  { left. split; [reflexivity | vm_compute; discriminate]. }
  split; [reflexivity|]. split; [exact Hv|].
  destruct (calculateNextTrigger_advances Samples.utc
              (Samples.recurringReminder Samples.everyThreeDays)
              Samples.jan_1_2024_10h eq_refl Hv)
    as (Hdaily & _).
  destruct (Hdaily eq_refl) as [Hmoves _].
  exact (Hmoves 3 eq_refl).
Defined.

(** A day on the clock of the host is not always 24 hours: in New York,
    the daily reminder of March 9, 2024, 10:00 (15:00Z) is next due on
    March 10 at 10:00, which is 14:00Z, 23 hours later. *)
Example a_day_across_the_spring_transition :
  ReminderModel.nextTrigger
    (ReminderModel.calculateNextTrigger Samples.newYorkSpring2024
       (ReminderModel.set_reminderDateTime
          (ReminderModel.Stored Samples.mar_9_2024_15h)
          (Samples.recurringReminder Samples.dailyTwice)))
  = ReminderModel.Stored (Samples.mar_9_2024_15h + 23 * 3600000)
  /\ CalendarSpec.localFields Samples.newYorkSpring2024
       Samples.mar_9_2024_15h
     = CalendarSpec.mkCalendarDate 2024 2 9 36000000
  /\ CalendarSpec.localFields Samples.newYorkSpring2024
       (Samples.mar_9_2024_15h + 23 * 3600000)
     = CalendarSpec.mkCalendarDate 2024 2 10 36000000.
Proof. vm_compute. repeat split. Qed.

(** A next trigger beyond the range of time values is not stored: the
    daily reminder of the last representable instant keeps the
    [nextTrigger] it had, with a cast error, and its save is rejected. *)
Example the_day_after_the_last_day :
  let r := ReminderModel.set_reminderDateTime
             (ReminderModel.Stored 8640000000000000)
             (ReminderModel.set_nextTrigger
                (ReminderModel.Stored Samples.jan_1_2024_10h)
                (Samples.recurringReminder Samples.dailyTwice)) in
  ReminderModel.nextTrigger
    (ReminderModel.calculateNextTrigger Samples.utc r)
  = ReminderModel.Stored Samples.jan_1_2024_10h
  /\ ReminderModel.castErrors
       (ReminderModel.calculateNextTrigger Samples.utc r)
     = ["nextTrigger"]
  /\ ReminderModel.trySave Samples.utc true Samples.jan_4_2024_10h
       (ReminderModel.calculateNextTrigger Samples.utc r)
     = ReminderModel.Rejected
         (ReminderModel.calculateNextTrigger Samples.utc r).
Proof. vm_compute. repeat split. Qed.

(** A [null] date reads as the epoch, and the next trigger of a daily
    reminder is then the day after it; a missing date reads as an
    Invalid Date, and nothing is assigned. *)
Example next_trigger_without_a_date :
  let daily := Samples.recurringReminder Samples.dailyTwice in
  ReminderModel.nextTrigger
    (ReminderModel.calculateNextTrigger Samples.utc
       (ReminderModel.set_reminderDateTime ReminderModel.Null daily))
  = ReminderModel.Stored 86400000
  /\ ReminderModel.calculateNextTrigger Samples.utc
       (ReminderModel.set_reminderDateTime ReminderModel.Undefined daily)
     = ReminderModel.invalidate "nextTrigger"
         (ReminderModel.set_reminderDateTime ReminderModel.Undefined daily).
Proof. vm_compute. split; reflexivity. Qed.

(** The overflow of the specification's example: one month after January
    31, 2024 (10:00 UTC) is March 2, 2024 (10:00 UTC). *)
Example one_month_after_january_31 :
  CalendarSpec.plusMonths 1
    (CalendarSpec.mkCalendarDate 2024 0 31 36000000)
  = CalendarSpec.mkCalendarDate 2024 2 2 36000000
  /\ CalendarSpec.localFields Samples.utc 1706695200000
     = CalendarSpec.mkCalendarDate 2024 0 31 36000000
  /\ ESDate.setMonth Samples.utc (Some 1706695200000)
       (ESDate.toDouble (ESDate.getMonth Samples.utc (Some 1706695200000%Z))
        + 1)%float
     = Some 1709373600000
  /\ CalendarSpec.localFields Samples.utc 1709373600000
     = CalendarSpec.mkCalendarDate 2024 2 2 36000000.
Proof. vm_compute. repeat split. Qed.

(** C2 as stated fails: the daily reminder with [occurrenceCount = 2]
    that was dismissed once is still active, and its first completion,
    not its second, deactivates it. *)
Lemma occurrenceCount_two_stops_at_first_completion :
  let r := ReminderModel.document
             (ReminderModel.dismiss Samples.utc true 1000 1001
                (Samples.recurringReminder Samples.dailyTwice)) in
  ReminderModel.isRecurring r = true
  /\ ReminderModel.RecurrencePattern.occurrenceCount
       (ReminderModel.recurrencePattern r) = Some 2
  /\ ReminderModel.occurrences r = Samples.skippedOnce
  /\ ReminderModel.isActive r = true
  /\ ReminderModel.isActive
       (ReminderModel.document
          (ReminderModel.markCompleted Samples.utc true 2000 2001 2002 r))
     = false.
Proof. vm_compute. repeat split. Qed.

(** C2, as amended, at a fresh daily reminder with [occurrenceCount = 2],
    completed at three successive instants, and at a daily reminder
    whose end date has passed. *)
Lemma occurrenceCount_and_endDate_terminate_sample :
  ReminderModel.isActive
    (ReminderModel.document
       (ReminderModel.markCompleted Samples.utc true 2000 2001 2002
          (ReminderModel.document
             (ReminderModel.markCompleted Samples.utc true 1000 1001 1002
                (Samples.recurringReminder Samples.dailyTwice))))) = false
  /\ ReminderModel.scheduleNextOccurrence Samples.utc Samples.jan_4_2024_10h
       (Samples.recurringReminder Samples.dailyEnded)
     = ReminderModel.set_isActive false
         (Samples.recurringReminder Samples.dailyEnded).
Proof.
  destruct (occurrenceCount_and_endDate_terminate Samples.utc)
    as [Hcount Hend].
  split.
  - exact (proj1 (proj2
             (Hcount (Samples.recurringReminder Samples.dailyTwice)
                true true true
                1000 1001 1002 2000 2001 2002 3000 3001 3002
                eq_refl eq_refl))).
  - apply Hend; [reflexivity|].
    exists Samples.jan_1_2024_10h. split; [reflexivity|].
    unfold Samples.jan_1_2024_10h, Samples.jan_4_2024_10h. lia.
Defined.

(** C3 at a one-off reminder. *)
Lemma save_nonrecurring_nextTrigger_sample :
  ReminderModel.isRecurring Samples.oneOffReminder = false
  /\ ReminderModel.nextTrigger
       (ReminderModel.save Samples.utc Samples.jan_4_2024_10h
          Samples.oneOffReminder)
     = ReminderModel.reminderDateTime
         (ReminderModel.save Samples.utc Samples.jan_4_2024_10h
            Samples.oneOffReminder).
Proof.
  split; [reflexivity|].
  exact (proj1 (save_nonrecurring_nextTrigger Samples.utc
                  Samples.jan_4_2024_10h Samples.oneOffReminder eq_refl)).
Defined.



(** C6 as stated fails: user B asking for a note of user A is answered
    403, but the body carries no [code], so not [ACCESS_DENIED]. *)
Lemma validateResourceOwnership_denial_has_no_code :
  ~ exists body : Middleware.Body,
      Middleware.validateResourceOwnership
        (Samples.snapshotModel Samples.notesOfA) "id"
        (Samples.requestBy Samples.userB
           (Samples.tokenOf "uid-B" "b@example.com")
           "64b0000000000000000000a1")
      ≅ Ret (Middleware.Responded 403 body)
      /\ Middleware.code body = Some "ACCESS_DENIED".
Proof.
  intros (body & Hrun & Hcode).
  assert (Hden :
    Middleware.validateResourceOwnership
      (Samples.snapshotModel Samples.notesOfA) "id"
      (Samples.requestBy Samples.userB
         (Samples.tokenOf "uid-B" "b@example.com")
         "64b0000000000000000000a1")
    ≅ Ret (Middleware.Responded 403 Middleware.accessDeniedBody)).
  { apply (ownership_denied _ _ _ Samples.userB
             (Samples.tokenOf "uid-B" "b@example.com") Samples.noteOfA);
      [reflexivity | reflexivity | reflexivity | discriminate | discriminate]. }
  pose proof (Ret_unique _ _ _ Hrun Hden) as Heq.
  injection Heq as ->. discriminate Hcode.
Qed.

(** C6, as amended, at user A asking for a note of their own. *)
Lemma validateResourceOwnership_gate_sample :
  Middleware.validateResourceOwnership
    (Samples.snapshotModel Samples.notesOfA) "id"
    (Samples.requestBy Samples.userA
       (Samples.tokenOf "uid-A" "a@example.com")
       "64b0000000000000000000a1")
  ≅ Ret (Middleware.Next
           (Middleware.set_resource Samples.noteOfA
              (Samples.requestBy Samples.userA
                 (Samples.tokenOf "uid-A" "a@example.com")
                 "64b0000000000000000000a1"))).
Proof.
  destruct (validateResourceOwnership_gate
              (Samples.snapshotModel Samples.notesOfA) "id"
              (Samples.requestBy Samples.userA
                 (Samples.tokenOf "uid-A" "a@example.com")
                 "64b0000000000000000000a1")
              Samples.userA (Samples.tokenOf "uid-A" "a@example.com")
              eq_refl eq_refl)
    as (_ & _ & Hgranted).
  apply (Hgranted Samples.noteOfA); [reflexivity | left; reflexivity].
Defined.

(** C8 as stated fails: a request without an Authorization header is
    answered 401, but the body carries no [code], so not [AUTH_FAILED]. *)
Lemma authenticateToken_no_token_has_no_code :
  ~ exists body : Middleware.Body,
      Middleware.authenticateToken Samples.anonymousRequest
      ≅ Ret (Middleware.Responded 401 body)
      /\ Middleware.code body = Some "AUTH_FAILED".
Proof.
  intros (body & Hrun & Hcode).
  pose proof (authenticateToken_no_token Samples.anonymousRequest eq_refl)
    as Hno.
  pose proof (Ret_unique _ _ _ Hrun Hno) as Heq.
  injection Heq as ->. discriminate Hcode.
Qed.

(** C8, as amended, at a request without an Authorization header. *)
Lemma authenticateToken_without_token_sample :
  Middleware.authenticateToken Samples.anonymousRequest
  ≅ Ret (Middleware.Responded 401 Middleware.tokenRequiredBody).
Proof.
  exact (proj1 (authenticateToken_without_token Samples.anonymousRequest I)).
Defined.

(** C7 at user A, whose requests arrive at 0, 100, 200, 300 and 1000 ms
    at a limiter with an empty table. *)
Lemma limiter_three_per_second_sample :
  (Middleware.createUserRateLimit Samples.plainText 1000 3 None 0
     (Samples.requestBy Samples.userA
        (Samples.tokenOf "uid-A" "a@example.com")
        "64b0000000000000000000a1") ∅).1
  = Middleware.Next
      (Samples.requestBy Samples.userA
         (Samples.tokenOf "uid-A" "a@example.com")
         "64b0000000000000000000a1")
  /\ Middleware.createUserRateLimit Samples.plainText 1000 3 None 0
       Samples.anonymousRequest Samples.busyTable
     = (Middleware.Next Samples.anonymousRequest, Samples.busyTable).
Proof.
  destruct (limiter_three_per_second Samples.plainText) as [Hkeep Hanon].
  split.
  - refine (proj1
             (Hkeep None
                (Samples.requestBy Samples.userA
                   (Samples.tokenOf "uid-A" "a@example.com")
                   "64b0000000000000000000a1")
                Samples.userA ∅ 0 100 200 300 1000 eq_refl _ _ _ _ _ _));
      [constructor | lia | lia | lia | lia | lia].
  - apply Hanon. reflexivity.
Defined.

(** C10 at user A, rejected at 400 ms with three requests on record. *)
Lemma limiter_reject_keeps_table_sample :
  (Middleware.createUserRateLimit Samples.plainText 1000 3 None 400
     (Samples.requestBy Samples.userA
        (Samples.tokenOf "uid-A" "a@example.com")
        "64b0000000000000000000a1") Samples.busyTable).2
  = Samples.busyTable.
Proof.
  refine (proj1
           (limiter_reject_keeps_table Samples.plainText 1000 3 None 400
              (Samples.requestBy Samples.userA
                 (Samples.tokenOf "uid-A" "a@example.com")
                 "64b0000000000000000000a1")
              Samples.busyTable
              {| Middleware.success := false;
                 Middleware.message := "Too many requests.";
                 Middleware.code := None;
                 Middleware.retryAfter := Some (Some 1) |} _)).
  vm_compute. reflexivity.
Defined.

(* ===================================================================== *)
(** * Part III.  Further properties of the code                           *)
(* ===================================================================== *)

(** ** Reminders: saving, snoozing, dismissing, tags *)
Section ReminderMoreFacts.
Import ESDate CalendarSpec ReminderModel ReminderSpec ReminderMore.

Variable tza : Z -> bool -> Z.
Variable trim : string -> string.

(** Clearing the errors of paths. *)
Lemma without_idem p l : without p (without p l) = without p l.
Proof.
  unfold without. induction l as [|q l IH]; [done|]. cbn.
  destruct (negb (q =? p)%string) eqn:Hq; cbn; rewrite ?Hq; by rewrite IH.
Qed.

Lemma without_comm p q l : without p (without q l) = without q (without p l).
Proof.
  unfold without. induction l as [|x l IH]; [done|]. cbn.
  destruct (negb (x =? q)%string) eqn:Hq, (negb (x =? p)%string) eqn:Hp;
    cbn; rewrite ?Hq, ?Hp; by rewrite IH.
Qed.

Lemma without_cons_same p l : without p (p :: l) = without p l.
Proof. unfold without. cbn. by rewrite String.eqb_refl. Qed.

Lemma without_cons_other p q l :
  q <> p -> without p (q :: l) = q :: without p l.
Proof.
  intros Hne. unfold without. cbn.
  apply String.eqb_neq in Hne. by rewrite Hne.
Qed.

Lemma without_nil p : without p [] = [].
Proof. done. Qed.

(** The date that [calculateNextTrigger] assigns for a recurring
    reminder is a function of [reminderDateTime] and the pattern. *)
Lemma calculateNextTrigger_recurring r :
  exists current : Date,
    forall r2,
      isRecurring r2 = true ->
      reminderDateTime r2 = reminderDateTime r ->
      recurrencePattern r2 = recurrencePattern r ->
      calculateNextTrigger tza r2 = assign_nextTrigger current r2.
Proof.
  eexists. intros r2 H1 H2 H3. unfold calculateNextTrigger.
  rewrite H1, H2, H3. cbn [negb]. cbv zeta. reflexivity.
Qed.

(** The snooze test of the pre-save hook. *)
Lemma preSave_snooze now r :
  let expired :=
    isSnoozed r && truthy_date (snoozeUntil r) && now_after now (snoozeUntil r)
  in
  (expired = true ->
   isSnoozed (preSave tza now r) = false
   /\ snoozeUntil (preSave tza now r) = None)
  /\ (expired = false ->
      isSnoozed (preSave tza now r) = isSnoozed r
      /\ snoozeUntil (preSave tza now r) = snoozeUntil r).
Proof.
  cbv zeta. unfold preSave.
  set (r1 := if isRecurring r && isActive r && negb (isCompleted r)
             then calculateNextTrigger tza r
             else if negb (isRecurring r)
             then set_nextTrigger (reminderDateTime r) r else r).
  assert (Hs : isSnoozed r1 = isSnoozed r /\ snoozeUntil r1 = snoozeUntil r).
  { subst r1. destruct (isRecurring r && isActive r && negb (isCompleted r)).
    - by rewrite (calculateNextTrigger_frame tza r).
    - by destruct (negb (isRecurring r)). }
  destruct Hs as [Hs1 Hs2]. rewrite Hs1, Hs2.
  split; intros ->; [done | by split].
Qed.

Lemma preSave_tags now r : tags (preSave tza now r) = tags r.
Proof.
  destruct (preSave_shape tza now r) as (? & ? & [-> | ->]); reflexivity.
Qed.

Lemma preSave_priority now r : priority (preSave tza now r) = priority r.
Proof.
  destruct (preSave_shape tza now r) as (? & ? & [-> | ->]); reflexivity.
Qed.

Lemma save_nonrecurring_nextTrigger_aux now r :
  isRecurring r = false ->
  nextTrigger (save tza now r) = reminderDateTime (save tza now r)
  /\ reminderDateTime (save tza now r) = reminderDateTime r.
Proof.
  intros Hrec. unfold save. rewrite preSave_reminderDateTime.
  split; [|done]. unfold preSave. rewrite Hrec. cbn.
  by destruct (isSnoozed r && truthy_date (snoozeUntil r)
               && now_after now (snoozeUntil r)).
Qed.

(** X1.  After any save at clock reading [now], no expired snooze is left
    on the document: it is not both snoozed and past its [snoozeUntil]. *)
Theorem save_leaves_no_expired_snooze (now : Z) (r : Reminder) :
  let r' := save tza now r in
  ~ (isSnoozed r' = true
     /\ exists u : Z, snoozeUntil r' = Some (Some u) /\ u < now).
Proof.
  cbv zeta. unfold save. intros (Hsn & u & Hu & Hlt).
  destruct (preSave_snooze now r) as [Hexp Hkeep]. cbv zeta in *.
  destruct (isSnoozed r && truthy_date (snoozeUntil r)
            && now_after now (snoozeUntil r)) eqn:Htest.
  - destruct (Hexp eq_refl) as [Hs _]. congruence.
  - destruct (Hkeep eq_refl) as [Hs Hsu]. rewrite Hs in Hsn.
    rewrite Hsu in Hu. rewrite Hsn, Hu in Htest. cbn in Htest.
    apply Z.ltb_ge in Htest. lia.
Qed.

(** The first step of the pre-save hook done twice is done once, also
    with the snooze cleared in between. *)
Lemma assign_nextTrigger_twice current r :
  assign_nextTrigger current (assign_nextTrigger current r)
  = assign_nextTrigger current r.
Proof.
  destruct current as [tv|];
    unfold assign_nextTrigger, set_nextTrigger, invalidate, set_snoozeUntil,
    set_isSnoozed; cbn -[without]; f_equal.
  - by rewrite without_idem.
  - by rewrite without_cons_same, without_idem.
Qed.

Lemma assign_nextTrigger_after_unsnooze current r :
  assign_nextTrigger current
    (set_snoozeUntil None
       (set_isSnoozed false (assign_nextTrigger current r)))
  = set_snoozeUntil None (set_isSnoozed false (assign_nextTrigger current r)).
Proof.
  destruct current as [tv|];
    unfold assign_nextTrigger, set_nextTrigger, invalidate, set_snoozeUntil,
    set_isSnoozed; cbn -[without]; f_equal.
  - rewrite (without_comm "nextTrigger" "snoozeUntil"),
      (without_comm "nextTrigger" "isSnoozed").
    by rewrite without_idem.
  - rewrite !without_cons_other by discriminate.
    rewrite without_cons_same.
    rewrite (without_comm "nextTrigger" "snoozeUntil"),
      (without_comm "nextTrigger" "isSnoozed").
    by rewrite without_idem.
Qed.

Lemma set_nextTrigger_twice v r :
  set_nextTrigger v (set_nextTrigger v r) = set_nextTrigger v r.
Proof.
  unfold set_nextTrigger; cbn -[without]; f_equal. by rewrite without_idem.
Qed.

Lemma set_nextTrigger_after_unsnooze v r :
  set_nextTrigger v
    (set_snoozeUntil None (set_isSnoozed false (set_nextTrigger v r)))
  = set_snoozeUntil None (set_isSnoozed false (set_nextTrigger v r)).
Proof.
  unfold assign_nextTrigger, set_nextTrigger, invalidate, set_snoozeUntil,
    set_isSnoozed; cbn -[without]; f_equal.
  rewrite (without_comm "nextTrigger" "snoozeUntil"),
    (without_comm "nextTrigger" "isSnoozed").
  by rewrite without_idem.
Qed.

(** X2.  Saving twice at the same clock reading is saving once: the
    pre-save normalisation is idempotent. *)
Theorem save_idempotent (now : Z) (r : Reminder) :
  save tza now (save tza now r) = save tza now r.
Proof.
  unfold save.
  destruct (calculateNextTrigger_recurring r) as (current & Hcur).
  assert (Hflags : forall x,
    isSnoozed (assign_nextTrigger current x) = isSnoozed x
    /\ snoozeUntil (assign_nextTrigger current x) = snoozeUntil x
    /\ isRecurring (assign_nextTrigger current x) = isRecurring x
    /\ isActive (assign_nextTrigger current x) = isActive x
    /\ isCompleted (assign_nextTrigger current x) = isCompleted x
    /\ reminderDateTime (assign_nextTrigger current x) = reminderDateTime x
    /\ recurrencePattern (assign_nextTrigger current x)
       = recurrencePattern x)
    by (intros x; by destruct current).
  destruct (Hflags r) as (H1 & H2 & H3 & H4 & H5 & H6 & H7).
  assert (Hstep : preSave tza now r
    = let r1 :=
        if isRecurring r && isActive r && negb (isCompleted r)
        then assign_nextTrigger current r
        else if negb (isRecurring r)
        then set_nextTrigger (reminderDateTime r) r else r in
      if isSnoozed r && truthy_date (snoozeUntil r)
         && now_after now (snoozeUntil r)
      then set_snoozeUntil None (set_isSnoozed false r1) else r1).
  { unfold preSave. cbv zeta.
    destruct (isRecurring r) eqn:Hrec; cbn [andb negb].
    - destruct (isActive r && negb (isCompleted r)); [|done].
      rewrite (Hcur r) by done. by rewrite H1, H2.
    - done. }
  rewrite Hstep. cbv zeta.
  destruct (isRecurring r) eqn:Hrec, (isActive r) eqn:Hact,
    (isCompleted r) eqn:Hcomp,
    (isSnoozed r && truthy_date (snoozeUntil r)
     && now_after now (snoozeUntil r)) eqn:Htest;
    cbn [andb negb]; unfold preSave;
    cbn [isRecurring isActive isCompleted isSnoozed snoozeUntil
         reminderDateTime set_snoozeUntil set_isSnoozed set_nextTrigger];
    rewrite ?H1, ?H2, ?H3, ?H4, ?H5, ?Hrec, ?Hact, ?Hcomp;
    cbn [andb negb];
    rewrite ?(Hcur (set_snoozeUntil None
                      (set_isSnoozed false (assign_nextTrigger current r))))
      by (cbn; congruence);
    rewrite ?(Hcur (assign_nextTrigger current r)) by congruence;
    rewrite ?assign_nextTrigger_after_unsnooze, ?assign_nextTrigger_twice,
      ?set_nextTrigger_after_unsnooze, ?set_nextTrigger_twice;
    cbn [isSnoozed snoozeUntil set_snoozeUntil set_isSnoozed set_nextTrigger
         andb];
    rewrite ?H1, ?H2, ?Htest; reflexivity.
Qed.

Lemma calculateNextTrigger_isActive r :
  isActive (calculateNextTrigger tza r) = isActive r.
Proof. by rewrite (calculateNextTrigger_frame tza r). Qed.

Lemma calculateNextTrigger_occurrences r :
  occurrences (calculateNextTrigger tza r) = occurrences r.
Proof. by rewrite (calculateNextTrigger_frame tza r). Qed.

Lemma dueForNotification_inactive q r :
  isActive r = false -> dueForNotification q r = false.
Proof. intros H. unfold dueForNotification. by rewrite H. Qed.

Lemma dueForNotification_completed q r :
  isCompleted r = true -> dueForNotification q r = false.
Proof.
  intros H. unfold dueForNotification. rewrite H.
  by destruct (isActive r).
Qed.

(** Every clearing of a path leaves a document without pending errors
    without pending errors. *)
Lemma without_nil_eq p l : l = [] -> without p l = [].
Proof. by intros ->. Qed.

(** X3.  A snooze of [minutes] (10 when omitted) taken at [now] leaves
    the reminder, as the call leaves it in memory, snoozed until
    [u = now + minutes * 60000]; when no cast error was pending and the
    validators accept the document, the save resolves, and if it runs
    no later than [u], then no notification query before [u] returns
    the saved reminder, and from [u] on it is returned exactly when it
    is active, incomplete, not yet notified and due. *)
Theorem snooze_hides_until_expiry (minutes : option Z) (accepted : bool)
    (now nowP u : Z) (r : Reminder) :
  u = now + default 10 minutes * 60 * 1000 ->
  Z.abs u <= maxTime ->
  nowP <= u ->
  let r' := document (snooze tza minutes accepted now nowP r) in
  isSnoozed r' = true
  /\ snoozeUntil r' = Some (Some u)
  /\ (forall q, q < u -> dueForNotification q r' = false)
  /\ (forall q, u <= q ->
        dueForNotification q r'
        = isActive r && negb (isCompleted r) && negb (notificationSent r)
          && date_lte (reminderDateTime r) q)
  /\ (accepted = true -> castErrors r = [] ->
      snooze tza minutes accepted now nowP r = Saved r').
Proof.
  intros Hu Habs Hle r'. subst r'. unfold snooze. cbv zeta.
  rewrite <- Hu.
  assert (Hclip : TimeClip u = Some u) by (by apply TimeClip_Some).
  rewrite Hclip.
  set (x := set_snoozeUntil (Some (Some u)) (set_isSnoozed true r)).
  destruct (preSave_snooze nowP x) as [_ Hkeep]. cbv zeta in Hkeep.
  destruct Hkeep as [Hs Hsu].
  { cbn. apply Z.ltb_ge. lia. }
  assert (Hs' : isSnoozed (document (trySave tza accepted nowP x)) = true)
    by (by rewrite (trySave_field tza isSnoozed)).
  assert (Hsu' : snoozeUntil (document (trySave tza accepted nowP x))
                 = Some (Some u))
    by (by rewrite (trySave_field tza snoozeUntil)).
  split; [done|]. split; [done|].
  assert (Hdue : forall q,
    dueForNotification q (document (trySave tza accepted nowP x))
    = isActive r && negb (isCompleted r) && negb (notificationSent r)
      && date_lte (reminderDateTime r) q && (u <=? q)).
  { intros q. unfold dueForNotification.
    rewrite (trySave_field tza isActive), (trySave_field tza isCompleted),
      (trySave_field tza notificationSent),
      (trySave_field tza reminderDateTime), Hs', Hsu';
      [ | apply preSave_reminderDateTime | apply preSave_notificationSent
        | apply preSave_isCompleted | apply preSave_isActive ].
    subst x. cbn.
    by destruct (isActive r), (isCompleted r), (notificationSent r). }
  split; [|split].
  - intros q Hq. rewrite Hdue.
    destruct (Z.leb_spec u q); [lia|]. by rewrite andb_false_r.
  - intros q Hq. rewrite Hdue.
    destruct (Z.leb_spec u q); [|lia]. by rewrite andb_true_r.
  - intros -> Herr. rewrite trySave_resolves; [done|].
    subst x. cbn. by rewrite Herr.
Qed.

(** X4.  Dismissing a one-off reminder deactivates it for good: its dates
    and its history stay as they were, and no notification query returns
    the document as the call leaves it; the save resolves when no cast
    error was pending and the validators accept the document. *)
Theorem dismiss_one_off (accepted : bool) (nowS nowP : Z) (r : Reminder) :
  isRecurring r = false ->
  let r' := document (dismiss tza accepted nowS nowP r) in
  isActive r' = false
  /\ reminderDateTime r' = reminderDateTime r
  /\ occurrences r' = occurrences r
  /\ isCompleted r' = isCompleted r
  /\ (forall q, dueForNotification q r' = false)
  /\ (accepted = true -> castErrors r = [] ->
      dismiss tza accepted nowS nowP r = Saved r').
Proof.
  intros Hrec r'. subst r'. unfold dismiss. rewrite Hrec.
  assert (Hact : isActive (document (trySave tza accepted nowP
                                       (set_isActive false r))) = false)
    by (by rewrite (trySave_field tza isActive);
        [|apply preSave_isActive]).
  rewrite (trySave_field tza reminderDateTime),
    (trySave_field tza occurrences), (trySave_field tza isCompleted);
    [ | apply preSave_isCompleted | apply preSave_occurrences
      | apply preSave_reminderDateTime ].
  repeat split; try done.
  - intros q. by apply dueForNotification_inactive.
  - intros -> Herr. rewrite trySave_resolves; [done|].
    cbn. by rewrite Herr.
Qed.

(** X5.  Completing a one-off reminder records the completion and nothing
    else: no occurrence is added, the date stays, and the reminder is
    neither overdue nor returned by any notification query from then
    on; when no cast error was pending and the validators accept the
    document, the save resolves and leaves [nextTrigger] at the date. *)
Theorem markCompleted_one_off (accepted : bool) (nowC nowS nowP : Z)
    (r : Reminder) :
  isRecurring r = false ->
  let r' := document (markCompleted tza accepted nowC nowS nowP r) in
  isCompleted r' = true
  /\ completedAt r' = Some (Some nowC)
  /\ occurrences r' = occurrences r
  /\ reminderDateTime r' = reminderDateTime r
  /\ isActive r' = isActive r
  /\ (forall q, dueForNotification q r' = false /\ isOverdue q r' = false)
  /\ (accepted = true -> castErrors r = [] ->
      markCompleted tza accepted nowC nowS nowP r = Saved r'
      /\ nextTrigger r' = reminderDateTime r).
Proof.
  intros Hrec r'. subst r'. unfold markCompleted.
  cbn [isRecurring set_completedAt set_isCompleted]. rewrite Hrec.
  set (x := set_completedAt (Some (Some nowC)) (set_isCompleted true r)).
  assert (Hc : isCompleted (document (trySave tza accepted nowP x)) = true)
    by (by rewrite (trySave_field tza isCompleted);
        [|apply preSave_isCompleted]).
  rewrite (trySave_field tza completedAt), (trySave_field tza occurrences),
    (trySave_field tza reminderDateTime), (trySave_field tza isActive);
    [ | apply preSave_isActive | apply preSave_reminderDateTime
      | apply preSave_occurrences | apply preSave_completedAt ].
  repeat split; try done.
  - by apply dueForNotification_completed.
  - unfold isOverdue. by rewrite Hc.
  - by rewrite H; rewrite trySave_resolves;
      [|subst x; cbn; rewrite H0].
  - rewrite H, trySave_resolves by (subst x; cbn; by rewrite H0).
    cbn [document].
    destruct (save_nonrecurring_nextTrigger_aux nowP x) as [Hnt Hdt];
      [done|].
    by rewrite Hnt, Hdt.
Qed.

Lemma preSave_nextTrigger now r :
  nextTrigger (preSave tza now r)
  = if isRecurring r && isActive r && negb (isCompleted r)
    then nextTrigger (calculateNextTrigger tza r)
    else if negb (isRecurring r) then reminderDateTime r
    else nextTrigger r.
Proof.
  unfold preSave.
  set (r1 := if isRecurring r && isActive r && negb (isCompleted r)
             then calculateNextTrigger tza r
             else if negb (isRecurring r)
             then set_nextTrigger (reminderDateTime r) r else r).
  assert (Hn : nextTrigger r1
               = if isRecurring r && isActive r && negb (isCompleted r)
                 then nextTrigger (calculateNextTrigger tza r)
                 else if negb (isRecurring r) then reminderDateTime r
                 else nextTrigger r).
  { subst r1. destruct (isRecurring r && isActive r && negb (isCompleted r));
      [done|]. by destruct (negb (isRecurring r)). }
  rewrite <- Hn.
  by destruct (isSnoozed r1 && truthy_date (snoozeUntil r1)
               && now_after now (snoozeUntil r1)).
Qed.

(** What [scheduleNextOccurrence] leaves depends on the document through
    a few paths only. *)
Lemma scheduleNextOccurrence_reads now x1 x2 :
  isRecurring x1 = isRecurring x2 ->
  recurrencePattern x1 = recurrencePattern x2 ->
  reminderDateTime x1 = reminderDateTime x2 ->
  nextTrigger x1 = nextTrigger x2 ->
  isActive x1 = isActive x2 ->
  length (occurrences x1) = length (occurrences x2) ->
  let s1 := scheduleNextOccurrence tza now x1 in
  let s2 := scheduleNextOccurrence tza now x2 in
  isActive s1 = isActive s2
  /\ reminderDateTime s1 = reminderDateTime s2
  /\ nextTrigger s1 = nextTrigger s2
  /\ (isRecurring x1 = true -> isActive s1 = true ->
      isCompleted s1 = false /\ isCompleted s2 = false).
Proof.
  intros H1 H2 H3 H4 H5 H6. cbv zeta. unfold scheduleNextOccurrence.
  rewrite H1, H2, H6.
  destruct (negb (isRecurring x2)) eqn:Hrec.
  { split; [done|]. split; [done|]. split; [done|].
    intros Hr. rewrite Hr in Hrec. discriminate Hrec. }
  destruct (truthy_date _ && now_after now _); [by cbn|].
  destruct (truthy_number _ && _); [by cbn|].
  cbn [isActive reminderDateTime nextTrigger isCompleted
       set_notificationSent set_completedAt set_isCompleted
       set_reminderDateTime].
  rewrite !calculateNextTrigger_isActive.
  by rewrite (calculateNextTrigger_reads tza x1 x2).
Qed.

(** X6.  On a recurring reminder, skipping an occurrence ([dismiss])
    schedules exactly as completing it ([markCompleted]) does: at the same
    clock readings both leave the same active flag and the same
    [reminderDateTime], whether or not the saves are accepted, and the
    same [nextTrigger] when both saves run their pre-save hook; they
    differ in the record they append to the history, which for
    [dismiss] is the skipped occurrence without completion time. *)
Theorem dismiss_schedules_like_markCompleted (a1 a2 : bool)
    (nowC nowS nowP : Z) (r : Reminder) :
  isRecurring r = true ->
  let rd := document (dismiss tza a1 nowS nowP r) in
  let rc := document (markCompleted tza a2 nowC nowS nowP r) in
  isActive rd = isActive rc
  /\ reminderDateTime rd = reminderDateTime rc
  /\ occurrences rd
     = occurrences r ++ [Occurrence.mk (reminderDateTime r) None true None]
  /\ occurrences rc
     = occurrences r ++ [completedOccurrence (reminderDateTime r) nowC]
  /\ (forall sd sc,
        dismiss tza a1 nowS nowP r = Saved sd ->
        markCompleted tza a2 nowC nowS nowP r = Saved sc ->
        nextTrigger sd = nextTrigger sc).
Proof.
  intros Hrec rd rc. subst rd rc.
  rewrite markCompleted_recurring by done.
  unfold dismiss. rewrite Hrec.
  set (xd := set_occurrences _ r).
  destruct (scheduleNextOccurrence_reads nowS xd (completedWith nowC r))
    as (Ha & Hdt & Hnt & Hcomp); try done.
  { cbn. rewrite !length_app. done. }
  cbv zeta in Ha, Hdt, Hnt, Hcomp.
  destruct (scheduleNextOccurrence_keeps tza nowS xd) as (Hr1 & Hp1 & Ho1).
  destruct (scheduleNextOccurrence_keeps tza nowS (completedWith nowC r))
    as (Hr2 & Hp2 & Ho2).
  set (sd := scheduleNextOccurrence tza nowS xd) in *.
  set (sc := scheduleNextOccurrence tza nowS (completedWith nowC r)) in *.
  rewrite !(trySave_field tza isActive), !(trySave_field tza reminderDateTime),
    !(trySave_field tza occurrences);
    try apply preSave_occurrences; try apply preSave_reminderDateTime;
    try apply preSave_isActive.
  rewrite Ho1, Ho2.
  split; [done|]. split; [done|]. split; [done|]. split; [done|].
  intros d c Hd Hc.
  assert (Hd' : d = preSave tza nowP sd).
  { unfold trySave, save in Hd.
    destruct (castErrors sd); [destruct a1|]; congruence. }
  assert (Hc' : c = preSave tza nowP sc).
  { unfold trySave, save in Hc.
    destruct (castErrors sc); [destruct a2|]; congruence. }
  subst d c. rewrite !preSave_nextTrigger, Hr1, Hr2, Ha.
  cbn [isRecurring xd set_occurrences completedWith set_completedAt
       set_isCompleted]. rewrite Hrec. cbn [andb negb].
  destruct (isActive sc) eqn:Hact; cbn [andb]; [|done].
  destruct Hcomp as [Hc1 Hc2]; [done | by rewrite Ha |].
  rewrite Hc1, Hc2. cbn [negb].
  apply calculateNextTrigger_reads; try done.
  - by rewrite Hr1, Hr2.
  - by rewrite Hp1, Hp2.
Qed.

(** *** Tags *)

Lemma includes_tag_In tag ts : includes_tag tag ts = true <-> In tag ts.
Proof.
  unfold includes_tag. rewrite existsb_exists. split.
  - intros (t & Hin & Heq). apply String.eqb_eq in Heq. by subst.
  - intros Hin. exists tag. split; [done | apply String.eqb_refl].
Qed.

Lemma addTag_tags tag accepted nowP r :
  tags (returnedDocument (addTag tza trim tag accepted nowP r))
  = if includes_tag tag (tags r) then tags r else tags r ++ [trim tag].
Proof.
  unfold addTag. destruct (includes_tag tag (tags r)); cbn [negb]; [done|].
  cbn [returnedDocument].
  by rewrite (trySave_field tza tags); [|apply preSave_tags].
Qed.

(** X7.  [addTag] of a tag that the [trim] setter leaves as it is (no
    space at either end) keeps the tag list free of duplicates:
    afterwards the tag is present, a duplicate-free list stays
    duplicate-free, adding a tag that is present returns the document
    untouched (no save), and so adding twice is adding once. *)
Theorem addTag_once (tag : string) (a1 a2 : bool) (p1 p2 : Z)
    (r : Reminder) :
  trim tag = tag ->
  let r1 := returnedDocument (addTag tza trim tag a1 p1 r) in
  In tag (tags r1)
  /\ (NoDup (tags r) -> NoDup (tags r1))
  /\ (In tag (tags r) -> addTag tza trim tag a1 p1 r = This r)
  /\ addTag tza trim tag a2 p2 r1 = This r1.
Proof.
  intros Htrim r1. subst r1.
  assert (Hin : In tag (tags (returnedDocument
                                (addTag tza trim tag a1 p1 r)))).
  { rewrite addTag_tags, Htrim.
    destruct (includes_tag tag (tags r)) eqn:Hinc.
    - by apply includes_tag_In.
    - apply in_or_app. right. by left. }
  split; [done|]. split; [|split].
  - intros Hnd. rewrite addTag_tags, Htrim.
    destruct (includes_tag tag (tags r)) eqn:Hinc; [done|].
    apply NoDup_app. split; [done|]. split; [|apply NoDup_singleton].
    intros t Ht%list_elem_of_In ->%list_elem_of_singleton.
    apply includes_tag_In in Ht. congruence.
  - intros Hpresent%includes_tag_In. unfold addTag. by rewrite Hpresent.
  - apply includes_tag_In in Hin. unfold addTag at 1. by rewrite Hin.
Qed.

(** X8.  [removeTag] removes every occurrence of the tag and nothing
    else: afterwards the tag is absent, every other tag is present exactly
    when it was, and removing a tag that the [trim] setter leaves as it
    is right after adding it to a list that did not have it gives the
    list back. *)
Theorem removeTag_exact (tag : string) (a1 a2 : bool) (p1 p2 : Z)
    (r : Reminder) :
  let r1 := document (removeTag tza tag a1 p1 r) in
  ~ In tag (tags r1)
  /\ (forall t, t <> tag -> In t (tags r1) <-> In t (tags r))
  /\ (~ In tag (tags r) -> trim tag = tag ->
      tags (document
              (removeTag tza tag a2 p2
                 (returnedDocument (addTag tza trim tag a1 p1 r))))
      = tags r).
Proof.
  intros r1. subst r1. unfold removeTag.
  rewrite !(trySave_field tza tags) by apply preSave_tags.
  cbn [tags set_tags].
  split; [|split].
  - rewrite filter_In, negb_true_iff, String.eqb_neq. tauto.
  - intros t Hne. rewrite filter_In, negb_true_iff, String.eqb_neq. tauto.
  - intros Habsent Htrim. rewrite addTag_tags, Htrim.
    destruct (includes_tag tag (tags r)) eqn:Hinc;
      [by apply includes_tag_In in Hinc|].
    rewrite List.filter_app. cbn [List.filter].
    rewrite String.eqb_refl. cbn [negb]. rewrite app_nil_r.
    apply forallb_filter_id. apply forallb_forall.
    intros t Ht. apply negb_true_iff, String.eqb_neq. congruence.
Qed.

(** *** Virtuals *)

(** X9.  For a reminder whose date, when one is stored, is within the
    range of time values, the two virtuals agree: it is overdue exactly
    when [timeUntilReminder] is a negative number. *)
Theorem isOverdue_iff_negative_timeUntilReminder (now : Z) (r : Reminder) :
  (forall t, reminderDateTime r = Stored t -> Z.abs t <= maxTime) ->
  isOverdue now r = true
  <-> exists d : Z, timeUntilReminder now r = Some (Some d) /\ d < 0.
Proof.
  intros Hdate. unfold isOverdue, timeUntilReminder.
  destruct (isCompleted r || negb (isActive r)).
  - split; [done | by intros (d & [=] & _)].
  - destruct (reminderDateTime r) as [| |t]; cbn [now_after_path newDate].
    + split; [done | by intros (d & [=] & _)].
    + rewrite Z.ltb_lt. split.
      * intros Hlt. exists (0 - now). split; [done | lia].
      * intros (d & [= <-] & Hneg). lia.
    + assert (Hclip : TimeClip t = Some t)
        by (apply TimeClip_Some; split; [done | by apply Hdate]).
      rewrite Hclip, Z.ltb_lt. split.
      * intros Hlt. exists (t - now). split; [done | lia].
      * intros (d & [= <-] & Hneg). lia.
Qed.

End ReminderMoreFacts.

(** ** Reminders: the queries *)
Section ReminderQueryFacts.
Import ESDate CalendarSpec ReminderModel ReminderSpec ReminderMore.

#[local] Instance dateValue_le_total : Total dateValue_le.
Proof. intros [| |x] [| |y]; cbn; lia || tauto. Qed.

#[local] Instance dateValue_le_trans : Transitive dateValue_le.
Proof. intros [| |x] [| |y] [| |z]; cbn; lia || tauto. Qed.

#[local] Instance byReminderDateTime_total : Total byReminderDateTime.
Proof. intros r1 r2. apply dateValue_le_total. Qed.

#[local] Instance byReminderDateTime_trans : Transitive byReminderDateTime.
Proof. intros r1 r2 r3. apply dateValue_le_trans. Qed.

(** Sorting selects nothing and loses nothing, and its result ascends. *)
Lemma sortByReminderDateTime_In rs r :
  In r (sortByReminderDateTime rs) <-> In r rs.
Proof.
  unfold sortByReminderDateTime. rewrite <- !list_elem_of_In.
  by rewrite merge_sort_Permutation.
Qed.

Lemma sortByReminderDateTime_sorted rs :
  StronglySorted byReminderDateTime (sortByReminderDateTime rs).
Proof. apply StronglySorted_merge_sort; apply _. Qed.

Lemma date_lt_iff d now :
  date_lt d now = true <-> exists t : Z, d = Stored t /\ t < now.
Proof.
  destruct d as [| |t]; cbn.
  - split; [done | by intros (? & [=] & _)].
  - split; [done | by intros (? & [=] & _)].
  - rewrite Z.ltb_lt. split; [eauto | by intros (? & [= <-] & ?)].
Qed.

Lemma date_gte_iff d now :
  date_gte d now = true <-> exists t : Z, d = Stored t /\ now <= t.
Proof.
  destruct d as [| |t]; cbn.
  - split; [done | by intros (? & [=] & _)].
  - split; [done | by intros (? & [=] & _)].
  - rewrite Z.leb_le. split; [eauto | by intros (? & [= <-] & ?)].
Qed.

(** X10.  [findOverdue] returns, in ascending order of
    [reminderDateTime], stored reminders of the user only, and among
    those that hold a date (the path is required) exactly the ones whose
    virtual [isOverdue] is true at the same clock reading. *)
Theorem findOverdue_exact (userId : string) (now : Z)
    (collection : list Reminder) :
  (forall r,
      (exists t, reminderDateTime r = Stored t) ->
      In r (findOverdue userId now collection)
      <-> In r collection /\ user r = userId /\ isOverdue now r = true)
  /\ (forall r, In r (findOverdue userId now collection) ->
        In r collection /\ user r = userId)
  /\ StronglySorted byReminderDateTime (findOverdue userId now collection).
Proof.
  split; [|split; [|apply sortByReminderDateTime_sorted]].
  - intros r [t Ht]. unfold findOverdue.
    rewrite sortByReminderDateTime_In, filter_In, !andb_true_iff,
      String.eqb_eq, !Bool.eqb_true_iff.
    unfold isOverdue. rewrite Ht.
    destruct (isActive r), (isCompleted r); cbn [orb negb]; cbn;
      intuition congruence.
  - intros r. unfold findOverdue.
    rewrite sortByReminderDateTime_In, filter_In, !andb_true_iff,
      String.eqb_eq. tauto.
Qed.

(** X11.  [findOverdue] and [findUpcoming] never return the same
    reminder, and for a non-negative number of hours whose horizon is a
    valid date they return between them exactly the stored reminders of
    the user that are active, incomplete and dated up to the horizon
    [now + hours * 3600000]. *)
Theorem overdue_upcoming_partition (userId : string) (hours : option Z)
    (now : Z) (collection : list Reminder) (r : Reminder) :
  let horizon := now + default 24 hours * 60 * 60 * 1000 in
  ~ (In r (findOverdue userId now collection)
     /\ In r (findUpcoming userId hours now collection))
  /\ (0 <= default 24 hours -> Z.abs horizon <= maxTime ->
      (In r (findOverdue userId now collection)
       \/ In r (findUpcoming userId hours now collection))
      <-> In r collection /\ user r = userId
          /\ isActive r = true /\ isCompleted r = false
          /\ exists t : Z, reminderDateTime r = Stored t /\ t <= horizon).
Proof.
  intros horizon. unfold findOverdue, findUpcoming. cbv zeta. fold horizon.
  rewrite !sortByReminderDateTime_In, !filter_In, !andb_true_iff,
    !String.eqb_eq, !Bool.eqb_true_iff, date_lt_iff, date_gte_iff.
  split.
  - intros [(_ & _ & t & Ht & Hlt) (_ & (_ & t' & Ht' & Hge) & _)].
    rewrite Ht in Ht'. injection Ht' as <-. lia.
  - intros Hh Hclip.
    assert (Hc : TimeClip horizon = Some horizon) by (by apply TimeClip_Some).
    rewrite Hc, date_lte_iff. split.
    + intros [(Hin & ((Hu & Ha) & Hcomp) & t & Ht & Hlt)
             |(Hin & (((Hu & Ha) & Hcomp) & _) & t & Ht & Hle)].
      * repeat split; try done. exists t. split; [done|]. subst horizon. lia.
      * repeat split; try done. by exists t.
    + intros (Hin & Hu & Ha & Hcomp & t & Ht & Hle).
      destruct (Z.lt_ge_cases t now).
      * left. repeat split; try done. by exists t.
      * right. repeat split; try done; by exists t.
Qed.

(** X12.  [findByUser] returns, in ascending order of [reminderDateTime],
    exactly the stored reminders of the user that pass its options: only
    active ones unless [activeOnly] is [false]; only completed ones when
    [completedOnly] is [true]; only incomplete ones when [incompleteOnly]
    is [true] and [completedOnly] is not ([completedOnly] wins over
    [incompleteOnly]). *)
Theorem findByUser_exact (userId : string) (options : FindOptions)
    (collection : list Reminder) :
  (forall r,
      In r (findByUser userId options collection)
      <-> In r collection /\ user r = userId
          /\ (activeOnly options <> Some false -> isActive r = true)
          /\ (completedOnly options = Some true -> isCompleted r = true)
          /\ (completedOnly options <> Some true ->
              incompleteOnly options = Some true -> isCompleted r = false))
  /\ StronglySorted byReminderDateTime
       (findByUser userId options collection).
Proof.
  split; [|apply sortByReminderDateTime_sorted].
  intros r. unfold findByUser.
  rewrite sortByReminderDateTime_In, filter_In, !andb_true_iff, String.eqb_eq.
  destruct options as [[[|]|] [[|]|] [[|]|]]; cbn;
    rewrite ?Bool.eqb_true_iff; intuition congruence.
Qed.

End ReminderQueryFacts.

(** ** Reminders: a recurrence moves forward *)
Section RecurrenceForwardFacts.
Import ESDate CalendarSpec CalendarMore ReminderModel ReminderSpec.

Variable tza : Z -> bool -> Z.

Lemma DaysBeforeMonth_year y1 y2 m :
  0 <= m < 12 -> DaysBeforeMonth y1 m <= DaysBeforeMonth y2 m + 1.
Proof.
  intros Hm. unfold DaysBeforeMonth.
  destruct (DaysInYear y1 =? 365), (DaysInYear y2 =? 365);
    split_month m; cbn; lia.
Qed.

Lemma monthStart_succ k : monthStart k + 28 <= monthStart (k + 1).
Proof.
  unfold monthStart.
  assert (Hm : 0 <= k `mod` 12 < 12) by (by apply Z.mod_pos_bound).
  destruct (Z.eq_dec (k `mod` 12) 11) as [H11|Hlt].
  - replace ((k + 1) `div` 12) with (k `div` 12 + 1)
      by (Z.div_mod_to_equations; lia).
    replace ((k + 1) `mod` 12) with 0 by (Z.div_mod_to_equations; lia).
    rewrite H11, DayFromYear_succ. unfold DaysBeforeMonth.
    destruct (DaysInYear_cases (k `div` 12)) as [-> | ->]; cbn; lia.
  - replace ((k + 1) `div` 12) with (k `div` 12)
      by (Z.div_mod_to_equations; lia).
    replace ((k + 1) `mod` 12) with (k `mod` 12 + 1)
      by (Z.div_mod_to_equations; lia).
    generalize dependent (k `mod` 12). intros m Hm Hlt.
    generalize (k `div` 12). intros y. unfold DaysBeforeMonth.
    assert (Hcases : m = 0 \/ m = 1 \/ m = 2 \/ m = 3 \/ m = 4 \/ m = 5
                     \/ m = 6 \/ m = 7 \/ m = 8 \/ m = 9 \/ m = 10) by lia.
    generalize (DayFromYear y). intros d.
    destruct (DaysInYear_cases y) as [-> | ->];
      destruct Hcases as [->|[->|[->|[->|[->|[->|[->|[->|[->|[->| ->]]]]]]]]]];
      repeat match goal with
             | |- context [?a + 1] =>
                 match a with
                 | 0 => idtac
                 | Z.pos _ => idtac
                 end;
                 let v := eval vm_compute in (a + 1) in
                 change (a + 1) with v
             end;
      cbn; lia.
Qed.

Lemma monthStart_lt k1 k2 : k1 < k2 -> monthStart k1 < monthStart k2.
Proof.
  intros Hlt.
  assert (Hn : forall n : nat, monthStart k1 < monthStart (k1 + Z.of_nat (S n))).
  { induction n as [|n IH].
    - pose proof (monthStart_succ k1). change (Z.of_nat 1) with 1. lia.
    - pose proof (monthStart_succ (k1 + Z.of_nat (S n))) as Hs.
      replace (k1 + Z.of_nat (S (S n))) with (k1 + Z.of_nat (S n) + 1) by lia.
      lia. }
  specialize (Hn (Z.to_nat (k2 - k1 - 1))).
  replace (k1 + Z.of_nat (S (Z.to_nat (k2 - k1 - 1)))) with k2 in Hn by lia.
  done.
Qed.

Lemma monthStart_fields t :
  monthStart (12 * YearFromTime t + MonthFromTime t)
  = DayFromYear (YearFromTime t)
    + DaysBeforeMonth (YearFromTime t) (MonthFromTime t).
Proof.
  unfold monthStart. pose proof (MonthFromTime_range t).
  replace ((12 * YearFromTime t + MonthFromTime t) `div` 12)
    with (YearFromTime t) by (Z.div_mod_to_equations; lia).
  replace ((12 * YearFromTime t + MonthFromTime t) `mod` 12)
    with (MonthFromTime t) by (Z.div_mod_to_equations; lia).
  done.
Qed.

(** A date was assigned only if there was one. *)
Lemma nextTriggerAssigned_Some current u r :
  nextTriggerAssigned (Some u) r (assign_nextTrigger current r) ->
  current = Some u.
Proof.
  unfold nextTriggerAssigned. destruct current as [tv|]; intros Heq.
  - apply (f_equal nextTrigger) in Heq. cbn in Heq. congruence.
  - apply (f_equal (fun x => length (castErrors x))) in Heq.
    cbn in Heq. lia.
Qed.

Lemma laterByDays_later n t u :
  (forall s s' : Z, tza s false - tza s' true < msPerDay) ->
  1 <= n -> laterByDays tza n t = Some u -> t < u.
Proof.
  intros Hzone Hn. unfold laterByDays, atLocalTime.
  intros [<- _]%TimeClip_Some. unfold UTC, LocalTime.
  pose proof (Hzone (t + tza t true + n * msPerDay) t).
  unfold msPerDay in *. nia.
Qed.

(** X13.  On a host whose zone offsets differ by less than a day, when
    adding the interval moves the day, the month or the year of the
    pattern type by at least 1 (as every whole interval from the
    schema's minimum 1 does), the date that [calculateNextTrigger]
    assigns to [nextTrigger] for a recurring reminder whose date reads
    as a date
    is strictly later than [reminderDateTime], whatever the pattern
    type. *)
Theorem calculateNextTrigger_later (r : Reminder) (t u n : Z) :
  isRecurring r = true ->
  readAs (reminderDateTime r) t ->
  (forall s s' : Z, tza s false - tza s' true < msPerDay) ->
  1 <= n ->
  (let x := RecurrencePattern.interval (recurrencePattern r) in
   let here := localFields tza t in
   let ty := RecurrencePattern.type (recurrencePattern r) in
   (ty = "daily" -> movesBy (date here) x n)
   /\ (ty = "weekly" -> movesBy (date here) (7 * x)%float n)
   /\ (ty = "monthly" -> movesBy (month here) x n)
   /\ (ty = "yearly" -> movesBy (year here) x n)) ->
  nextTriggerAssigned (Some u) r (calculateNextTrigger tza r) ->
  t < u.
Proof.
  intros Hrec Hvalid Hzone Hn (Hxd & Hxw & Hxm & Hxy).
  destruct (String.eqb_spec
              (RecurrencePattern.type (recurrencePattern r)) "daily")
    as [Hd|Hd].
  { rewrite (calculateNextTrigger_daily tza r t n) by auto.
    intros Hu%nextTriggerAssigned_Some. by apply (laterByDays_later n). }
  destruct (String.eqb_spec
              (RecurrencePattern.type (recurrencePattern r)) "weekly")
    as [Hw|Hw].
  { rewrite (calculateNextTrigger_weekly tza r t n) by auto.
    intros Hu%nextTriggerAssigned_Some. by apply (laterByDays_later n). }
  destruct (String.eqb_spec
              (RecurrencePattern.type (recurrencePattern r)) "monthly")
    as [Hm|Hm].
  { specialize (Hxm Hm). unfold movesBy in Hxm. cbn in Hxm.
    unfold calculateNextTrigger. rewrite Hrec, Hm.
    cbn [negb String.eqb Ascii.eqb Bool.eqb]. cbv zeta.
    rewrite (proj1 (newDate_readAs _ _) Hvalid).
    cbn [setMonth getMonth toDouble]. rewrite Hxm. cbv zeta.
    intros Hu%nextTriggerAssigned_Some. revert Hu.
    intros [<- _]%TimeClip_Some.
    set (lt := LocalTime tza t).
    pose proof (Day_fields lt) as HD. pose proof (time_decomp lt) as HT.
    pose proof (monthStart_fields lt) as HS.
    pose proof (monthStart_lt (12 * YearFromTime lt + MonthFromTime lt)
                  (12 * YearFromTime lt + MonthFromTime lt + n)
                  ltac:(lia)) as Hlt.
    assert (Hmk : MakeDay (YearFromTime lt) (MonthFromTime lt + n)
                    (DateFromTime lt)
                  = monthStart (12 * YearFromTime lt + MonthFromTime lt + n)
                    + DateFromTime lt - 1).
    { unfold MakeDay, monthStart. cbv zeta.
      set (Y := YearFromTime lt). set (M := MonthFromTime lt).
      replace ((12 * Y + M + n) `div` 12) with (Y + (M + n) `div` 12)
        by (Z.div_mod_to_equations; lia).
      replace ((12 * Y + M + n) `mod` 12) with ((M + n) `mod` 12)
        by (Z.div_mod_to_equations; lia).
      done. }
    rewrite Hmk. unfold UTC, MakeDate.
    match goal with
    | |- _ < ?X - tza ?X false => pose proof (Hzone X t) as Hz
    end.
    unfold MakeDate, msPerDay in *.
    unfold LocalTime in lt. subst lt. lia. }
  destruct (String.eqb_spec
              (RecurrencePattern.type (recurrencePattern r)) "yearly")
    as [Hy|Hy].
  { specialize (Hxy Hy). unfold movesBy in Hxy. cbn in Hxy.
    unfold calculateNextTrigger. rewrite Hrec, Hy.
    cbn [negb String.eqb Ascii.eqb Bool.eqb]. cbv zeta.
    rewrite (proj1 (newDate_readAs _ _) Hvalid).
    unfold setFullYear, getFullYear, toDouble. rewrite Hxy. cbv zeta.
    intros Hu%nextTriggerAssigned_Some. revert Hu.
    intros [<- _]%TimeClip_Some.
    set (lt := LocalTime tza t).
    pose proof (Day_fields lt) as HD. pose proof (time_decomp lt) as HT.
    unfold MakeDay. cbv zeta.
    destruct (MonthFromTime_div_mod lt) as [-> ->]. rewrite Z.add_0_r.
    pose proof (DayFromYear_le (YearFromTime lt + 1) (YearFromTime lt + n)
                  ltac:(lia)) as Hle.
    rewrite DayFromYear_succ in Hle.
    pose proof (DaysBeforeMonth_year (YearFromTime lt) (YearFromTime lt + n)
                  (MonthFromTime lt) (MonthFromTime_range lt)) as Hb.
    unfold UTC, MakeDate.
    match goal with
    | |- _ < ?X - tza ?X false => pose proof (Hzone X t) as Hz
    end.
    destruct (DaysInYear_cases (YearFromTime lt)) as [Hdy|Hdy];
      rewrite Hdy in Hle;
      unfold MakeDate, msPerDay in *; unfold LocalTime in lt; subst lt;
      lia. }
  rewrite (calculateNextTrigger_other tza r t) by auto.
  intros Hu%nextTriggerAssigned_Some. by apply (laterByDays_later 1).
Qed.

End RecurrenceForwardFacts.

(** ** Notes: the queries *)
Section NoteMoreFacts.
Import ESDate NoteModel NoteMore.

Variable updatedAt : Note -> Date.

#[local] Instance pinnedThenRecent_total : Total (pinnedThenRecent updatedAt).
Proof.
  intros n1 n2. unfold pinnedThenRecent.
  destruct (ReminderMore.date_le_dec (updatedAt n1) (updatedAt n2)) as [H|H];
    destruct (isPinned n1), (isPinned n2); try tauto;
    destruct (updatedAt n1) as [x|], (updatedAt n2) as [y|]; cbn in *;
    (right; right; split; [done | lia || tauto])
    || (left; right; split; [done | lia || tauto]).
Qed.

#[local] Instance pinnedThenRecent_trans :
  Transitive (pinnedThenRecent updatedAt).
Proof.
  intros n1 n2 n3. unfold pinnedThenRecent.
  destruct (isPinned n1), (isPinned n2), (isPinned n3);
    destruct (updatedAt n1) as [x|], (updatedAt n2) as [y|],
      (updatedAt n3) as [z|]; cbn;
    intros [[??]|[??]] [[??]|[??]]; try done; try (left; done);
    right; split; try done; lia || tauto.
Qed.

Lemma find_sorted_In q collection n :
  In n (find_sorted updatedAt q collection)
  <-> In n collection /\ matches (preFind q) n = true.
Proof.
  unfold find_sorted. rewrite <- list_elem_of_In, merge_sort_Permutation,
    list_elem_of_In. apply filter_In.
Qed.

(** X14.  [findByUser] never returns a soft-deleted note.  The option
    [includeDeleted] changes nothing: when it is [true] the filter has no
    [isDeleted] key, and the pre-find hook then excludes deleted notes
    itself.  The result is exactly the stored notes of the user that are
    not deleted and, unless [includeArchived] is [true], not archived. *)
Theorem findByUser_never_returns_deleted (userId : string)
    (archived deleted deleted' : option bool) (collection : list Note) :
  findByUser updatedAt userId (mkFindOptions archived deleted) collection
  = findByUser updatedAt userId (mkFindOptions archived deleted') collection
  /\ forall n,
       In n (findByUser updatedAt userId (mkFindOptions archived deleted)
               collection)
       <-> In n collection /\ user n = userId /\ isDeleted n = false
           /\ (archived <> Some true -> isArchived n = false).
Proof.
  assert (Hmatch : forall d n,
    matches
      (preFind
         {| q_user := userId; q_category := None; q_labels := None;
            q_isArchived :=
              if negb (is_true archived) then Some false else None;
            q_isDeleted :=
              if negb (is_true d) then Some (DeletedIs false) else None |}) n
    = String.eqb (user n) userId
      && (if negb (is_true archived) then Bool.eqb (isArchived n) false
          else true)
      && negb (isDeleted n)).
  { intros d n. unfold matches, preFind.
    destruct (is_true d), (is_true archived); cbn;
      destruct (isDeleted n), (isArchived n), (String.eqb (user n) userId);
      reflexivity. }
  split.
  - unfold findByUser, find_sorted. cbn [includeArchived includeDeleted].
    f_equal. apply filter_ext. intros n. by rewrite !Hmatch.
  - intros n. unfold findByUser. cbn [includeArchived includeDeleted].
    rewrite find_sorted_In, Hmatch, !andb_true_iff, String.eqb_eq,
      negb_true_iff.
    destruct archived as [[|]|]; cbn; rewrite ?Bool.eqb_true_iff;
      intuition congruence.
Qed.

(** X15.  Every result of the note queries comes pinned notes first and,
    among notes with the same pin, most recently updated first; and the
    queries by category and by label return only notes that are neither
    deleted nor archived. *)
Theorem note_queries_sorted (q : NoteQuery) (userId key : string)
    (collection : list Note) :
  StronglySorted (pinnedThenRecent updatedAt)
    (find_sorted updatedAt q collection)
  /\ (forall n,
        In n (findByCategory updatedAt userId key collection)
        <-> In n collection /\ user n = userId /\ category n = key
            /\ isDeleted n = false /\ isArchived n = false)
  /\ (forall n,
        In n (findByLabel updatedAt userId key collection)
        <-> In n collection /\ user n = userId /\ In key (labels n)
            /\ isDeleted n = false /\ isArchived n = false).
Proof.
  split; [apply StronglySorted_merge_sort; apply _|].
  split; intros n.
  - unfold findByCategory. rewrite find_sorted_In. unfold matches, preFind.
    cbn. rewrite !andb_true_iff, !String.eqb_eq, !Bool.eqb_true_iff.
    tauto.
  - unfold findByLabel. rewrite find_sorted_In. unfold matches, preFind.
    cbn. rewrite !andb_true_iff, !String.eqb_eq, !Bool.eqb_true_iff,
      existsb_exists.
    split.
    + intros (Hin & (((Hu & _) & (l & Hl & Heq)) & Ha) & Hd).
      apply String.eqb_eq in Heq. subst l. tauto.
    + intros (Hin & Hu & Hl & Hd & Ha). repeat split; try done.
      exists key. split; [done | apply String.eqb_refl].
Qed.

End NoteMoreFacts.

(** ** Notes: deletion, archive, labels *)
Section NoteMethodFacts.
Import ESDate NoteModel NoteMore.

Variable toLowerCase : string -> string.
Variable trim : string -> string.

(** X16.  Restoring a soft-deleted note brings back everything but the
    pin: the note is no longer deleted, its [deletedAt] is cleared, its
    content and its archive and favourite flags are as before the
    deletion, and it is unpinned even if it was pinned. *)
Theorem restore_after_softDelete (nowD p1 p2 : Z) (n : Note) :
  let n' := restore toLowerCase p2 (softDelete toLowerCase nowD p1 n) in
  isDeleted n' = false
  /\ deletedAt n' = None
  /\ isPinned n' = false
  /\ isArchived n' = isArchived n
  /\ isFavorite n' = isFavorite n
  /\ sameContent n' n.
Proof. cbn. unfold sameContent. cbn. done. Qed.

(** X17.  Archiving a note and unarchiving it again leaves it unarchived
    with its content, its favourite flag and its deletion state as before,
    but unpinned: the pin is cleared on the way in and not set again on
    the way out. *)
Theorem archive_round_trip_loses_pin (p1 p2 : Z) (n : Note) :
  isArchived n = false ->
  let n' := toggleArchive toLowerCase p2 (toggleArchive toLowerCase p1 n) in
  isArchived n' = false
  /\ isPinned n' = false
  /\ isFavorite n' = isFavorite n
  /\ isDeleted n' = isDeleted n
  /\ sameContent n' n.
Proof.
  intros Ha. unfold toggleArchive, sameContent. cbn. rewrite Ha. cbn. done.
Qed.

Lemma includes_label_In label ls : includes_label label ls = true <-> In label ls.
Proof.
  unfold includes_label. rewrite existsb_exists. split.
  - intros (l & Hin & Heq). apply String.eqb_eq in Heq. by subst.
  - intros Hin. exists label. split; [done | apply String.eqb_refl].
Qed.

(** X18.  Labels that the [trim] setter leaves as they are (no space at
    either end) behave as a set.  After [addLabel] the label is present,
    a duplicate-free list stays duplicate-free and adding a label that is
    present returns the note untouched; after [removeLabel] the label is
    absent and every other label is present exactly when it was; removing
    a label right after adding it to a list without it gives the list
    back. *)
Theorem labels_as_set (label : string) (p1 p2 : Z) (n : Note) :
  trim label = label ->
  let added := addLabel toLowerCase trim label p1 n in
  let removed := removeLabel toLowerCase label p1 n in
  In label (labels added)
  /\ (NoDup (labels n) -> NoDup (labels added))
  /\ (In label (labels n) -> added = n)
  /\ ~ In label (labels removed)
  /\ (forall l, l <> label -> In l (labels removed) <-> In l (labels n))
  /\ (~ In label (labels n) ->
      labels (removeLabel toLowerCase label p2 added) = labels n).
Proof.
  intros Htrim. cbv zeta. unfold addLabel, removeLabel. rewrite Htrim.
  destruct (includes_label label (labels n)) eqn:Hinc; cbn.
  - pose proof (proj1 (includes_label_In _ _) Hinc) as Hin.
    repeat split; try done.
    + rewrite filter_In, negb_true_iff, String.eqb_neq. tauto.
    + rewrite filter_In. tauto.
    + intros Hl. apply filter_In. split; [done|].
      by apply negb_true_iff, String.eqb_neq.
  - assert (Hout : ~ In label (labels n)).
    { intros Hin%includes_label_In. congruence. }
    split; [apply in_or_app; right; by left|].
    split.
    { intros Hnd. apply NoDup_app. split; [done|].
      split; [|apply NoDup_singleton].
      intros l Hl%list_elem_of_In ->%list_elem_of_singleton. done. }
    split; [done|].
    split; [rewrite filter_In, negb_true_iff, String.eqb_neq; tauto|].
    split.
    { intros l Hne. rewrite filter_In, negb_true_iff, String.eqb_neq. tauto. }
    intros _. rewrite List.filter_app. cbn [List.filter].
    rewrite String.eqb_refl. cbn [negb]. rewrite app_nil_r.
    apply forallb_filter_id. apply forallb_forall.
    intros l Hl. apply negb_true_iff, String.eqb_neq. congruence.
Qed.

(** X19.  A sequence of operations that does not contain [togglePin]
    keeps pinned notes out of the archive and out of the bin: if the
    note satisfies the exclusion before, it satisfies it after. *)
Theorem run_ops_pinExclusion (ops : list NoteOp) (n : Note) :
  (forall op, In op ops -> forall now, op <> TogglePin now) ->
  pinExclusion n ->
  pinExclusion (run_ops toLowerCase trim ops n).
Proof.
  unfold run_ops. revert n.
  induction ops as [|op ops IH]; intros n Hops Hinv; [done|].
  cbn [fold_left]. apply IH.
  - intros op' Hin. apply Hops. by right.
  - apply run_op_pinExclusion; [|done]. apply Hops. by left.
Qed.

End NoteMethodFacts.

(** ** The middleware against its collaborators *)
Section CollaborationFacts.
Import Middleware MiddlewareMore.

Variable w : World.

Lemma verifyIdToken_answer token :
  interp (answerFirebase w) (verifyIdToken token) ≈ Ret (verified w token).
Proof.
  unfold verifyIdToken, verified.
  rewrite interp_bind, interp_trigger. cbn. rewrite bind_ret_l.
  destruct (adminVerify w token); by rewrite interp_ret.
Qed.

(** One awaited call inside a [try] block: it is logged, and the block
    goes on with its value or stops with its error. *)
Lemma await_verify {B} token (k : DecodedToken -> itree authE (Completion B))
    log :
  interp_state (collaborate w) (try_bind (ITree.trigger (VerifyIdToken token)) k)
    log
  ≈ match verified w token with
    | Normal d => interp_state (collaborate w) (k d) (log ++ [CalledVerify token])
    | Threw msg => Ret (log ++ [CalledVerify token], Threw msg)
    end.
Proof.
  unfold try_bind. rewrite interp_state_bind, interp_state_trigger.
  cbn [collaborate]. rewrite verifyIdToken_answer, !bind_ret_l. cbn.
  destruct (verified w token); [reflexivity | by rewrite interp_state_ret].
Qed.

Lemma await_find {B} uid (k : option User -> itree authE (Completion B)) log :
  interp_state (collaborate w)
    (try_bind (ITree.trigger (FindByFirebaseUid uid)) k) log
  ≈ match directoryFind w uid with
    | Normal found =>
        interp_state (collaborate w) (k found) (log ++ [CalledFind uid])
    | Threw msg => Ret (log ++ [CalledFind uid], Threw msg)
    end.
Proof.
  unfold try_bind. rewrite interp_state_bind, interp_state_trigger.
  cbn [collaborate]. rewrite bind_ret_l. cbn.
  destruct (directoryFind w uid); [reflexivity | by rewrite interp_state_ret].
Qed.

Lemma await_update {B} u (k : unit -> itree authE (Completion B)) log :
  interp_state (collaborate w)
    (try_bind (ITree.trigger (UpdateLastLogin u)) k) log
  ≈ match directoryUpdate w u with
    | Normal x =>
        interp_state (collaborate w) (k x) (log ++ [CalledUpdate u])
    | Threw msg => Ret (log ++ [CalledUpdate u], Threw msg)
    end.
Proof.
  unfold try_bind. rewrite interp_state_bind, interp_state_trigger.
  cbn [collaborate]. rewrite bind_ret_l. cbn.
  destruct (directoryUpdate w u); [reflexivity | by rewrite interp_state_ret].
Qed.

(** A [try]/[catch] whose block has run to its completion. *)
Lemma run_try_catch {A} (body : itree authE (Completion A))
    (handler : string -> itree authE A) log (c : Completion A) :
  interp_state (collaborate w) body [] ≈ Ret (log, c) ->
  run w (try_catch body handler)
  ≈ match c with
    | Normal a => Ret (log, a)
    | Threw msg => interp_state (collaborate w) (handler msg) log
    end.
Proof.
  intros Hbody. unfold run, try_catch.
  rewrite interp_state_bind, Hbody, bind_ret_l. cbn.
  destruct c; [by rewrite interp_state_ret | reflexivity].
Qed.

(** X20.  A token that the Firebase SDK rejects, for whatever reason and
    with whatever message (an expired token included), is answered 401
    with the code [INVALID_TOKEN], after the one call to the verifier and
    none to the user directory: [verifyIdToken] replaces every SDK error
    by "Invalid token", so the code [TOKEN_EXPIRED] is never produced by
    the verifier. *)
Theorem rejected_token_is_invalid_token (req : Request) (token msg : string) :
  bearerToken (authorization (headers req)) = Some token ->
  adminVerify w token = Threw msg ->
  run w (authenticateToken req)
  ≈ Ret ([CalledVerify token], Responded 401 invalidTokenBody).
Proof.
  intros Htoken Hthrew. unfold authenticateToken. rewrite Htoken.
  rewrite (run_try_catch _ _ [CalledVerify token] (Threw "Invalid token")).
  - cbn. by rewrite interp_state_ret.
  - rewrite await_verify. unfold verified. rewrite Hthrew. reflexivity.
Qed.

Lemma run_try_bind {A B} (m : itree authE (Completion A))
    (k : A -> itree authE (Completion B)) log log' (c : Completion A) :
  interp_state (collaborate w) m log ≈ Ret (log', c) ->
  interp_state (collaborate w) (try_bind m k) log
  ≈ match c with
    | Normal a => interp_state (collaborate w) (k a) log'
    | Threw msg => Ret (log', Threw msg)
    end.
Proof.
  intros Hm. unfold try_bind.
  rewrite interp_state_bind, Hm, bind_ret_l. cbn.
  destruct c; [reflexivity | by rewrite interp_state_ret].
Qed.

Lemma call_create p log :
  interp_state (collaborate w) (ITree.trigger (CreateFromFirebase p)) log
  ≈ Ret (log ++ [CalledCreate p], directoryCreate w p).
Proof. by rewrite interp_state_trigger. Qed.

(** X21.  A first login registers the user, a later login refreshes it.
    With a verified token: when the directory knows the subject,
    [authenticateToken] calls the verifier, the lookup and
    [updateLastLogin], in this order, and passes the request on with that
    user and the claims attached; when the directory does not know it,
    the third call is [createFromFirebase] with the claims' uid and
    email, the display name taken from the claim [name] or else from the
    part of the email before '@', and the created user is attached. *)
Theorem authenticateToken_provisions (req : Request) (token : string)
    (d : DecodedToken) :
  bearerToken (authorization (headers req)) = Some token ->
  adminVerify w token = Normal d ->
  (forall u,
      directoryFind w (uid d) = Normal (Some u) ->
      directoryUpdate w u = Normal tt ->
      run w (authenticateToken req)
      ≈ Ret ([CalledVerify token; CalledFind (uid d); CalledUpdate u],
             Next (set_auth u d req)))
  /\ (forall e created,
        directoryFind w (uid d) = Normal None ->
        email d = Some e ->
        let profile :=
          {| profile_uid := uid d; profile_email := Some e;
             profile_displayName := shownName d e;
             profile_photoURL :=
               if truthy_string (picture d) then picture d else None;
             profile_emailVerified := default false (email_verified d) |} in
        directoryCreate w profile = Normal created ->
        run w (authenticateToken req)
        ≈ Ret ([CalledVerify token; CalledFind (uid d); CalledCreate profile],
               Next (set_auth created d req))).
Proof.
  intros Htoken Hverify.
  assert (Hv : verified w token = Normal d) by (unfold verified; by rewrite Hverify).
  split.
  - intros u Hfind Hupdate. unfold authenticateToken. rewrite Htoken.
    rewrite (run_try_catch _ _
               [CalledVerify token; CalledFind (uid d); CalledUpdate u]
               (Normal (Next (set_auth u d req)))); [reflexivity|].
    rewrite await_verify, Hv, await_find, Hfind.
    erewrite run_try_bind;
      [| rewrite await_update, Hupdate, interp_state_ret; reflexivity].
    cbn. by rewrite interp_state_ret.
  - intros e created Hfind Hemail profile Hcreate.
    unfold authenticateToken. rewrite Htoken.
    rewrite (run_try_catch _ _
               [CalledVerify token; CalledFind (uid d); CalledCreate profile]
               (Normal (Next (set_auth created d req)))); [reflexivity|].
    rewrite await_verify, Hv, await_find, Hfind.
    assert (Hshown :
      (if truthy_string (name d)
       then Ret (Normal (default "" (name d)))
       else match email d with
            | Some e0 => Ret (Normal (default "" (split "@" e0 !! 0%nat)))
            | None => Ret (Threw (typeErrorMessage "split"))
            end)
      = (Ret (Normal (shownName d e)) : itree authE (Completion string))).
    { unfold shownName. rewrite Hemail. by destruct (truthy_string (name d)). }
    rewrite Hshown.
    erewrite run_try_bind;
      [| erewrite run_try_bind; [| rewrite interp_state_ret; reflexivity];
         cbv beta iota; rewrite Hemail; fold profile;
         rewrite call_create, Hcreate; reflexivity].
    cbn. by rewrite interp_state_ret.
Qed.

(** Every run of [authenticateToken], by the answers of its
    collaborators. *)
Lemma authenticateToken_run (req : Request) :
  exists log outcome,
    run w (authenticateToken req) ≈ Ret (log, outcome)
    /\ match outcome with
       | Responded status body => status = 401 /\ success body = false
       | Next req' =>
           exists u d,
             req' = set_auth u d req
             /\ (directoryFind w (uid d) = Normal (Some u)
                 \/ exists p, directoryCreate w p = Normal u)
       end
    /\ forall p, In (CalledCreate p) log ->
         exists uid, In (CalledFind uid) log
                     /\ directoryFind w uid = Normal None.
Proof.
  unfold authenticateToken.
  match goal with
  | |- context [try_catch _ ?h] => set (handler := h)
  end.
  assert (Hcatch : forall msg log,
    exists body,
      interp_state (collaborate w) (handler msg) log
      ≈ Ret (log, Responded 401 body)
      /\ success body = false).
  { intros msg log. subst handler. cbv beta.
    destruct (includes "expired" msg);
      [|destruct (includes "Invalid token" msg || includes "invalid" msg)];
      eexists; (split; [by rewrite interp_state_ret | reflexivity]). }
  destruct (bearerToken (authorization (headers req))) as [token|].
  2: { exists [], (Responded 401 tokenRequiredBody).
       split; [|split; [done | by intros p []]].
       etransitivity;
         [apply (run_try_catch _ _
          []
          (Normal (Responded 401 tokenRequiredBody))); by rewrite interp_state_ret | reflexivity]. }
  destruct (verified w token) as [d|msg] eqn:Hv.
  2: { destruct (Hcatch msg [CalledVerify token]) as (body & Hb & Hs).
       exists [CalledVerify token], (Responded 401 body).
       split; [|split; [done | by intros p [[=]|[]]]].
       etransitivity;
         [apply (run_try_catch _ _
          [CalledVerify token]
          (Threw msg)); by rewrite await_verify, Hv | exact Hb]. }
  destruct (directoryFind w (uid d)) as [[u|]|msg] eqn:Hfind.
  - (* the directory knows the subject *)
    destruct (directoryUpdate w u) as [[]|msg] eqn:Hupdate.
    + exists [CalledVerify token; CalledFind (uid d); CalledUpdate u],
        (Next (set_auth u d req)).
      split; [|split; [by exists u, d; split; [|left]
                      | by intros p [[=]|[[=]|[[=]|[]]]]]].
      etransitivity; [apply (run_try_catch _ _
          [CalledVerify token; CalledFind (uid d); CalledUpdate u]
          (Normal (Next (set_auth u d req)))) | reflexivity].
      rewrite await_verify, Hv, await_find, Hfind.
      erewrite run_try_bind;
        [| rewrite await_update, Hupdate, interp_state_ret; reflexivity].
      cbn. by rewrite interp_state_ret.
    + destruct (Hcatch msg
                  [CalledVerify token; CalledFind (uid d); CalledUpdate u])
        as (body & Hb & Hs).
      exists [CalledVerify token; CalledFind (uid d); CalledUpdate u],
        (Responded 401 body).
      split; [|split; [done | by intros p [[=]|[[=]|[[=]|[]]]]]].
      etransitivity; [apply (run_try_catch _ _
          [CalledVerify token; CalledFind (uid d); CalledUpdate u]
          (Threw msg)) | exact Hb].
      rewrite await_verify, Hv, await_find, Hfind.
      erewrite run_try_bind;
        [| rewrite await_update, Hupdate; reflexivity].
      reflexivity.
  - (* the directory does not know the subject *)
    assert (Hshown :
      (exists shown,
          (if truthy_string (name d)
           then Ret (Normal (default "" (name d)))
           else match email d with
                | Some e => Ret (Normal (default "" (split "@" e !! 0%nat)))
                | None => Ret (Threw (typeErrorMessage "split"))
                end)
          = (Ret (Normal shown) : itree authE (Completion string)))
      \/ (if truthy_string (name d)
          then Ret (Normal (default "" (name d)))
          else match email d with
               | Some e => Ret (Normal (default "" (split "@" e !! 0%nat)))
               | None => Ret (Threw (typeErrorMessage "split"))
               end)
         = (Ret (Threw (typeErrorMessage "split"))
            : itree authE (Completion string))).
    { destruct (truthy_string (name d)); [left; eauto|].
      destruct (email d); [left; eauto | by right]. }
    destruct Hshown as [(shown & Hshown) | Hshown].
    + pose (profile :=
              {| profile_uid := uid d; profile_email := email d;
                 profile_displayName := shown;
                 profile_photoURL :=
                   if truthy_string (picture d) then picture d else None;
                 profile_emailVerified :=
                   default false (email_verified d) |}).
      destruct (directoryCreate w profile) as [created|msg] eqn:Hcreate.
      * exists [CalledVerify token; CalledFind (uid d); CalledCreate profile],
          (Next (set_auth created d req)).
        split; [|split; [exists created, d; split; [done|right; by exists profile]|]].
        2: { intros p _. exists (uid d). split; [right; by left | done]. }
        etransitivity; [apply (run_try_catch _ _
          [CalledVerify token; CalledFind (uid d); CalledCreate profile]
          (Normal (Next (set_auth created d req)))) | reflexivity].
        rewrite await_verify, Hv, await_find, Hfind, Hshown.
        erewrite run_try_bind;
          [| erewrite run_try_bind; [| rewrite interp_state_ret; reflexivity];
             cbv beta iota; fold profile;
             rewrite call_create, Hcreate; reflexivity].
        cbn. by rewrite interp_state_ret.
      * destruct (Hcatch msg
                    [CalledVerify token; CalledFind (uid d);
                     CalledCreate profile]) as (body & Hb & Hs).
        exists [CalledVerify token; CalledFind (uid d); CalledCreate profile],
          (Responded 401 body).
        split; [|split; [done|]].
        2: { intros p _. exists (uid d). split; [right; by left | done]. }
        etransitivity; [apply (run_try_catch _ _
          [CalledVerify token; CalledFind (uid d); CalledCreate profile]
          (Threw msg)) | exact Hb].
        rewrite await_verify, Hv, await_find, Hfind, Hshown.
        erewrite run_try_bind;
          [| erewrite run_try_bind; [| rewrite interp_state_ret; reflexivity];
             cbv beta iota; fold profile;
             rewrite call_create, Hcreate; reflexivity].
        reflexivity.
    + destruct (Hcatch (typeErrorMessage "split")
                  [CalledVerify token; CalledFind (uid d)])
        as (body & Hb & Hs).
      exists [CalledVerify token; CalledFind (uid d)], (Responded 401 body).
      split; [|split; [done | by intros p [[=]|[[=]|[]]]]].
      etransitivity; [apply (run_try_catch _ _
          [CalledVerify token; CalledFind (uid d)]
          (Threw (typeErrorMessage "split"))) | exact Hb].
      rewrite await_verify, Hv, await_find, Hfind, Hshown.
      erewrite run_try_bind;
        [| erewrite run_try_bind; [| rewrite interp_state_ret; reflexivity];
           cbv beta iota; reflexivity].
      reflexivity.
  - (* the lookup throws *)
    destruct (Hcatch msg [CalledVerify token; CalledFind (uid d)])
      as (body & Hb & Hs).
    exists [CalledVerify token; CalledFind (uid d)], (Responded 401 body).
    split; [|split; [done | by intros p [[=]|[[=]|[]]]]].
    etransitivity; [apply (run_try_catch _ _
          [CalledVerify token; CalledFind (uid d)]
          (Threw msg)) | exact Hb].
    by rewrite await_verify, Hv, await_find, Hfind.
Qed.

(** X22.  Whatever the collaborators answer or throw, a run of
    [authenticateToken] ends in one of two ways: it answers with status
    401 and [success: false], or it passes the request on with a user and
    the verified claims attached.  It asks the directory to create a user
    only after the directory's lookup found none. *)
Theorem authenticateToken_outcomes (req : Request) :
  exists log outcome,
    run w (authenticateToken req) ≈ Ret (log, outcome)
    /\ match outcome with
       | Responded status body => status = 401 /\ success body = false
       | Next req' => exists u d, req' = set_auth u d req
       end
    /\ forall p, In (CalledCreate p) log ->
         exists uid, In (CalledFind uid) log
                     /\ directoryFind w uid = Normal None.
Proof.
  destruct (authenticateToken_run req) as (log & outcome & Hrun & Hout & Hlog).
  exists log, outcome. split; [done|]. split; [|done].
  destruct outcome as [status body|req']; [done|].
  destruct Hout as (u & d & -> & _). by exists u, d.
Qed.

Lemma call_update {A} u (k : Completion unit -> itree authE A) log :
  interp_state (collaborate w) (ITree.bind (ITree.trigger (UpdateLastLogin u)) k)
    log
  ≈ interp_state (collaborate w) (k (directoryUpdate w u))
      (log ++ [CalledUpdate u]).
Proof.
  rewrite interp_state_bind, interp_state_trigger.
  cbn [collaborate]. rewrite bind_ret_l. reflexivity.
Qed.

Lemma verified_Normal token d :
  verified w token = Normal d <-> adminVerify w token = Normal d.
Proof. unfold verified. destruct (adminVerify w token); split; congruence. Qed.

(** X23.  [optionalAuth] never answers: whatever the collaborators answer
    or throw, it calls [next].  The request goes on unchanged, or with a
    user and claims attached, and then the token was verified and the
    directory's lookup found that user and it is active (a throw of
    [updateLastLogin] does not undo the attachment).  It never asks the
    directory to create a user. *)
Theorem optionalAuth_never_rejects (req : Request) :
  exists log req',
    run w (optionalAuth req) ≈ Ret (log, Next req')
    /\ (req' = req
        \/ exists token d u,
             bearerToken (authorization (headers req)) = Some token
             /\ adminVerify w token = Normal d
             /\ directoryFind w (uid d) = Normal (Some u)
             /\ isActive u = true
             /\ req' = set_auth u d req)
    /\ forall p, ~ In (CalledCreate p) log.
Proof.
  unfold optionalAuth.
  destruct (bearerToken (authorization (headers req))) as [token|] eqn:Htoken.
  2: { exists [], req. split; [|split; [by left | by intros p []]].
       etransitivity;
         [apply (run_try_catch _ _ [] (Normal (Next req)));
          by rewrite interp_state_ret
         | reflexivity]. }
  destruct (verified w token) as [d|msg] eqn:Hv.
  2: { exists [CalledVerify token], req.
       split; [|split; [by left | by intros p [[=]|[]]]].
       etransitivity;
         [apply (run_try_catch _ _ [CalledVerify token] (Threw msg));
          by rewrite await_verify, Hv |].
       cbv beta iota. by rewrite interp_state_ret. }
  destruct (directoryFind w (uid d)) as [[u|]|msg] eqn:Hfind.
  - destruct (isActive u) eqn:Hactive.
    + exists [CalledVerify token; CalledFind (uid d); CalledUpdate u],
        (set_auth u d req).
      split; [|split; [| by intros p [[=]|[[=]|[[=]|[]]]]]].
      2: { right. exists token, d, u. by rewrite <- verified_Normal. }
      etransitivity;
        [apply (run_try_catch _ _
                  [CalledVerify token; CalledFind (uid d); CalledUpdate u]
                  (Normal (Next (set_auth u d req))))
        | reflexivity].
      rewrite await_verify, Hv, await_find, Hfind, Hactive, call_update.
      destruct (directoryUpdate w u); by rewrite interp_state_ret.
    + exists [CalledVerify token; CalledFind (uid d)], req.
      split; [|split; [by left | by intros p [[=]|[[=]|[]]]]].
      etransitivity;
        [apply (run_try_catch _ _ [CalledVerify token; CalledFind (uid d)]
                  (Normal (Next req)))
        | reflexivity].
      rewrite await_verify, Hv, await_find, Hfind, Hactive.
      by rewrite interp_state_ret.
  - exists [CalledVerify token; CalledFind (uid d)], req.
    split; [|split; [by left | by intros p [[=]|[[=]|[]]]]].
    etransitivity;
      [apply (run_try_catch _ _ [CalledVerify token; CalledFind (uid d)]
                (Normal (Next req)))
      | reflexivity].
    rewrite await_verify, Hv, await_find, Hfind.
    by rewrite interp_state_ret.
  - exists [CalledVerify token; CalledFind (uid d)], req.
    split; [|split; [by left | by intros p [[=]|[[=]|[]]]]].
    etransitivity;
      [apply (run_try_catch _ _ [CalledVerify token; CalledFind (uid d)]
                (Threw msg))
      |].
    + by rewrite await_verify, Hv, await_find, Hfind.
    + cbv beta iota. by rewrite interp_state_ret.
Qed.

(** X24.  The guards behind [authenticateToken] never take their
    missing-user path.  On every request that [authenticateToken] passes
    on, [checkUserStatus] calls [next] or answers 403 (never 500),
    [requireEmailVerification] calls [next] or answers 403 (it does not
    throw), and [requireRole] calls [next] or answers 403 (never 401). *)
Theorem authenticated_request_reaches_guards (req : Request) :
  exists log outcome,
    run w (authenticateToken req) ≈ Ret (log, outcome)
    /\ forall req', outcome = Next req' ->
         (checkUserStatus req' = Next req'
          \/ checkUserStatus req' = Responded 403 accountInactiveBody)
         /\ (requireEmailVerification req' = Normal (Next req')
             \/ requireEmailVerification req'
                = Normal (Responded 403 emailNotVerifiedBody))
         /\ forall roles,
              requireRole roles req' = RoleNext req'
              \/ exists current,
                   requireRole roles req'
                   = RoleResponded 403 "Insufficient permissions"
                       (Some roles) (Some current).
Proof.
  destruct (authenticateToken_run req) as (log & outcome & Hrun & Hout & _).
  exists log, outcome. split; [done|].
  intros req' ->. destruct Hout as (u & d & -> & _).
  split; [|split].
  - unfold checkUserStatus. cbn. destruct (isActive u); auto.
  - unfold requireEmailVerification. cbn.
    destruct (default false (email_verified d)); auto.
  - intros roles. unfold requireRole. cbn.
    destruct (existsb _ roles); cbn; eauto.
Qed.

Lemma findByFirebaseUid_Some users subject u :
  findByFirebaseUid users subject = Some u ->
  In u users /\ firebaseUid u = subject /\ isActive u = true.
Proof.
  unfold findByFirebaseUid. intros Hfind.
  apply find_some in Hfind as [Hin Hu].
  apply andb_true_iff in Hu as [Huid Hactive].
  by apply String.eqb_eq in Huid.
Qed.

Lemma findByFirebaseUid_None users subject :
  findByFirebaseUid users subject = None <->
  forall u, In u users -> firebaseUid u = subject -> isActive u = false.
Proof.
  unfold findByFirebaseUid. split.
  - intros Hnone u Hin Huid.
    pose proof (find_none _ _ Hnone u Hin) as Hu. cbn in Hu.
    apply String.eqb_eq in Huid. rewrite Huid in Hu. exact Hu.
  - intros Hall.
    destruct (List.find _ users) as [u|] eqn:Hfind; [|done].
    apply find_some in Hfind as [Hin Hu].
    apply andb_true_iff in Hu as [Huid Hactive].
    apply String.eqb_eq in Huid. rewrite (Hall u Hin Huid) in Hactive.
    discriminate.
Qed.

(** X25.  The answer 403 [ACCOUNT_INACTIVE] cannot follow
    [authenticateToken].  When the directory's lookup is
    [User.findByFirebaseUid] over a collection (whose filter is
    [isActive: true]) and created documents are active (the default of
    the schema), [checkUserStatus] calls [next] on every request that
    [authenticateToken] passes on. *)
Theorem account_inactive_unreachable (users : list User) (req : Request) :
  (forall subject,
      directoryFind w subject = Normal (findByFirebaseUid users subject)) ->
  (forall p u, directoryCreate w p = Normal u -> isActive u = true) ->
  exists log outcome,
    run w (authenticateToken req) ≈ Ret (log, outcome)
    /\ forall req', outcome = Next req' -> checkUserStatus req' = Next req'.
Proof.
  intros Hdirectory Hcreated.
  destruct (authenticateToken_run req) as (log & outcome & Hrun & Hout & _).
  exists log, outcome. split; [done|].
  intros req' ->. destruct Hout as (u & d & -> & Hu).
  assert (Hactive : isActive u = true).
  { destruct Hu as [Hfound | [p Hp]]; [|by apply (Hcreated p)].
    rewrite Hdirectory in Hfound. injection Hfound as Hfound.
    by apply findByFirebaseUid_Some in Hfound as (_ & _ & ?). }
  unfold checkUserStatus. cbn. by rewrite Hactive.
Qed.

(** X26.  A deactivated account is registered again.  When the
    directory's lookup is [User.findByFirebaseUid] over a collection in
    which every document of the token's subject is deactivated, a request
    with a verified token of that subject (with an email claim) makes
    [authenticateToken] call [createFromFirebase] for that subject, as
    for a first login. *)
Theorem deactivated_account_registers_again (users : list User)
    (req : Request) (token : string) (d : DecodedToken) (e : string) :
  bearerToken (authorization (headers req)) = Some token ->
  adminVerify w token = Normal d ->
  email d = Some e ->
  (forall subject,
      directoryFind w subject = Normal (findByFirebaseUid users subject)) ->
  (forall u, In u users -> firebaseUid u = uid d -> isActive u = false) ->
  exists profile outcome,
    run w (authenticateToken req)
    ≈ Ret ([CalledVerify token; CalledFind (uid d); CalledCreate profile],
           outcome)
    /\ profile_uid profile = uid d
    /\ profile_email profile = Some e.
Proof.
  intros Htoken Hverify%verified_Normal Hemail Hdirectory Hinactive.
  apply findByFirebaseUid_None in Hinactive.
  pose proof (Hdirectory (uid d)) as Hfind. rewrite Hinactive in Hfind.
  pose (profile :=
          {| profile_uid := uid d; profile_email := Some e;
             profile_displayName := shownName d e;
             profile_photoURL :=
               if truthy_string (picture d) then picture d else None;
             profile_emailVerified := default false (email_verified d) |}).
  assert (Hbody : forall k : User -> itree authE (Completion Outcome),
    interp_state (collaborate w)
      (try_bind
         (try_bind
            (if truthy_string (name d)
             then Ret (Normal (default "" (name d)))
             else match email d with
                  | Some e0 =>
                      Ret (Normal (default "" (split "@" e0 !! 0%nat)))
                  | None => Ret (Threw (typeErrorMessage "split"))
                  end)
            (fun shown =>
               ITree.trigger
                 (CreateFromFirebase
                    {| profile_uid := uid d; profile_email := email d;
                       profile_displayName := shown;
                       profile_photoURL :=
                         if truthy_string (picture d) then picture d
                         else None;
                       profile_emailVerified :=
                         default false (email_verified d) |})))
         k)
      [CalledVerify token; CalledFind (uid d)]
    ≈ match directoryCreate w profile with
      | Normal created =>
          interp_state (collaborate w) (k created)
            [CalledVerify token; CalledFind (uid d); CalledCreate profile]
      | Threw msg =>
          Ret ([CalledVerify token; CalledFind (uid d); CalledCreate profile],
               Threw msg)
      end).
  { intros k.
    assert (Hshown :
      (if truthy_string (name d)
       then Ret (Normal (default "" (name d)))
       else match email d with
            | Some e0 => Ret (Normal (default "" (split "@" e0 !! 0%nat)))
            | None => Ret (Threw (typeErrorMessage "split"))
            end)
      = (Ret (Normal (shownName d e)) : itree authE (Completion string))).
    { unfold shownName. rewrite Hemail. by destruct (truthy_string (name d)). }
    rewrite Hshown.
    erewrite run_try_bind;
      [| erewrite run_try_bind; [| rewrite interp_state_ret; reflexivity];
         cbv beta iota; rewrite Hemail; fold profile;
         rewrite call_create; reflexivity].
    reflexivity. }
  unfold authenticateToken. rewrite Htoken.
  match goal with
  | |- context [try_catch _ ?h] => set (handler := h)
  end.
  destruct (directoryCreate w profile) as [created|msg] eqn:Hcreate.
  - exists profile, (Next (set_auth created d req)).
    split; [|done].
    etransitivity;
      [apply (run_try_catch _ _
                [CalledVerify token; CalledFind (uid d); CalledCreate profile]
                (Normal (Next (set_auth created d req))))
      | reflexivity].
    rewrite await_verify, Hverify, await_find, Hfind, Hbody.
    by rewrite interp_state_ret.
  - assert (Hcatch : exists body,
      interp_state (collaborate w) (handler msg)
        [CalledVerify token; CalledFind (uid d); CalledCreate profile]
      ≈ Ret ([CalledVerify token; CalledFind (uid d); CalledCreate profile],
             Responded 401 body)).
    { subst handler. cbv beta.
      destruct (includes "expired" msg);
        [|destruct (includes "Invalid token" msg || includes "invalid" msg)];
        eexists; by rewrite interp_state_ret. }
    destruct Hcatch as (body & Hb).
    exists profile, (Responded 401 body).
    split; [|done].
    etransitivity;
      [apply (run_try_catch _ _
                [CalledVerify token; CalledFind (uid d); CalledCreate profile]
                (Threw msg))
      | exact Hb].
    by rewrite await_verify, Hverify, await_find, Hfind, Hbody.
Qed.

End CollaborationFacts.

(** ** The ownership gate lets only owners through *)
Section GateSoundness.
Import Middleware.

Context {E : Type -> Type}.
Variable resourceModel : ResourceModel E.
Variable resourceParam : string.

(** X27.  Whenever [validateResourceOwnership] calls [next], the lookup
    found a resource, the request carries a user, the request handed on
    is the incoming one with that resource attached, and the resource's
    owner reference equals the user's id or its Firebase uid equals the
    subject of the request's claims.  A request without a user, a
    resource that is not found and a lookup that throws never reach
    [next]. *)
Theorem validateResourceOwnership_sound (req req' : Request)
    (c : Completion (option Resource.t)) :
  findById resourceModel (params req !! resourceParam) ≅ Ret c ->
  validateResourceOwnership resourceModel resourceParam req ≅ Ret (Next req') ->
  exists res u,
    c = Normal (Some res)
    /\ user req = Some u
    /\ req' = set_resource res req
    /\ (Resource.user res = _id u
        \/ exists d, firebaseUser req = Some d
                     /\ Resource.firebaseUid res = uid d).
Proof.
  intros Hfind Hgate.
  unfold validateResourceOwnership, try_catch, try_bind in Hgate.
  cbv zeta in Hgate. rewrite Hfind, !bind_ret_l in Hgate.
  destruct c as [[res|]|msg].
  - destruct (user req) as [u|] eqn:Hu; rewrite !bind_ret_l in Hgate.
    + destruct (String.eqb_spec (Resource.user res) (_id u)) as [Heq|Hne];
        cbn [negb] in Hgate.
      * rewrite !bind_ret_l in Hgate. apply eqit_inv_Ret in Hgate.
        injection Hgate as <-. exists res, u.
        split; [done|]. split; [done|]. split; [done|]. by left.
      * destruct (firebaseUser req) as [d|] eqn:Hd;
          rewrite !bind_ret_l in Hgate.
        -- destruct (String.eqb_spec (Resource.firebaseUid res) (uid d))
             as [Heq|Hne']; cbn [negb] in Hgate;
             rewrite ?bind_ret_l in Hgate; apply eqit_inv_Ret in Hgate;
             [|discriminate].
           injection Hgate as <-. exists res, u.
           split; [done|]. split; [done|]. split; [done|].
           right. by exists d.
        -- apply eqit_inv_Ret in Hgate. discriminate.
    + apply eqit_inv_Ret in Hgate. discriminate.
  - rewrite ?bind_ret_l in Hgate. apply eqit_inv_Ret in Hgate. discriminate.
  - rewrite ?bind_ret_l in Hgate. apply eqit_inv_Ret in Hgate. discriminate.
Qed.

End GateSoundness.

(** ** The rate limiter over a sequence of requests *)
Section ServingFacts.
Import Middleware MiddlewareMore.

Variable tooManyRequestsText : Z -> Z -> string.
Variables windowMs max : Z.
Variable message : option string.

Lemma filter_filter_implied {A} (f g : A -> bool) (l : list A) :
  (forall x, f x = true -> g x = true) ->
  List.filter f (List.filter g l) = List.filter f l.
Proof.
  intros Himp. induction l as [|x l IH]; [done|]. cbn.
  destruct (g x) eqn:Hg; cbn.
  - by rewrite IH.
  - destruct (f x) eqn:Hf; [|done]. apply Himp in Hf. congruence.
Qed.

Lemma filter_length_implied {A} (f g : A -> bool) (l : list A) :
  (forall x, f x = true -> g x = true) ->
  (length (List.filter f l) <= length (List.filter g l))%nat.
Proof.
  intros Himp. induction l as [|x l IH]; [done|]. cbn.
  destruct (f x) eqn:Hf.
  - rewrite (Himp x Hf). cbn. lia.
  - destruct (g x); cbn; lia.
Qed.

Lemma filter_app_list {A} (f : A -> bool) (l1 l2 : list A) :
  List.filter f (l1 ++ l2) = List.filter f l1 ++ List.filter f l2.
Proof. apply List.filter_app. Qed.

(** A request of another user, or of none, leaves the user's entry
    alone. *)
Lemma limiter_other_user userId now req table :
  requestOf userId req = false ->
  (createUserRateLimit tooManyRequestsText windowMs max message now req
     table).2 !! userId
  = table !! userId.
Proof.
  unfold requestOf, createUserRateLimit. intros Hother.
  destruct (user req) as [u|]; [|done]. cbv zeta.
  apply String.eqb_neq in Hother.
  destruct (max <=? _); cbn; [done|]. by rewrite lookup_insert_ne.
Qed.

(** What the limiter does with a request of a user depends on the table
    through that user's entry only. *)
Lemma limiter_by_entry u now req table1 table2 :
  user req = Some u ->
  table1 !! _id u = table2 !! _id u ->
  let served1 :=
    createUserRateLimit tooManyRequestsText windowMs max message now req
      table1 in
  let served2 :=
    createUserRateLimit tooManyRequestsText windowMs max message now req
      table2 in
  served1.1 = served2.1 /\ served1.2 !! _id u = served2.2 !! _id u.
Proof.
  intros Hu Hentry. unfold createUserRateLimit. rewrite Hu. cbv zeta.
  rewrite Hentry. destruct (max <=? _); cbn; [done|].
  by rewrite !lookup_insert_eq.
Qed.

Lemma passedTimes_agree userId requests table1 table2 :
  table1 !! userId = table2 !! userId ->
  passedTimes tooManyRequestsText windowMs max message userId requests table1
  = passedTimes tooManyRequestsText windowMs max message userId
      (List.filter (fun r => requestOf userId r.2) requests) table2.
Proof.
  revert table1 table2.
  induction requests as [|[now req] rest IH]; intros table1 table2 Hentry;
    [done|].
  cbn [List.filter snd]. destruct (requestOf userId req) eqn:Hof.
  - cbn [passedTimes]. cbv zeta.
    unfold requestOf in Hof. destruct (user req) as [u|] eqn:Hu; [|done].
    apply String.eqb_eq in Hof. subst userId.
    destruct (limiter_by_entry u now req table1 table2 Hu Hentry)
      as [Hout Htable].
    cbv zeta in Hout, Htable. rewrite Hout. f_equal. by apply IH.
  - cbn [passedTimes]. cbv zeta.
    rewrite (IH _ table2);
      [|by rewrite limiter_other_user].
    unfold requestOf in Hof.
    destruct (createUserRateLimit _ _ _ _ _ _ _).1; [done|].
    destruct (user req) as [u|]; [|done]. by rewrite Hof.
Qed.

(** X28.  Users do not interfere.  The requests of a user that the
    limiter lets pass are the same whether or not the requests of other
    users (and the requests without a user) are served in between. *)
Theorem limiter_users_independent (userId : string)
    (requests : list (Z * Request)) (table : gmap string (list Z)) :
  passedTimes tooManyRequestsText windowMs max message userId requests table
  = passedTimes tooManyRequestsText windowMs max message userId
      (List.filter (fun r => requestOf userId r.2) requests) table.
Proof. by apply passedTimes_agree. Qed.

Lemma window_bounded_snoc passed now :
  window_bounded windowMs max passed ->
  Z.of_nat (length (List.filter (fun time => now - windowMs <? time) passed))
  < max ->
  window_bounded windowMs max (passed ++ [now]).
Proof.
  intros Hbounded Hroom till.
  rewrite List.filter_app, length_app, Nat2Z.inj_add.
  destruct (Z.lt_ge_cases till now) as [Hbefore|Hafter].
  - assert (Hout : inWindow windowMs till now = false).
    { unfold inWindow. apply andb_false_iff. right. lia. }
    cbn. rewrite Hout. cbn. specialize (Hbounded till). lia.
  - assert (Hle :
      (length (List.filter (inWindow windowMs till) passed)
       <= length (List.filter (fun time => (now - windowMs <? time)%Z) passed))%nat).
    { apply filter_length_implied. intros t Ht. unfold inWindow in Ht.
      apply andb_true_iff in Ht as [Ht _]. lia. }
    assert (Hone : (length (List.filter (inWindow windowMs till) [now]) <= 1)%nat).
    { cbn. destruct (inWindow windowMs till now); cbn; lia. }
    lia.
Qed.

Lemma limiter_window_step userId requests :
  forall table passed from,
    StronglySorted Z.le (List.map fst requests) ->
    Forall (Z.le from) (List.map fst requests) ->
    entry_agrees (from - windowMs) (default [] (table !! userId)) passed ->
    window_bounded windowMs max passed ->
    window_bounded windowMs max
      (passed
       ++ passedTimes tooManyRequestsText windowMs max message userId
            requests table).
Proof.
  induction requests as [|[now req] rest IH];
    intros table passed from Hsorted Hfrom Hagrees Hbounded.
  { cbn. by rewrite app_nil_r. }
  cbn [List.map fst] in Hsorted, Hfrom.
  apply StronglySorted_inv in Hsorted as [Hsorted Hlater].
  apply Forall_cons in Hfrom as [Hnow _].
  assert (Hagrees' : entry_agrees (now - windowMs)
                       (default [] (table !! userId)) passed).
  { intros c Hc. apply Hagrees. lia. }
  cbn [passedTimes]. cbv zeta. rewrite app_assoc.
  destruct (requestOf userId req) eqn:Hof.
  - unfold requestOf in Hof. destruct (user req) as [u|] eqn:Hu; [|done].
    pose proof Hof as Hid. apply String.eqb_eq in Hid. subst userId.
    unfold createUserRateLimit. rewrite Hu. cbv zeta.
    set (recent := List.filter (fun time => now - windowMs <? time)
                     (default [] (table !! _id u))).
    assert (Hrecent :
      recent = List.filter (fun time => now - windowMs <? time) passed).
    { subst recent. by apply Hagrees'. }
    destruct (max <=? Z.of_nat (length recent)) eqn:Hfull.
    + cbn [fst snd]. rewrite app_nil_r.
      by apply (IH _ _ now).
    + cbn [fst snd]. rewrite Hof.
      apply (IH _ _ now); [done | done | |].
      * rewrite lookup_insert_eq. cbn [default from_option id].
        intros c Hc. rewrite !List.filter_app. f_equal.
        subst recent. rewrite filter_filter_implied; [|intros t Ht; lia].
        by apply Hagrees'.
      * apply window_bounded_snoc; [done|]. rewrite <- Hrecent. lia.
  - assert (Hnone :
      match
        (createUserRateLimit tooManyRequestsText windowMs max message now req
           table).1, user req
      with
      | Next _, Some u => if String.eqb (_id u) userId then [now] else []
      | _, _ => []
      end = []).
    { unfold requestOf in Hof.
      destruct (createUserRateLimit _ _ _ _ _ _ _).1; [done|].
      destruct (user req) as [u|]; [|done]. by rewrite Hof. }
    rewrite Hnone, app_nil_r.
    apply (IH _ _ now); [done | done | | done].
    by rewrite limiter_other_user.
Qed.

(** X29.  The sliding window holds.  When a fresh limiter serves requests
    whose clock readings do not decrease, then in every window of
    [windowMs] milliseconds (open at its start, closed at its end) at
    most [max] requests of one user are let pass. *)
Theorem limiter_sliding_window (userId : string)
    (requests : list (Z * Request)) (till : Z) :
  0 <= max ->
  Sorted Z.le (List.map fst requests) ->
  Z.of_nat
    (length
       (List.filter (inWindow windowMs till)
          (passedTimes tooManyRequestsText windowMs max message userId
             requests ∅)))
  <= max.
Proof.
  intros Hmax Hsorted.
  apply Sorted_StronglySorted in Hsorted; [|intros x y z; lia].
  destruct requests as [|[now req] rest] eqn:Hrequests; [cbn; lia|].
  rewrite <- Hrequests in *.
  assert (Hfrom : Forall (Z.le now) (List.map fst requests)).
  { subst requests. cbn [List.map fst] in *.
    apply StronglySorted_inv in Hsorted as [_ Hlater].
    apply Forall_cons. split; [lia | done]. }
  pose proof (limiter_window_step userId requests ∅ [] now Hsorted Hfrom)
    as Hstep.
  cbn [app] in Hstep. apply Hstep.
  - intros c _. by rewrite lookup_empty.
  - intros t. cbn. lia.
Qed.

(** X30.  The table stays small per user.  After a fresh limiter has
    served any sequence of requests, every entry of its table holds at
    least one and at most [max] clock readings. *)
Theorem limiter_table_entries_bounded (requests : list (Z * Request))
    (userId : string) (times : list Z) :
  tableAfter tooManyRequestsText windowMs max message requests ∅ !! userId
  = Some times ->
  (0 < length times)%nat /\ Z.of_nat (length times) <= max.
Proof.
  unfold tableAfter.
  assert (Hgen : forall table : gmap string (list Z),
    (forall v l, table !! v = Some l ->
       (0 < length l)%nat /\ Z.of_nat (length l) <= max) ->
    forall v l,
      fold_left
        (fun tbl '(now, req) =>
           (createUserRateLimit tooManyRequestsText windowMs max message now
              req tbl).2)
        requests table !! v = Some l ->
      (0 < length l)%nat /\ Z.of_nat (length l) <= max).
  { induction requests as [|[now req] rest IH]; intros table Hgood; [done|].
    cbn [fold_left]. apply IH.
    intros v l. unfold createUserRateLimit.
    destruct (user req) as [u|]; [|by apply Hgood]. cbv zeta.
    destruct (max <=? _) eqn:Hfull; cbn [snd]; [by apply Hgood|].
    destruct (decide (v = _id u)) as [->|Hne].
    - rewrite lookup_insert_eq. intros [= <-].
      rewrite length_app. cbn [length]. lia.
    - rewrite lookup_insert_ne; [|done]. by apply Hgood. }
  apply Hgen. intros v l. by rewrite lookup_empty.
Qed.

End ServingFacts.

(** ** The further properties at sample inputs *)

(** X3 at the one-off reminder, snoozed for the default ten minutes at
    2024-01-01T10:00Z, in UTC. *)
Lemma snooze_hides_until_expiry_sample :
  ReminderMore.snooze Samples.utc None true 1704103200000 1704103200001
    Samples.oneOffReminder
  = ReminderModel.Saved
      (ReminderModel.document
         (ReminderMore.snooze Samples.utc None true 1704103200000
            1704103200001 Samples.oneOffReminder))
  /\ ReminderModel.snoozeUntil
       (ReminderModel.document
          (ReminderMore.snooze Samples.utc None true 1704103200000
             1704103200001 Samples.oneOffReminder))
     = Some (Some 1704103800000).
Proof.
  destruct (snooze_hides_until_expiry Samples.utc None true 1704103200000
              1704103200001 1704103800000 Samples.oneOffReminder eq_refl)
    as (_ & Huntil & _ & _ & Hsaved).
  - unfold CalendarSpec.maxTime. lia.
  - lia.
  - split; [exact (Hsaved eq_refl eq_refl) | exact Huntil].
Defined.

(** X4 at the one-off reminder. *)
Lemma dismiss_one_off_sample :
  ReminderModel.isActive
    (ReminderModel.document
       (ReminderModel.dismiss Samples.utc true 1704103260000 1704103260001
          Samples.oneOffReminder)) = false.
Proof.
  destruct (dismiss_one_off Samples.utc true 1704103260000 1704103260001
              Samples.oneOffReminder eq_refl) as (Hactive & _).
  exact Hactive.
Defined.

(** X5 at the one-off reminder. *)
Lemma markCompleted_one_off_sample :
  ReminderModel.isCompleted
    (ReminderModel.document
       (ReminderModel.markCompleted Samples.utc true 1704103260000
          1704103260001 1704103260002 Samples.oneOffReminder)) = true
  /\ ReminderModel.occurrences
       (ReminderModel.document
          (ReminderModel.markCompleted Samples.utc true 1704103260000
             1704103260001 1704103260002 Samples.oneOffReminder)) = [].
Proof.
  destruct (markCompleted_one_off Samples.utc true 1704103260000
              1704103260001 1704103260002 Samples.oneOffReminder eq_refl)
    as (Hcompleted & _ & Hoccurrences & _).
  split; [exact Hcompleted | exact Hoccurrences].
Defined.

(** X6 at the reminder that recurs every three days. *)
Lemma dismiss_schedules_like_markCompleted_sample :
  ReminderModel.reminderDateTime
    (ReminderModel.document
       (ReminderModel.dismiss Samples.utc true 1704103260001 1704103260002
          (Samples.recurringReminder Samples.everyThreeDays)))
  = ReminderModel.reminderDateTime
      (ReminderModel.document
         (ReminderModel.markCompleted Samples.utc true 1704103260000
            1704103260001 1704103260002
            (Samples.recurringReminder Samples.everyThreeDays))).
Proof.
  destruct (dismiss_schedules_like_markCompleted Samples.utc true true
              1704103260000 1704103260001 1704103260002
              (Samples.recurringReminder Samples.everyThreeDays) eq_refl)
    as (_ & Hdate & _).
  exact Hdate.
Defined.

(** X7 at the one-off reminder, which has no tags. *)
Lemma addTag_once_sample :
  NoDup (ReminderModel.tags
           (ReminderMore.returnedDocument
              (ReminderMore.addTag Samples.utc MoreSamples.trim "home" true
                 1704103260000 Samples.oneOffReminder))).
Proof.
  destruct (addTag_once Samples.utc MoreSamples.trim "home" true true
              1704103260000 1704103260001 Samples.oneOffReminder eq_refl)
    as (_ & Hnodup & _).
  apply Hnodup. constructor.
Defined.

(** The test of [addTag] reads the tag as given and the path stores it
    trimmed: a tag with a space in front is added each time. *)
Example addTag_with_a_space_in_front :
  ReminderModel.tags
    (ReminderMore.returnedDocument
       (ReminderMore.addTag Samples.utc MoreSamples.trim " home" true
          1704103260001
          (ReminderMore.returnedDocument
             (ReminderMore.addTag Samples.utc MoreSamples.trim " home" true
                1704103260000 Samples.oneOffReminder))))
  = ["home"; "home"].
Proof. vm_compute. reflexivity. Qed.

(** X8 at the one-off reminder, which has no tags. *)
Lemma removeTag_exact_sample :
  ReminderModel.tags
    (ReminderModel.document
       (ReminderMore.removeTag Samples.utc "home" true 1704103260001
          (ReminderMore.returnedDocument
             (ReminderMore.addTag Samples.utc MoreSamples.trim "home" true
                1704103260000 Samples.oneOffReminder))))
  = ReminderModel.tags Samples.oneOffReminder.
Proof.
  destruct (removeTag_exact Samples.utc MoreSamples.trim "home" true true
              1704103260000 1704103260001 Samples.oneOffReminder)
    as (_ & _ & Hback).
  apply Hback; [intros [] | reflexivity].
Defined.

(** X9 at the one-off reminder. *)
Lemma isOverdue_iff_negative_timeUntilReminder_sample :
  ReminderMore.isOverdue Samples.jan_4_2024_10h Samples.oneOffReminder = true
  <-> exists d : Z,
        ReminderMore.timeUntilReminder Samples.jan_4_2024_10h
          Samples.oneOffReminder = Some (Some d)
        /\ d < 0.
Proof.
  apply (isOverdue_iff_negative_timeUntilReminder Samples.jan_4_2024_10h
           Samples.oneOffReminder).
  intros t Ht. injection Ht as <-. vm_compute. discriminate.
Defined.

(** X10 at a collection that holds the one-off reminder. *)
Lemma findOverdue_exact_sample :
  In Samples.oneOffReminder
    (ReminderMore.findOverdue "64b000000000000000000001"
       Samples.jan_4_2024_10h [Samples.oneOffReminder]).
Proof.
  destruct (findOverdue_exact "64b000000000000000000001"
              Samples.jan_4_2024_10h [Samples.oneOffReminder])
    as (Hexact & _).
  apply (Hexact Samples.oneOffReminder).
  - by exists Samples.jan_1_2024_10h.
  - split; [by left|]. split; reflexivity.
Defined.

(** X11 at a collection that holds the one-off reminder, with the default
    24 hours. *)
Lemma overdue_upcoming_partition_sample :
  In Samples.oneOffReminder
    (ReminderMore.findOverdue "64b000000000000000000001"
       Samples.jan_4_2024_10h [Samples.oneOffReminder])
  \/ In Samples.oneOffReminder
       (ReminderMore.findUpcoming "64b000000000000000000001" None
          Samples.jan_4_2024_10h [Samples.oneOffReminder]).
Proof.
  destruct (overdue_upcoming_partition "64b000000000000000000001" None
              Samples.jan_4_2024_10h [Samples.oneOffReminder]
              Samples.oneOffReminder) as (_ & Hcover).
  apply Hcover.
  - cbn. lia.
  - unfold CalendarSpec.maxTime, Samples.jan_4_2024_10h. cbn. lia.
  - split; [by left|]. split; [reflexivity|]. split; [reflexivity|].
    split; [reflexivity|]. exists Samples.jan_1_2024_10h.
    split; [reflexivity|].
    unfold Samples.jan_1_2024_10h, Samples.jan_4_2024_10h. cbn. lia.
Defined.

(** X13 at the reminder that recurs every three days, in UTC. *)
Lemma calculateNextTrigger_later_sample :
  ReminderModel.nextTrigger
    (ReminderModel.calculateNextTrigger Samples.utc
       (Samples.recurringReminder Samples.everyThreeDays))
  = ReminderModel.Stored Samples.jan_4_2024_10h
  /\ Samples.jan_1_2024_10h < Samples.jan_4_2024_10h.
Proof.
  split; [reflexivity|].
  apply (calculateNextTrigger_later Samples.utc
           (Samples.recurringReminder Samples.everyThreeDays)
           Samples.jan_1_2024_10h Samples.jan_4_2024_10h 3).
  - reflexivity.
  - left. split; [reflexivity | vm_compute; discriminate].
  - intros s s'. reflexivity.
  - lia.
  - repeat split; intros Hty; discriminate Hty.
  - reflexivity.
Defined.

(** X17 at a fresh note. *)
Lemma archive_round_trip_loses_pin_sample :
  NoteModel.isPinned
    (NoteModel.toggleArchive MoreSamples.keepCase 2
       (NoteModel.toggleArchive MoreSamples.keepCase 1
          MoreSamples.freshNote)) = false.
Proof.
  destruct (archive_round_trip_loses_pin MoreSamples.keepCase 1 2
              MoreSamples.freshNote eq_refl) as (_ & Hpin & _).
  exact Hpin.
Defined.

(** X18 at a fresh note, which has no labels. *)
Lemma labels_as_set_sample :
  NoteModel.labels
    (NoteModel.removeLabel MoreSamples.keepCase "work" 2
       (NoteModel.addLabel MoreSamples.keepCase MoreSamples.trim "work" 1
          MoreSamples.freshNote))
  = NoteModel.labels MoreSamples.freshNote.
Proof.
  destruct (labels_as_set MoreSamples.keepCase MoreSamples.trim "work" 1 2
              MoreSamples.freshNote eq_refl)
    as (_ & _ & _ & _ & _ & Hback).
  apply Hback. intros [].
Defined.

(** X19 at a fresh note that is archived and then moved to the bin. *)
Lemma run_ops_pinExclusion_sample :
  NoteModel.pinExclusion
    (NoteModel.run_ops MoreSamples.keepCase MoreSamples.trim
       [NoteModel.ToggleArchive 1; NoteModel.SoftDelete 2 3]
       MoreSamples.freshNote).
Proof.
  apply (run_ops_pinExclusion MoreSamples.keepCase MoreSamples.trim).
  - intros op [<-|[<-|[]]] now; discriminate.
  - intros Hpinned. discriminate Hpinned.
Defined.

(** X20 at a token that the SDK rejects as expired. *)
Lemma rejected_token_is_invalid_token_sample :
  MiddlewareMore.run (MoreSamples.sampleWorld [Samples.userA])
    (Middleware.authenticateToken (MoreSamples.requestWith "old.id.token"))
  ≈ Ret ([MiddlewareMore.CalledVerify "old.id.token"],
         Middleware.Responded 401 MiddlewareMore.invalidTokenBody).
Proof.
  apply (rejected_token_is_invalid_token
           (MoreSamples.sampleWorld [Samples.userA])
           (MoreSamples.requestWith "old.id.token") "old.id.token"
           "Firebase ID token has expired");
    reflexivity.
Defined.

(** X21 at a later login of user A. *)
Lemma authenticateToken_provisions_sample :
  MiddlewareMore.run (MoreSamples.sampleWorld [Samples.userA])
    (Middleware.authenticateToken (MoreSamples.requestWith "some.id.token"))
  ≈ Ret ([MiddlewareMore.CalledVerify "some.id.token";
          MiddlewareMore.CalledFind "uid-A";
          MiddlewareMore.CalledUpdate Samples.userA],
         Middleware.Next
           (Middleware.set_auth Samples.userA
              (Samples.tokenOf "uid-A" "a@example.com")
              (MoreSamples.requestWith "some.id.token"))).
Proof.
  destruct (authenticateToken_provisions
              (MoreSamples.sampleWorld [Samples.userA])
              (MoreSamples.requestWith "some.id.token") "some.id.token"
              (Samples.tokenOf "uid-A" "a@example.com") eq_refl eq_refl)
    as (Hlater & _).
  apply (Hlater Samples.userA); reflexivity.
Defined.

(** X25 at a directory that holds user A. *)
Lemma account_inactive_unreachable_sample :
  exists log outcome,
    MiddlewareMore.run (MoreSamples.sampleWorld [Samples.userA])
      (Middleware.authenticateToken (MoreSamples.requestWith "some.id.token"))
    ≈ Ret (log, outcome)
    /\ forall req',
         outcome = Middleware.Next req' ->
         MiddlewareMore.checkUserStatus req' = Middleware.Next req'.
Proof.
  apply (account_inactive_unreachable
           (MoreSamples.sampleWorld [Samples.userA]) [Samples.userA]
           (MoreSamples.requestWith "some.id.token")).
  - intros subject. reflexivity.
  - intros p u Hcreated. injection Hcreated as <-. reflexivity.
Defined.

(** X26 at a directory that holds the deactivated document of user A. *)
Lemma deactivated_account_registers_again_sample :
  exists profile outcome,
    MiddlewareMore.run (MoreSamples.sampleWorld [MoreSamples.deactivatedA])
      (Middleware.authenticateToken (MoreSamples.requestWith "some.id.token"))
    ≈ Ret ([MiddlewareMore.CalledVerify "some.id.token";
            MiddlewareMore.CalledFind "uid-A";
            MiddlewareMore.CalledCreate profile], outcome)
    /\ Middleware.profile_uid profile = "uid-A"
    /\ Middleware.profile_email profile = Some "a@example.com".
Proof.
  apply (deactivated_account_registers_again
           (MoreSamples.sampleWorld [MoreSamples.deactivatedA])
           [MoreSamples.deactivatedA]
           (MoreSamples.requestWith "some.id.token") "some.id.token"
           (Samples.tokenOf "uid-A" "a@example.com") "a@example.com").
  - reflexivity.
  - reflexivity.
  - reflexivity.
  - intros subject. reflexivity.
  - intros u [<-|[]] _. reflexivity.
Defined.

(** X27 at user A asking for a note of their own. *)
Lemma validateResourceOwnership_sound_sample :
  exists res u,
    Middleware.Normal (Some Samples.noteOfA) = Middleware.Normal (Some res)
    /\ Middleware.user MoreSamples.requestOfA = Some u
    /\ Middleware.set_resource Samples.noteOfA MoreSamples.requestOfA
       = Middleware.set_resource res MoreSamples.requestOfA
    /\ (Middleware.Resource.user res = Middleware._id u
        \/ exists d,
             Middleware.firebaseUser MoreSamples.requestOfA = Some d
             /\ Middleware.Resource.firebaseUid res = Middleware.uid d).
Proof.
  apply (validateResourceOwnership_sound
           (Samples.snapshotModel Samples.notesOfA) "id"
           MoreSamples.requestOfA
           (Middleware.set_resource Samples.noteOfA MoreSamples.requestOfA)
           (Middleware.Normal (Some Samples.noteOfA))).
  - reflexivity.
  - apply (ownership_granted (Samples.snapshotModel Samples.notesOfA) "id"
             MoreSamples.requestOfA Samples.userA
             (Samples.tokenOf "uid-A" "a@example.com") Samples.noteOfA);
      [reflexivity | reflexivity | reflexivity | left; reflexivity].
Defined.

(** X29 at the burst of user A with three requests a second: of the five
    requests within the window that ends at 400 ms, at most three pass. *)
Lemma limiter_sliding_window_sample :
  Z.of_nat
    (length
       (List.filter (MiddlewareMore.inWindow 1000 400)
          (MiddlewareMore.passedTimes Samples.plainText 1000 3 None
             "64b000000000000000000001" MoreSamples.burst ∅)))
  <= 3.
Proof.
  apply (limiter_sliding_window Samples.plainText 1000 3 None
           "64b000000000000000000001" MoreSamples.burst 400).
  - lia.
  - unfold MoreSamples.burst. cbn [List.map fst].
    repeat (constructor; try lia).
Defined.

(** X30 at the burst: the entry of user A holds the three readings that
    passed. *)
Lemma limiter_table_entries_bounded_sample :
  MiddlewareMore.tableAfter Samples.plainText 1000 3 None MoreSamples.burst ∅
    !! "64b000000000000000000001" = Some [0; 100; 200]
  /\ (0 < length [0; 100; 200])%nat
  /\ Z.of_nat (length [0; 100; 200]) <= 3.
Proof.
  split; [vm_compute; reflexivity|].
  apply (limiter_table_entries_bounded Samples.plainText 1000 3 None
           MoreSamples.burst "64b000000000000000000001" [0; 100; 200]).
  vm_compute. reflexivity.
Defined.
